(** * CSV / IIF / QBO exporter: a shallow embedding and its properties

    The development follows the services of the repository:

    - [CsvProcessor]  : [src/services/csvProcessor.ts]
                        (ledger ingestion and the 16:00 reporting-day grouper);
    - [Converter]     : [converter.service.ts] (the legacy IIF converter,
                        General-Ledger and Accounts-Payable modes);
    - [QBSync]        : [qbSync.service.cjs] (mapping refresh, name resolution,
                        per-document submission);

    and the code that calls them:

    - [Main]          : [main.cjs] (the IPC handlers of the refresh and of
                        the sync);
    - [IIFConverter]  : the converter view (processing a file, the download
                        and the push to the ledger);
    - [PdfGenerator]  : [src/services/pdfGenerator.ts] (one PDF for each
                        reporting day).

    Module [JS] holds the host primitives the services rely on.

    Modelling conventions.
    - Strings are sequences of 8-bit characters; [trim] removes the ASCII part
      of JavaScript's white space set.
    - A JavaScript number is [NaN], an infinity, or an exact rational: the
      binary rounding of IEEE-754 doubles and the sign of zero are not
      represented.  Every arithmetic operation the services perform
      (decimal parsing, [* 100], [/ 100], [+], [Math.round], [Math.abs]) is
      exact in this model.
    - Objects used as dictionaries hold own properties only (nothing is
      inherited from [Object.prototype]); where a service enumerates the keys
      of an object, the model keeps the creation order of the properties and
      enumerates as the language prescribes (array indices first, ascending).
    - Promises are modelled by their outcome, the remote ledger by an explicit
      state and a transition function. *)

From Stdlib Require Import ZArith QArith Qcanon Qround String Ascii List Permutation
  Sorted Lia.
From stdpp Require Import base gmap strings list fin_maps.
Import ListNotations.
Open Scope string_scope.
Open Scope list_scope.

(* ===================================================================== *)
(** * Host primitives                                                      *)
(* ===================================================================== *)

Module JS.

(** ** Strings *)

(** WhiteSpace and LineTerminator code points below 128:
    TAB, LF, VT, FF, CR and SPACE. *)
Definition isWhiteSpace (c : ascii) : bool :=
  let n := nat_of_ascii c in
  Nat.eqb n 9 || Nat.eqb n 10 || Nat.eqb n 11 || Nat.eqb n 12
  || Nat.eqb n 13 || Nat.eqb n 32.

Fixpoint trimStart (s : string) : string :=
  match s with
  | String c r => if isWhiteSpace c then trimStart r else s
  | EmptyString => EmptyString
  end.

Definition trimEnd (s : string) : string :=
  String.rev (trimStart (String.rev s)).

(** [s.trim()] *)
Definition trim (s : string) : string := trimEnd (trimStart s).

(** [s.startsWith(p)] *)
Fixpoint startsWith (s p : string) : bool :=
  match p with
  | EmptyString => true
  | String a p' =>
      match s with
      | EmptyString => false
      | String b s' => Ascii.eqb a b && startsWith s' p'
      end
  end.

(** [s.split(sep)] for a one-character separator: never empty. *)
Fixpoint split (sep : ascii) (s : string) : list string :=
  match s with
  | EmptyString => [EmptyString]
  | String c r =>
      if Ascii.eqb c sep then EmptyString :: split sep r
      else match split sep r with
           | h :: t => String c h :: t
           | [] => [String c EmptyString]
           end
  end.

Definition TAB : ascii := ascii_of_nat 9.
Definition LF : ascii := ascii_of_nat 10.
Definition CR : ascii := ascii_of_nat 13.

Definition chompCR (s : string) : string :=
  match String.rev s with
  | String c r => if Ascii.eqb c CR then String.rev r else s
  | EmptyString => s
  end.

Fixpoint chompCR_butlast (l : list string) : list string :=
  match l with
  | [] => []
  | [x] => [x]
  | x :: r => chompCR x :: chompCR_butlast r
  end.

(** [s.split(/\r?\n/)]: cut at every LF, the CR just before it belongs to
    the separator. *)
Definition splitLines (s : string) : list string :=
  chompCR_butlast (split LF s).

(** [s.replace(/\//g, '')] and the like: drop every character satisfying [p]. *)
Fixpoint removeAll (p : ascii -> bool) (s : string) : string :=
  match s with
  | EmptyString => EmptyString
  | String c r => if p c then removeAll p r else String c (removeAll p r)
  end.

(** The double quote character, as a string. *)
Definition dquote : string := String (ascii_of_nat 34) EmptyString.

(** Concatenation of the pieces of a template literal. *)
Definition template (pieces : list string) : string :=
  fold_right String.app EmptyString pieces.

(** A string is truthy when it is not empty. *)
Definition truthy (s : string) : bool :=
  match s with EmptyString => false | _ => true end.

(** [a || b] on strings *)
Definition or_else (a b : string) : string := if truthy a then a else b.

(** ** Numbers *)

Inductive number : Type :=
| NaN
| Infinity (negative : bool)
| Finite (q : Qc).

Definition ofZ (z : Z) : number := Finite (Q2Qc (inject_Z z)).

Definition Qc_ltb (a b : Qc) : bool :=
  (Qnum a * QDen b <? Qnum b * QDen a)%Z.

Definition Qc_eqb (a b : Qc) : bool :=
  (Qnum a * QDen b =? Qnum b * QDen a)%Z.

(** [x < y]; any comparison with [NaN] is false. *)
Definition lt (x y : number) : bool :=
  match x, y with
  | NaN, _ | _, NaN => false
  | Infinity true, Infinity true => false
  | Infinity true, _ => true
  | _, Infinity true => false
  | Infinity false, _ => false
  | Finite _, Infinity false => true
  | Finite a, Finite b => Qc_ltb a b
  end.

(** [x > y] *)
Definition gt (x y : number) : bool := lt y x.

(** [x >= y] *)
Definition ge (x y : number) : bool :=
  match x, y with
  | NaN, _ | _, NaN => false
  | _, _ => negb (lt x y)
  end.

(** [x === y] on numbers *)
Definition strictEq (x y : number) : bool :=
  match x, y with
  | Infinity a, Infinity b => Bool.eqb a b
  | Finite a, Finite b => Qc_eqb a b
  | _, _ => false
  end.

Definition isNaN (x : number) : bool :=
  match x with NaN => true | _ => false end.

(** [x + y] *)
Definition add (x y : number) : number :=
  match x, y with
  | NaN, _ | _, NaN => NaN
  | Infinity a, Infinity b => if Bool.eqb a b then Infinity a else NaN
  | Infinity a, Finite _ | Finite _, Infinity a => Infinity a
  | Finite a, Finite b => Finite (a + b)
  end.

(** [- x] *)
Definition neg (x : number) : number :=
  match x with
  | NaN => NaN
  | Infinity b => Infinity (negb b)
  | Finite q => Finite (- q)
  end.

(** [x - y] *)
Definition sub (x y : number) : number := add x (neg y).

Definition zero : number := ofZ 0.

(** [x * c] for a positive literal [c] *)
Definition mulLit (x : number) (c : positive) : number :=
  match x with
  | Finite q => Finite (q * Q2Qc (inject_Z (Zpos c)))
  | _ => x
  end.

(** [x / c] for a positive literal [c] *)
Definition divLit (x : number) (c : positive) : number :=
  match x with
  | Finite q => Finite (q * Q2Qc (1 # c))
  | _ => x
  end.

(** [Math.round(x)]: the integer nearest to [x], ties towards +Infinity. *)
Definition Math_round (x : number) : number :=
  match x with
  | Finite q => ofZ (Qfloor (q + Q2Qc (1 # 2)))
  | _ => x
  end.

(** [Math.abs(x)] *)
Definition Math_abs (x : number) : number :=
  match x with
  | NaN => NaN
  | Infinity _ => Infinity false
  | Finite q => Finite (if Qc_ltb q 0 then - q else q)
  end.

(** ** Decimal rendering of integers *)

Definition digitChar (d : N) : ascii := ascii_of_N (48 + d).

Fixpoint digitsGo (fuel : nat) (n : N) (acc : string) : string :=
  match fuel with
  | O => acc
  | S f =>
      let acc' := String (digitChar (n mod 10)) acc in
      if (n / 10 =? 0)%N then acc' else digitsGo f (n / 10) acc'
  end.

(** Decimal digits of a natural number, most significant first. *)
Definition digits (n : N) : string :=
  digitsGo (S (N.to_nat (N.log2 n))) n EmptyString.

(** ** parseFloat *)

Definition isDigit (c : ascii) : bool :=
  let n := nat_of_ascii c in (48 <=? n)%nat && (n <=? 57)%nat.

Definition digitVal (c : ascii) : Z := Z.of_nat (nat_of_ascii c) - 48.

(** Longest run of decimal digits at the head of [s]: the value read on top
    of [acc], how many digits were read, and the rest. *)
Fixpoint readDigits (s : string) (acc : Z) (cnt : nat) : Z * nat * string :=
  match s with
  | String c r =>
      if isDigit c then readDigits r (10 * acc + digitVal c)%Z (S cnt)
      else (acc, cnt, s)
  | EmptyString => (acc, cnt, s)
  end.

Definition readSign (s : string) : bool * string :=
  match s with
  | String "-" r => (true, r)
  | String "+" r => (false, r)
  | _ => (false, s)
  end.

Definition pow10 (e : Z) : Qc :=
  if (0 <=? e)%Z then Q2Qc (inject_Z (10 ^ e))
  else Q2Qc (1 # Z.to_pos (10 ^ (- e))).

(** The optional exponent part: [e] or [E], an optional sign and at least
    one digit; anything else is not part of the number. *)
Definition readExponent (s : string) : Z :=
  match s with
  | String c r =>
      if Ascii.eqb c "e" || Ascii.eqb c "E" then
        let (eneg, r') := readSign r in
        let '(ev, ne, _) := readDigits r' 0 0 in
        if Nat.eqb ne 0 then 0%Z else if eneg then (- ev)%Z else ev
      else 0%Z
  | EmptyString => 0%Z
  end.

(** [parseFloat(s)]: skip leading white space, read the longest prefix that
    is a decimal literal ([Infinity] included); [NaN] when there is none. *)
Definition parseFloat (s : string) : number :=
  let (neg, s1) := readSign (trimStart s) in
  if startsWith s1 "Infinity" then Infinity neg else
  let '(ip, ni, r1) := readDigits s1 0 0 in
  let '(m, nf, r2) :=
    match r1 with
    | String "." r => readDigits r ip 0
    | _ => (ip, O, r1)
    end in
  if Nat.eqb (ni + nf) 0 then NaN
  else
    let e := readExponent r2 in
    let v := (Q2Qc (inject_Z m) * pow10 (e - Z.of_nat nf))%Qc in
    Finite (if neg then - v else v).

(** ** toFixed *)

Definition padZeros (width : nat) (s : string) : string :=
  String.app (string_of_list_ascii (repeat "0"%char (width - String.length s))) s.

(** Long division: the decimal digits of [r / d] after the point, at most
    [fuel] of them, stopping when the remainder vanishes. *)
Fixpoint fractionDigits (fuel : nat) (r d : N) : string :=
  match fuel with
  | O => EmptyString
  | S f =>
      if (r =? 0)%N then EmptyString
      else String (digitChar (10 * r / d)) (fractionDigits f ((10 * r) mod d) d)
  end.

Fixpoint dropZeros (s : string) : string :=
  match s with
  | String "0" r => dropZeros r
  | _ => s
  end.

Definition stripTrailingZeros (s : string) : string :=
  String.rev (dropZeros (String.rev s)).

(** [ToString(x)] for a finite [x >= 10^21]: exponent notation,
    [d.ddd...e+n].  The digits are those of the exact value (for a decimal
    fraction the expansion is finite and no longer than the bit length of the
    denominator). *)
Definition toStringLarge (q : Qc) : string :=
  let i := Z.to_N (Qfloor q) in
  let den := Npos (Qden q) in
  let r := (Z.to_N (Qnum q) mod den)%N in
  let ds := digits i in
  let all := stripTrailingZeros
               (String.app ds (fractionDigits (S (N.to_nat (N.log2 den))) r den)) in
  let e := digits (N.of_nat (String.length ds - 1)) in
  match all with
  | String d EmptyString => String d (String.app "e+" e)
  | String d rest => String d (String.app "." (String.app rest (String.app "e+" e)))
  | EmptyString => EmptyString
  end.

Definition Qc_abs (q : Qc) : Qc := if Qc_ltb q 0 then (- q)%Qc else q.

(** [x.toFixed(f)]: [n] is the integer for which [n / 10^f] is nearest to
    [|x|] (the larger one on a tie); the last [f] digits of [n] follow the
    point. *)
Definition toFixed (x : number) (f : nat) : string :=
  match x with
  | NaN => "NaN"
  | Infinity false => "Infinity"
  | Infinity true => "-Infinity"
  | Finite q =>
      let sign := if Qc_ltb q 0 then "-" else "" in
      let a := Qc_abs q in
      if Qc_ltb a (pow10 21) then
        let n := Z.to_N (Qfloor (a * pow10 (Z.of_nat f) + Q2Qc (1 # 2))%Qc) in
        let scale := (10 ^ N.of_nat f)%N in
        let ip := digits (n / scale) in
        match f with
        | O => String.app sign ip
        | _ => String.app sign
                 (String.app ip (String.app "." (padZeros f (digits (n mod scale)))))
        end
      else String.app sign (toStringLarge a)
  end.

(** ** Objects used as dictionaries *)

(** Own properties in creation order. *)
Definition object (V : Type) : Type := list (string * V).

Fixpoint get {V} (o : object V) (k : string) : option V :=
  match o with
  | [] => None
  | (k', v) :: r => if String.eqb k' k then Some v else get r k
  end.

(** [o[k] = v]: an existing property keeps its place, a new one goes last. *)
Fixpoint set {V} (o : object V) (k : string) (v : V) : object V :=
  match o with
  | [] => [(k, v)]
  | (k', v') :: r =>
      if String.eqb k' k then (k', v) :: r else (k', v') :: set r k v
  end.

(** An array index is the canonical decimal spelling of an integer below
    [2^32 - 1]. *)
Definition arrayIndex (k : string) : option N :=
  let '(v, n, rest) := readDigits k 0 0 in
  let canonical :=
    match k with
    | String "0" (String _ _) => false
    | _ => true
    end in
  if negb (Nat.eqb n 0) && negb (truthy rest) && canonical
     && (v <=? 4294967294)%Z
  then Some (Z.to_N v) else None.

Fixpoint insertIndex (x : N * string) (l : list (N * string)) : list (N * string) :=
  match l with
  | [] => [x]
  | y :: r => if (fst y <? fst x)%N then y :: insertIndex x r else x :: l
  end.

Definition indexKeys {V} (o : object V) : list (N * string) :=
  foldr insertIndex []
        (omap (fun kv => match arrayIndex (fst kv) with
                         | Some i => Some (i, fst kv)
                         | None => None
                         end) o).

Definition nameKeys {V} (o : object V) : list string :=
  omap (fun kv => match arrayIndex (fst kv) with
                  | Some _ => None
                  | None => Some (fst kv)
                  end) o.

(** [Object.keys(o)]: array indices in ascending numeric order, then the
    other keys in creation order. *)
Definition keys {V} (o : object V) : list string :=
  map snd (indexKeys o) ++ nameKeys o.

(** [Object.entries(o)] *)
Definition entries {V} (o : object V) : list (string * V) :=
  omap (fun k => match get o k with Some v => Some (k, v) | None => None end)
       (keys o).

(** ** Dates *)

(** A valid Date by its fields in local time ([getFullYear], [getMonth] from
    0, [getDate] from 1, [getHours], [getMinutes], [getSeconds]). *)
Record civil : Type := Civil {
  fullYear : N;
  monthIndex : nat;
  dayOfMonth : nat;
  hours : nat;
  minutes : nat;
  seconds : nat
}.

Inductive Date : Type :=
| InvalidDate
| ValidDate (c : civil).

Definition isLeap (y : N) : bool :=
  ((y mod 4 =? 0) && (negb (y mod 100 =? 0) || (y mod 400 =? 0)))%N.

Definition daysInMonth (y : N) (m : nat) : nat :=
  match m with
  | 1 => if isLeap y then 29 else 28
  | 3 | 5 | 8 | 10 => 30
  | _ => 31
  end.

Definition nextMonth (y : N) (m : nat) : N * nat :=
  if Nat.eqb m 11 then ((y + 1)%N, 0) else (y, S m).

Definition prevMonth (y : N) (m : nat) : N * nat :=
  match m with
  | O => ((y - 1)%N, 11)
  | S m' => (y, m')
  end.

(** Day [d >= 1] counted from the first of month [m] of year [y], carried
    into the following months while it overflows. *)
Fixpoint carryDay (fuel : nat) (y : N) (m : nat) (d : nat) : N * nat * nat :=
  match fuel with
  | O => (y, m, d)
  | S f =>
      if (d <=? daysInMonth y m)%nat then (y, m, d)
      else let (y', m') := nextMonth y m in
           carryDay f y' m' (d - daysInMonth y m)
  end.

(** [date.setDate(n)] for [n >= 0]: the time of day is kept. *)
Definition setDate (c : civil) (n : nat) : civil :=
  let '(y, m, d) :=
    match n with
    | O => let (y', m') := prevMonth (fullYear c) (monthIndex c) in
           (y', m', daysInMonth y' m')
    | _ => carryDay n (fullYear c) (monthIndex c) n
    end in
  Civil y m d (hours c) (minutes c) (seconds c).

(** [date.toLocaleDateString()] in the en-US locale: [M/D/YYYY]. *)
Definition toLocaleDateString (d : Date) : string :=
  match d with
  | InvalidDate => "Invalid Date"
  | ValidDate c =>
      template [digits (N.of_nat (S (monthIndex c))); "/";
                digits (N.of_nat (dayOfMonth c)); "/"; digits (fullYear c)]
  end.

(** ** Exceptions: a call returns a value or throws an Error with a message *)

Inductive completion (A : Type) : Type :=
| Return (a : A)
| Throw (message : string).
Arguments Return {A} a.
Arguments Throw {A} message.

(** [s.slice(-n)]: the last [n] characters, all of [s] when it is shorter. *)
Definition sliceLast (n : nat) (s : string) : string :=
  substring (String.length s - n) n s.

(** ** Promises, by their outcome *)

Inductive outcome (A : Type) : Type :=
| Resolved (a : A)
| Rejected (reason : string).
Arguments Resolved {A} a.
Arguments Rejected {A} reason.

(** [array.sort(compare)]: stable; [compare a b > 0] puts [a] after [b]. *)
Section Sort.
Context {A : Type} (after : A -> A -> bool).

Fixpoint insertSorted (x : A) (l : list A) : list A :=
  match l with
  | [] => [x]
  | y :: r => if after x y then y :: insertSorted x r else x :: l
  end.

Definition sort (l : list A) : list A := foldr insertSorted [] l.
End Sort.

End JS.

(* ===================================================================== *)
(** * Ledger ingestion and reporting-day grouping ([csvProcessor.ts])      *)
(* ===================================================================== *)

Module CsvProcessor.
Import JS.

Record ShopifyTransaction : Type := {
  ident : string;            (* id *)
  orderNumber : string;
  dateTime : string;
  customerName : string;
  amount : number;
  fee : number;
  net : number;
  type_ : string;            (* type *)
  cardBrand : string;
  currency : string;
  sourceFile : string
}.

Record DailyGroup : Type := {
  date : string;
  subtotal : number;
  subtotalFees : number;
  subtotalNet : number;
  count : nat;
  transactions : list ShopifyTransaction
}.

Record ReportSummary : Type := {
  dateRange : string;
  totalAmount : number;
  totalFees : number;
  totalNet : number;
  transactionCount : nat;
  dailyGroups : list DailyGroup;
  allTransactions : list ShopifyTransaction
}.

(** An input file with what Papa.parse reports for it: the rows of
    [results.data] (objects keyed by the header names) or an error. *)
Record File : Type := {
  fileName : string;
  papaParse : outcome (list (object string))
}.

Infix "||:" := or_else (at level 55, right associativity).

(** [row[k]] in a chain of [||]: a missing column is as falsy as an empty one. *)
Definition field (row : object string) (k : string) : string :=
  default "" (get row k).

(** [.replace(/[^0-9.-]+/g, "")] *)
Definition cleanNumber (s : string) : string :=
  removeAll (fun c => negb (isDigit c || Ascii.eqb c "." || Ascii.eqb c "-")) s.

(** [(Math.round(a * 100) + Math.round(b * 100)) / 100] *)
Definition centAdd (a b : number) : number :=
  divLit (add (Math_round (mulLit a 100)) (Math_round (mulLit b 100))) 100.

(** [list.reduce((sum, t) => sum + Math.round(f(t) * 100), 0) / 100] *)
Definition centTotal {A} (f : A -> number) (l : list A) : number :=
  divLit (fold_left (fun sum t => add sum (Math_round (mulLit (f t) 100))) l zero) 100.

Section Host.
(** The host's clock and Date implementation (parsing and epoch time depend
    on the engine and on the local time zone). *)
Variable newDate : string -> Date.          (* new Date(s) *)
Variable getTime : Date -> number.          (* d.getTime() *)
Variable now : Date.                        (* new Date() *)
Variable toISOString : Date -> string.

Definition getReportingDateString (isoString : string) : string :=
  let date := newDate isoString in
  let date :=
    match date with
    | ValidDate c =>
        (* Rule: 4:00 PM (16:00) and later belongs to the next reporting day *)
        if (16 <=? hours c)%nat
        then ValidDate (setDate c (dayOfMonth c + 1))
        else date
    | InvalidDate => date       (* getHours() is NaN *)
    end in
  toLocaleDateString date.

Definition newGroup (tDate : string) : DailyGroup :=
  {| date := tDate; transactions := [];
     subtotal := zero; subtotalFees := zero; subtotalNet := zero;
     count := 0 |}.

(** The statements after the group selection in the loop body. *)
Definition appendTransaction (g : DailyGroup) (t : ShopifyTransaction) : DailyGroup :=
  {| date := date g;
     transactions := transactions g ++ [t];
     subtotal := centAdd (subtotal g) (amount t);
     subtotalFees := centAdd (subtotalFees g) (fee t);
     subtotalNet := centAdd (subtotalNet g) (net t);
     count := count g + 1 |}.

(** One iteration of [transactions.forEach]; the state is [dailyGroups]
    and [currentGroup]. *)
Definition groupStep (st : list DailyGroup * option DailyGroup)
           (t : ShopifyTransaction) : list DailyGroup * option DailyGroup :=
  let '(dailyGroups, currentGroup) := st in
  let tDate := getReportingDateString (dateTime t) in
  let '(dailyGroups, currentGroup) :=
    match currentGroup with
    | Some g =>
        if negb (String.eqb (date g) tDate)
        then (dailyGroups ++ [g], newGroup tDate)
        else (dailyGroups, g)
    | None => (dailyGroups, newGroup tDate)
    end in
  (dailyGroups, Some (appendTransaction currentGroup t)).

Definition groupLoop (transactions : list ShopifyTransaction)
  : list DailyGroup * option DailyGroup :=
  fold_left groupStep transactions ([], None).

Definition groupTransactionsByDate (transactions : list ShopifyTransaction)
  : list DailyGroup :=
  match transactions with
  | [] => []
  | _ =>
      match groupLoop transactions with
      | (dailyGroups, Some g) => dailyGroups ++ [g]
      | (dailyGroups, None) => dailyGroups
      end
  end.

(** The accumulator of an ingestion: [allTransactions] and
    [globalEntryCounter]. *)
Definition ledger : Type := (list ShopifyTransaction * N)%type.

Definition shopifyRow (file : File) (st : ledger) (row : object string) : ledger :=
  let '(allTransactions, globalEntryCounter) := st in
  let keys := keys row in
  let dateValue :=
    field row "Created at" ||: field row "Date" ||: field row "Processed at"
    ||: field row "Occurred at" ||: field row "Day"
    ||: match keys with k :: _ => field row k | [] => "" end in
  let dateTime := dateValue ||: toISOString now in
  let orderId :=
    field row "Name" ||: field row "Order" ||: field row "Order ID"
    ||: field row "ID" ||: String.app "Line-" (digits globalEntryCounter) in
  let rawAmount := field row "Amount" ||: field row "Total" ||: "0" in
  let amount := parseFloat (cleanNumber rawAmount) in
  let rawFee := field row "Fee" ||: field row "Fees" ||: field row "Transaction Fee" ||: "0" in
  let fee := parseFloat (cleanNumber rawFee) in
  let rawNet := field row "Net" ||: field row "Net Amount" ||: "0" in
  let net := parseFloat (cleanNumber rawNet) in
  let net :=
    if strictEq net zero && (negb (strictEq amount zero) || negb (strictEq fee zero))
    then centAdd amount fee else net in
  let status := field row "Status" ||: field row "Financial Status" ||: field row "Type" ||: "Unknown" in
  let customer := field row "Billing Name" ||: field row "Customer" ||: field row "Source" ||: "Internal/Guest" in
  let currency := field row "Currency" ||: "USD" in
  let cardBrand := field row "Card Brand" ||: field row "Brand" ||: field row "Payment Method" ||: field row "Card" ||: "N/A" in
  if negb (isNaN amount) then
    (allTransactions ++
       [{| ident := String.app orderId (String.app "-" (digits globalEntryCounter));
           orderNumber := orderId;
           dateTime := dateTime;
           customerName := customer;
           amount := amount;
           fee := fee;
           net := net;
           type_ := status;
           cardBrand := cardBrand;
           currency := currency;
           sourceFile := fileName file |}],
     (globalEntryCounter + 1)%N)
  else st.

Definition cleanFloat (val : string) : number :=
  if negb (truthy val) then zero else parseFloat (cleanNumber val).

Definition paypalRow (file : File) (st : ledger) (row : object string) : ledger :=
  let '(allTransactions, globalEntryCounter) := st in
  let dateStr := field row "Date" in
  let timeStr := field row "Time" in
  if negb (truthy dateStr) || negb (truthy timeStr) then st else
  let type := field row "Type" ||: "Unknown" in
  if String.eqb type "General Withdrawal" || String.eqb type "User Initiated Withdrawal"
  then st else
  let dateTime := String.app dateStr (String.app " " timeStr) in
  let orderId := field row "Transaction ID" ||: String.app "PP-" (digits globalEntryCounter) in
  let amount := cleanFloat (field row "Gross") in
  let fee := cleanFloat (field row "Fee") in
  let net := cleanFloat (field row "Net") in
  let customer := field row "Name" ||: "Unknown" in
  let currency := field row "Currency" ||: "USD" in
  if strictEq amount zero && strictEq fee zero && strictEq net zero then st else
    (allTransactions ++
       [{| ident := String.app orderId (String.app "-" (digits globalEntryCounter));
           orderNumber := orderId;
           dateTime := dateTime;
           customerName := customer;
           amount := amount;
           fee := fee;
           net := net;
           type_ := type;
           cardBrand := "PayPal";
           currency := currency;
           sourceFile := fileName file |}],
     (globalEntryCounter + 1)%N).

(** [await Promise.all(fileArray.map(parseFile))]: every [complete]
    callback runs to its end before the next one starts, so the files
    are taken one after the other (in the order they complete); an error
    reported for a file rejects the whole. *)
Fixpoint parseFiles (rowStep : File -> ledger -> object string -> ledger)
         (files : list File) (st : ledger) : outcome ledger :=
  match files with
  | [] => Resolved st
  | file :: rest =>
      match papaParse file with
      | Rejected error => Rejected error
      | Resolved rawData =>
          parseFiles rowStep rest (fold_left (rowStep file) rawData st)
      end
  end.

(** [compare a b > 0] for the comparator of the sort (newest first). *)
Definition olderFirst (a b : ShopifyTransaction) : bool :=
  gt (sub (getTime (newDate (dateTime b))) (getTime (newDate (dateTime a)))) zero.

(** From the sort to [resolve(...)]: the same statements in both parsers. *)
Definition report (allTransactions : list ShopifyTransaction) : ReportSummary :=
  let allTransactions := sort olderFirst allTransactions in
  let dailyGroups := groupTransactionsByDate allTransactions in
  let totalAmount := centTotal amount allTransactions in
  let totalFees := centTotal fee allTransactions in
  let totalNet := centTotal net allTransactions in
  let dateRange :=
    match dailyGroups with
    | g0 :: _ =>
        let newest := date g0 in
        let oldest := date (List.last dailyGroups g0) in
        if String.eqb oldest newest then oldest
        else String.app oldest (String.app " - " newest)
    | [] => toLocaleDateString now
    end in
  {| dateRange := dateRange;
     totalAmount := totalAmount;
     totalFees := totalFees;
     totalNet := totalNet;
     transactionCount := length allTransactions;
     dailyGroups := dailyGroups;
     allTransactions := allTransactions |}.

Definition parseWith (rowStep : File -> ledger -> object string -> ledger)
           (files : list File) : outcome ReportSummary :=
  match parseFiles rowStep files ([], 0%N) with
  | Resolved (allTransactions, _) => Resolved (report allTransactions)
  | Rejected error => Rejected error
  end.

Definition parseShopifyCSV (files : list File) : outcome ReportSummary :=
  parseWith shopifyRow files.

Definition parsePaypalCSV (files : list File) : outcome ReportSummary :=
  parseWith paypalRow files.

End Host.

End CsvProcessor.

(* ===================================================================== *)
(** * The legacy-format converter ([converter.service.ts])                 *)
(* ===================================================================== *)

Module Converter.
Import JS.

Record QBOJournalEntry : Type := {
  JournalNo : string;
  JournalDate : string;
  DueDate : option string;
  Description : string;
  Account : string;
  Debit : string;
  Credit : string;
  Name : string;
  (* Bill Specific Fields *)
  LineAmount : option string;
  BillNo : option string;
  Supplier : option string
}.

Inductive ConversionMode : Type := GL | AP.

Definition glAccountOverrides : gmap string string :=
  list_to_map
    [ ("0-115-0", "0-115-0 INVENTORY - PARTS");
      ("0-119-0", "0-119-0 OTHER CC CLEARING");
      ("0-121-0", "0-121-0 UNDEPOSITED FUNDS");
      ("WEB CC",  "0-122-0 WEB CC");
      ("0-131-0", "0-131-0 TRANSFER CLEARING");
      ("0-202-0", "0-202-0 ACCOUNTS PAYABLE CLEARING");
      ("0-203-0", "0-203-0 SALES TAX PAYABLE");
      ("0-251-0", "0-251-0 CUSTOMER DEPOSITS");
      ("0-310-0", "0-310-0 INTERFACE CORRECTION ACCT");
      ("0-401-0", "0-401-0 SALES");
      ("0-405-0", "0-405-0 SHIPPING & HANDLING FEES");
      ("0-490-0", "0-490-0 SALES RETURNS AND ALLOWANCES");
      ("0-501-0", "0-501-0 COST OF GOODS SOLD") ].

Definition apAccountOverrides : gmap string string :=
  list_to_map
    [ ("0-201-0", "0-201-0 ACCOUNTS PAYABLE");
      ("0-202-0", "0-202-0 ACCOUNTS PAYABLE CLEARING");
      ("0-682-0", "0-682-0 SHIPPING EXPENSE") ].

(** [const headers = line.trim().split('\t');
     headers.forEach((h, i) => headerMap[h] = i)] *)
Definition declareHeaders (headerMap : gmap string nat) (line : string)
  : gmap string nat :=
  let headers := split TAB (trim line) in
  fold_left (fun m hi => <[fst hi := snd hi]> m)
            (imap (fun i h => (h, i)) headers) headerMap.

(** [Object.keys(map).length === 0] *)
Definition noHeaders (map : gmap string nat) : bool := Nat.eqb (size map) 0.

Definition getVal (parts : list string) (map : gmap string nat) (colName : string)
  : string :=
  match map !! colName with
  | Some idx =>
      match parts !! idx with          (* idx < parts.length *)
      | Some v => v
      | None => ""
      end
  | None => ""
  end.

Definition parseAmount (amountStr : string) : string * string :=
  let amountFloat := parseFloat amountStr in
  let amountFloat := if isNaN amountFloat then zero else amountFloat in
  if gt amountFloat zero then (toFixed amountFloat 2, "")
  else if lt amountFloat zero then ("", toFixed (Math_abs amountFloat) 2)
  else ("", "").

(** ** General-Ledger mode *)

(** Header discovery: the first line whose trimmed text starts with [!SPL]
    (the loop breaks there). *)
Fixpoint discoverHeader (lines : list string) : gmap string nat :=
  match lines with
  | [] => ∅
  | line :: rest =>
      if startsWith (trim line) "!SPL" then declareHeaders ∅ line
      else discoverHeader rest
  end.

Definition journalNoOf (rawDate : string) : string :=
  match split "/" rawDate with
  | [mm; dd; yyyy] =>
      let yy := sliceLast 2 yyyy in
      String.app "CPIIF-" (String.app mm (String.app dd yy))
  | _ => String.app "CPIIF-" (removeAll (Ascii.eqb "/") rawDate)
  end.

(** The body of the data loop for one [SPL] line. *)
Definition glRow (headerMap : gmap string nat) (line : string) : QBOJournalEntry :=
  let parts := split TAB (trim line) in
  let getVal := getVal parts headerMap in
  let rawDocNum := getVal "DOCNUM" in
  let rawDate := getVal "DATE" in
  let rawMemo := getVal "MEMO" in
  let rawAccnt := getVal "ACCNT" in
  let rawAmount := getVal "AMOUNT" in
  let finalJournalNo := journalNoOf rawDate in
  let finalDescription :=
    if truthy rawMemo
    then String.app rawMemo (String.app " (Ref: " (String.app rawDocNum ")"))
    else String.app "(Ref: " (String.app rawDocNum ")") in
  let finalAccount := default rawAccnt (glAccountOverrides !! rawAccnt) in
  let '(debitStr, creditStr) := parseAmount rawAmount in
  {| JournalNo := finalJournalNo;
     JournalDate := rawDate;
     DueDate := None;
     Description := finalDescription;
     Account := finalAccount;
     Debit := debitStr;
     Credit := creditStr;
     Name := getVal "NAME";
     LineAmount := None; BillNo := None; Supplier := None |}.

Definition glStep (headerMap : gmap string nat)
           (processedRows : list QBOJournalEntry) (line : string)
  : list QBOJournalEntry :=
  if negb (startsWith line "SPL") then processedRows
  else processedRows ++ [glRow headerMap line].

Definition compareJournalNo (a b : QBOJournalEntry) : Z :=
  if String.ltb (JournalNo a) (JournalNo b) then (-1)%Z
  else if String.ltb (JournalNo b) (JournalNo a) then 1%Z
  else 0%Z.

Definition convertGL (iifString : string) : completion (list QBOJournalEntry) :=
  let lines := splitLines iifString in
  let headerMap := discoverHeader lines in
  if noHeaders headerMap then
    Throw "Invalid IIF File: Could not find '!SPL' header row definition."
  else
    let processedRows := fold_left (glStep headerMap) lines [] in
    Return (sort (fun a b => (0 <? compareJournalNo a b)%Z) processedRows).

(** ** Accounts-Payable mode *)

Record Context : Type := {
  docNum : string;
  date : string;
  dueDate : string;
  name : string;
  terms : string
}.

(** The variables of the single pass. *)
Record BillsState : Type := {
  headerMapTrns : gmap string nat;
  headerMapSpl : gmap string nat;
  currentContext : Context;
  processedRows : list QBOJournalEntry
}.

Definition initialBills : BillsState :=
  {| headerMapTrns := ∅; headerMapSpl := ∅;
     currentContext := {| docNum := ""; date := ""; dueDate := ""; name := ""; terms := "" |};
     processedRows := [] |}.

(** The row pushed for an [SPL] line that reaches the end of the loop body. *)
Definition billRow (currentMap : gmap string nat) (currentContext : Context)
           (line : string) : QBOJournalEntry :=
  let parts := split TAB (trim line) in
  let getVal := getVal parts currentMap in
  let rawAccnt := getVal "ACCNT" in
  let rawAmount := getVal "AMOUNT" in
  let amountVal := parseFloat rawAmount in
  let lineAmount := toFixed amountVal 2 in
  let rawMemo := getVal "MEMO" in
  let finalDescription := rawMemo in
  let finalAccount := default rawAccnt (apAccountOverrides !! rawAccnt) in
  {| BillNo := Some (docNum currentContext);
     Supplier := Some (name currentContext);
     JournalDate := date currentContext;
     DueDate := Some (dueDate currentContext);
     Account := finalAccount;
     Description := finalDescription;
     LineAmount := Some lineAmount;
     JournalNo := docNum currentContext;
     Name := name currentContext;
     Debit := if gt amountVal zero then lineAmount else "0";
     Credit := if lt amountVal zero then toFixed (Math_abs amountVal) 2 else "0" |}.

(** One iteration of the single pass. *)
Definition billsStep (st : BillsState) (line : string) : BillsState :=
  if startsWith line "!TRNS" then
    {| headerMapTrns := declareHeaders ∅ line;
       headerMapSpl := headerMapSpl st;
       currentContext := currentContext st;
       processedRows := processedRows st |}
  else if startsWith line "!SPL" then
    {| headerMapTrns := headerMapTrns st;
       headerMapSpl := declareHeaders ∅ line;
       currentContext := currentContext st;
       processedRows := processedRows st |}
  else if negb (startsWith line "TRNS") && negb (startsWith line "SPL") then st
  else
    let isTrns := startsWith line "TRNS" in
    let currentMap := if isTrns then headerMapTrns st else headerMapSpl st in
    (* Safety check *)
    if noHeaders currentMap then st
    else
      let parts := split TAB (trim line) in
      let getVal := getVal parts currentMap in
      if isTrns then
        {| headerMapTrns := headerMapTrns st;
           headerMapSpl := headerMapSpl st;
           currentContext :=
             {| docNum := getVal "DOCNUM";
                date := getVal "DATE";
                dueDate := or_else (getVal "DUEDATE") (getVal "DUE DATE");
                name := getVal "NAME";
                terms := getVal "TERMS" |};
           processedRows := processedRows st |}
      else
        let rawAccnt := getVal "ACCNT" in
        if String.eqb rawAccnt "0-201-0" then st
        else
          {| headerMapTrns := headerMapTrns st;
             headerMapSpl := headerMapSpl st;
             currentContext := currentContext st;
             processedRows :=
               processedRows st ++ [billRow currentMap (currentContext st) line] |}.

Definition billsLoop (lines : list string) : BillsState :=
  fold_left billsStep lines initialBills.

Definition compareBills (a b : QBOJournalEntry) : Z :=
  if String.ltb (JournalDate a) (JournalDate b) then (-1)%Z
  else if String.ltb (JournalDate b) (JournalDate a) then 1%Z
  else if String.ltb (JournalNo a) (JournalNo b) then (-1)%Z
  else if String.ltb (JournalNo b) (JournalNo a) then 1%Z
  else 0%Z.

Definition convertBills (iifString : string) : completion (list QBOJournalEntry) :=
  let lines := splitLines iifString in
  let st := billsLoop lines in
  Return (sort (fun a b => (0 <? compareBills a b)%Z) (processedRows st)).

Definition convert (iifString : string) (mode : ConversionMode)
  : completion (list QBOJournalEntry) :=
  match mode with
  | AP => convertBills iifString
  | GL => convertGL iifString
  end.

(** ** The export as comma-separated text *)

(** The double quote character. *)
Definition QUOTE : ascii := ascii_of_nat 34.

(** [array.join(sep)] *)
Fixpoint join (sep : string) (l : list string) : string :=
  match l with
  | [] => EmptyString
  | [x] => x
  | x :: r => String.app x (String.app sep (join sep r))
  end.

(** [row[field]] for the field names of the export; an optional field
    that is absent reads [undefined]. *)
Definition fieldOf (row : QBOJournalEntry) (field : string) : option string :=
  match field with
  | "JournalNo" => Some (JournalNo row)
  | "JournalDate" => Some (JournalDate row)
  | "DueDate" => DueDate row
  | "Description" => Some (Description row)
  | "Account" => Some (Account row)
  | "Debit" => Some (Debit row)
  | "Credit" => Some (Credit row)
  | "Name" => Some (Name row)
  | "LineAmount" => LineAmount row
  | "BillNo" => BillNo row
  | "Supplier" => Supplier row
  | _ => None
  end.

(** [row[field] || ''] *)
Definition valueOf (row : QBOJournalEntry) (field : string) : string :=
  match fieldOf row field with
  | Some val => or_else val EmptyString
  | None => EmptyString
  end.

(** [val.replace]: every double quote is replaced by two. *)
Fixpoint escapeQuotes (val : string) : string :=
  match val with
  | EmptyString => EmptyString
  | String c r =>
      if Ascii.eqb c QUOTE then String QUOTE (String QUOTE (escapeQuotes r))
      else String c (escapeQuotes r)
  end.

(** [val.search(...) >= 0]: the text holds a double quote, a comma or a
    line feed. *)
Definition needsQuotes (val : string) : bool :=
  existsb (fun c => Ascii.eqb c QUOTE || Ascii.eqb c "," || Ascii.eqb c LF)
          (list_ascii_of_string val).

(** The body of the inner [map] of [toCSV], from the escaping on. *)
Definition csvCell (val : string) : string :=
  (* Escape quotes *)
  let val := escapeQuotes val in
  (* Wrap in quotes if it contains comma, quote, or newline *)
  if needsQuotes val then template [dquote; val; dquote] else val.

(** [headers], by mode: the bill import format or the journal entry
    format. *)
Definition csvHeaders (mode : ConversionMode) : list string :=
  match mode with
  | AP => ["Bill no"; "Supplier"; "Bill Date"; "Due Date"; "Account"; "Line Amount";
           "Line Description"]
  | GL => ["JournalNo"; "JournalDate"; "DueDate"; "Description"; "Account"; "Debit";
           "Credit"; "Name"]
  end.

(** [fieldNames], by mode. *)
Definition csvFieldNames (mode : ConversionMode) : list string :=
  match mode with
  | AP => ["BillNo"; "Supplier"; "JournalDate"; "DueDate"; "Account"; "LineAmount";
           "Description"]
  | GL => ["JournalNo"; "JournalDate"; "DueDate"; "Description"; "Account"; "Debit";
           "Credit"; "Name"]
  end.

Definition toCSV (data : list QBOJournalEntry) (mode : ConversionMode) : string :=
  let headers := csvHeaders mode in
  let fieldNames := csvFieldNames mode in
  let headerRow := join "," headers in
  let rows :=
    map (fun row => join "," (map (fun field => csvCell (valueOf row field)) fieldNames))
        data in
  join (String LF EmptyString) (headerRow :: rows).

End Converter.

(* ===================================================================== *)
(** * Mapping refresh, name resolution and sync ([qbSync.service.cjs])     *)
(* ===================================================================== *)

Module QBSync.
Import JS.

(** What the remote ledger returns for an account and for a vendor. *)
Record Account : Type := { Name : string; Id : string }.
Record Vendor : Type := { DisplayName : string; VendorId : string (* Id *) }.

(** [data.QueryResponse], with the two lists the service reads. *)
Record QueryResponse : Type := {
  QR_Account : option (list Account);      (* QueryResponse.Account *)
  QR_Vendor : option (list Vendor)         (* QueryResponse.Vendor *)
}.

(** The fields of the service object. *)
Record QBSyncService : Type := {
  accountMap : object string;  (* Name -> Id *)
  vendorMap : object string    (* Name -> Id *)
}.

(** [new QBSyncService()] *)
Definition newService : QBSyncService := {| accountMap := []; vendorMap := [] |}.

Record JournalLine : Type := {
  JL_Description : string;
  JL_Amount : number;
  JL_PostingType : string;
  JL_AccountRef : string
}.

Record BillLine : Type := {
  BL_Description : string;
  BL_Amount : number;
  BL_AccountRef : string
}.

Inductive payload : Type :=
| JournalEntryPayload (DocNumber TxnDate : string) (Line : list JournalLine)
| BillPayload (DocNumber TxnDate DueDate VendorRef : string) (Line : list BillLine).

Record Results : Type := {
  success : nat;
  failed : nat;
  errors : list string
}.

(** [array.map(f)] when [f] may throw: the first exception ends the map. *)
Fixpoint mapThrow {A B} (f : A -> completion B) (l : list A) : completion (list B) :=
  match l with
  | [] => Return []
  | x :: r =>
      match f x with
      | Throw message => Throw message
      | Return y =>
          match mapThrow f r with
          | Throw message => Throw message
          | Return ys => Return (y :: ys)
          end
      end
  end.

(** [!accountId] *)
Definition missing (id : option string) : bool :=
  match id with
  | Some s => negb (truthy s)
  | None => true
  end.

(** [k.startsWith(cleanName) || cleanName.startsWith(k)] *)
Definition overlaps (cleanName k : string) : bool :=
  startsWith k cleanName || startsWith cleanName k.

(** Helper to find account ID, handling the "0-115-0 INVENTORY" style
    matching.  [None] is [null] (or [undefined]). *)
Definition findAccountId (this : QBSyncService) (name : string) : option string :=
  let cleanName := trim name in
  (* Exact match *)
  if negb (missing (get (accountMap this) cleanName))
  then get (accountMap this) cleanName
  else
    (* Partial match *)
    match List.find (overlaps cleanName) (keys (accountMap this)) with
    | Some found => if truthy found then get (accountMap this) found else None
    | None => None
    end.

(** The members of class [QBSyncService] are [constructor],
    [refreshMappings], [syncJournalEntries], [syncBills], [findAccountId] and
    [formatDate]: the class has no [getBaseUrl], so evaluating
    [this.getBaseUrl()] throws a TypeError. *)
Definition getBaseUrl : completion string :=
  Throw "this.getBaseUrl is not a function".

Section Remote.
(** The authenticated session and the remote ledger behind
    [qbAuth.makeRequest]: a state, a query and a submission. *)
Variable remote : Type.
Variable makeQuery : remote -> string -> remote * outcome (option QueryResponse).
Variable makePost : remote -> string -> payload -> remote * outcome unit.
Variable realmId : string.                 (* qbAuth.getRealmId() *)
Variable sandbox : bool.                   (* environment === 'sandbox' *)
Variable today : string.     (* new Date().toISOString().split('T')[0] *)

Definition formatDate (dateStr : option string) : string :=
  match dateStr with
  | None => today
  | Some dateStr =>
      if negb (truthy dateStr) then today
      else
        match split "/" dateStr with
        | [m; d; y] =>
            let y := if Nat.eqb (String.length y) 2 then String.app "20" y else y in
            template [y; "-"; padZeros 2 m; "-"; padZeros 2 d]
        | _ => dateStr
        end
  end.

Definition fetchedAccounts (accData : option QueryResponse) : list Account :=
  match accData with
  | Some qr => match QR_Account qr with Some l => l | None => [] end
  | None => []
  end.

Definition fetchedVendors (venData : option QueryResponse) : list Vendor :=
  match venData with
  | Some qr => match QR_Vendor qr with Some l => l | None => [] end
  | None => []
  end.

(** [accounts.forEach(acc => { this.accountMap[acc.Name.trim()] = acc.Id })] *)
Definition storeAccounts (map : object string) (l : list Account) : object string :=
  fold_left (fun m acc => set m (trim (Name acc)) (Id acc)) l map.

Definition storeVendors (map : object string) (l : list Vendor) : object string :=
  fold_left (fun m ven => set m (trim (DisplayName ven)) (VendorId ven)) l map.

Definition baseUrl : string :=
  if sandbox then "https://sandbox-quickbooks.api.intuit.com"
  else "https://quickbooks.api.intuit.com".

(** [`${baseUrl}/v3/company/${realmId}/query?query=${encodeURIComponent(q)}`]
    for [q = "SELECT * FROM <entity> MAXRESULTS 1000"]. *)
Definition queryUrl (entity : string) : string :=
  template [baseUrl; "/v3/company/"; realmId; "/query?query=";
            "SELECT%20*%20FROM%20"; entity; "%20MAXRESULTS%201000"].

Definition refreshMappings (this : QBSyncService) (r : remote)
  : QBSyncService * remote * outcome (nat * nat) :=
  (* 1. Fetch Accounts *)
  let accUrl := queryUrl "Account" in
  let (r, accData) := makeQuery r accUrl in
  match accData with
  | Rejected e => (this, r, Rejected e)
  | Resolved accData =>
      let this :=
        {| accountMap := storeAccounts (accountMap this) (fetchedAccounts accData);
           vendorMap := vendorMap this |} in
      (* 2. Fetch Vendors *)
      let venUrl := queryUrl "Vendor" in
      let (r, venData) := makeQuery r venUrl in
      match venData with
      | Rejected e => (this, r, Rejected e)
      | Resolved venData =>
          let this :=
            {| accountMap := accountMap this;
               vendorMap := storeVendors (vendorMap this) (fetchedVendors venData) |} in
          (this, r,
           Resolved (length (keys (accountMap this)), length (keys (vendorMap this))))
      end
  end.

(** [entries.forEach(e => { if (!groups[k]) groups[k] = []; groups[k].push(e) })] *)
Definition groupBy (key : Converter.QBOJournalEntry -> string)
           (entries : list Converter.QBOJournalEntry)
  : object (list Converter.QBOJournalEntry) :=
  fold_left (fun groups e =>
               match get groups (key e) with
               | Some rows => set groups (key e) (rows ++ [e])
               | None => set groups (key e) [e]
               end) entries [].

Definition journalLine (this : QBSyncService) (row : Converter.QBOJournalEntry)
  : completion JournalLine :=
  let amount := parseFloat (or_else (Converter.Debit row) (Converter.Credit row)) in
  let accountId := findAccountId this (Converter.Account row) in
  if missing accountId then
    Throw (template ["Account "; dquote; Converter.Account row; dquote;
                     " not found in QuickBooks."])
  else
    Return {| JL_Description := Converter.Description row;
              JL_Amount := amount;
              JL_PostingType :=
                if negb (String.eqb (Converter.Debit row) "0")
                   && negb (String.eqb (Converter.Debit row) "")
                then "Debit" else "Credit";
              JL_AccountRef := default "" accountId |}.

(** The statements of the [try] block before the request, for one journal. *)
Definition journalPayload (this : QBSyncService) (journalNo : string)
           (rows : list Converter.QBOJournalEntry) : completion payload :=
  match rows with
  | [] => Throw "Cannot read properties of undefined (reading 'JournalDate')"
  | row0 :: _ =>
      let TxnDate := formatDate (Some (Converter.JournalDate row0)) in
      match mapThrow (journalLine this) rows with
      | Throw message => Throw message
      | Return Line => Return (JournalEntryPayload journalNo TxnDate Line)
      end
  end.

Definition billLine (this : QBSyncService) (row : Converter.QBOJournalEntry)
  : completion BillLine :=
  let accountId := findAccountId this (Converter.Account row) in
  if missing accountId then
    Throw (template ["Account "; dquote; Converter.Account row; dquote;
                     " not found in QuickBooks."])
  else
    Return {| BL_Description := Converter.Description row;
              BL_Amount := match Converter.LineAmount row with
                           | Some s => parseFloat s
                           | None => NaN
                           end;
              BL_AccountRef := default "" accountId |}.

(** The statements of the [try] block before the request, for one bill. *)
Definition billPayload (this : QBSyncService) (billNo : string)
           (rows : list Converter.QBOJournalEntry) : completion payload :=
  match rows with
  | [] => Throw "Cannot read properties of undefined (reading 'Supplier')"
  | row0 :: _ =>
      match Converter.Supplier row0 with
      | None => Throw "Cannot read properties of undefined (reading 'trim')"
      | Some supplierName =>
          let vendorId := get (vendorMap this) (trim supplierName) in
          if missing vendorId then
            Throw (template ["Vendor "; dquote; supplierName; dquote;
                             " not found in QuickBooks."])
          else
            let TxnDate := formatDate (Some (Converter.JournalDate row0)) in
            let DueDate := formatDate (Converter.DueDate row0) in
            match mapThrow (billLine this) rows with
            | Throw message => Throw message
            | Return Line =>
                Return (BillPayload billNo TxnDate DueDate (default "" vendorId) Line)
            end
      end
  end.

Definition recordFailure (results : Results) (message : string) : Results :=
  {| success := success results;
     failed := failed results + 1;
     errors := errors results ++ [message] |}.

Definition recordSuccess (results : Results) : Results :=
  {| success := success results + 1;
     failed := failed results;
     errors := errors results |}.

(** [for (const [docNo, rows] of Object.entries(groups)) { try {...} catch {...} }] *)
Fixpoint submitGroups (label : string)
         (build : string -> list Converter.QBOJournalEntry -> completion payload)
         (url : string)
         (groups : list (string * list Converter.QBOJournalEntry))
         (r : remote) (results : Results) : remote * Results :=
  match groups with
  | [] => (r, results)
  | (docNo, rows) :: rest =>
      match build docNo rows with
      | Throw message =>
          submitGroups label build url rest r
            (recordFailure results (template [label; " "; docNo; ": "; message]))
      | Return p =>
          let (r, answer) := makePost r url p in
          match answer with
          | Resolved _ =>
              submitGroups label build url rest r (recordSuccess results)
          | Rejected message =>
              submitGroups label build url rest r
                (recordFailure results (template [label; " "; docNo; ": "; message]))
          end
      end
  end.

Definition noResults : Results := {| success := 0; failed := 0; errors := [] |}.

(** The body of [syncJournalEntries] once [baseUrl] is bound. *)
Definition submitJournalEntries (baseUrl : string) (this : QBSyncService)
           (r : remote) (entries : list Converter.QBOJournalEntry)
  : remote * Results :=
  let url := template [baseUrl; "/v3/company/"; realmId; "/journalentry"] in
  (* Group by JournalNo *)
  let groups := groupBy Converter.JournalNo entries in
  submitGroups "Journal" (journalPayload this) url (JS.entries groups) r noResults.

Definition syncJournalEntries (this : QBSyncService) (r : remote)
           (entries : list Converter.QBOJournalEntry) : remote * outcome Results :=
  match getBaseUrl with
  | Throw message => (r, Rejected message)
  | Return baseUrl =>
      let (r, results) := submitJournalEntries baseUrl this r entries in
      (r, Resolved results)
  end.

(** [e.BillNo] as a property key: an absent field reads [undefined]. *)
Definition billKey (e : Converter.QBOJournalEntry) : string :=
  default "undefined" (Converter.BillNo e).

(** The body of [syncBills] once [baseUrl] is bound. *)
Definition submitBills (baseUrl : string) (this : QBSyncService)
           (r : remote) (entries : list Converter.QBOJournalEntry)
  : remote * Results :=
  let url := template [baseUrl; "/v3/company/"; realmId; "/bill"] in
  (* Group by BillNo *)
  let groups := groupBy billKey entries in
  submitGroups "Bill" (billPayload this) url (JS.entries groups) r noResults.

Definition syncBills (this : QBSyncService) (r : remote)
           (entries : list Converter.QBOJournalEntry) : remote * outcome Results :=
  match getBaseUrl with
  | Throw message => (r, Rejected message)
  | Return baseUrl =>
      let (r, results) := submitBills baseUrl this r entries in
      (r, Resolved results)
  end.

End Remote.

End QBSync.

(* ===================================================================== *)
(** * The IPC handlers of the main process ([main.cjs])                    *)
(* ===================================================================== *)

Module Main.
Import JS.

(** What a handler returns to the renderer:
    [{ success: true, ... }] or [{ success: false, error }]. *)
Inductive reply (A : Type) : Type :=
| Success (value : A)
| Failure (error : string).
Arguments Success {A} value.
Arguments Failure {A} error.

Section Handlers.
Variable remote : Type.
Variable makeQuery : remote -> string -> remote * outcome (option QBSync.QueryResponse).
Variable makePost : remote -> string -> QBSync.payload -> remote * outcome unit.
Variable realmId : string.
Variable sandbox : bool.
Variable today : string.

(** [ipcMain.handle('qb:refresh-mappings', ...)] *)
Definition handleRefreshMappings (qbSync : QBSync.QBSyncService) (r : remote)
  : QBSync.QBSyncService * remote * reply (nat * nat) :=
  let '(qbSync, r, counts) :=
    QBSync.refreshMappings remote makeQuery realmId sandbox qbSync r in
  match counts with
  | Resolved counts => (qbSync, r, Success counts)
  | Rejected message => (qbSync, r, Failure message)
  end.

(** [ipcMain.handle('qb:sync', ...)] *)
Definition handleSync (qbSync : QBSync.QBSyncService) (r : remote)
           (mode : Converter.ConversionMode) (data : list Converter.QBOJournalEntry)
  : remote * reply QBSync.Results :=
  let (r, results) :=
    match mode with
    | Converter.GL => QBSync.syncJournalEntries remote makePost realmId today qbSync r data
    | Converter.AP => QBSync.syncBills remote makePost realmId today qbSync r data
    end in
  match results with
  | Resolved results => (r, Success results)
  | Rejected message => (r, Failure message)
  end.
End Handlers.
End Main.

(* ===================================================================== *)
(** * The converter view ([IIFConverter])                                  *)
(* ===================================================================== *)

Module IIFConverter.
Import JS Converter.

(** The state of the component that the handlers below read or write. *)
Record State : Type := {
  isProcessing : bool;
  errorMessage : option string;
  convertedData : list QBOJournalEntry;
  fileName : option string;
  conversionMode : ConversionMode;
  isSyncing : bool;
  syncResult : option QBSync.Results
}.

(** The initial values of the [useState] calls. *)
Definition initialState : State :=
  {| isProcessing := false; errorMessage := None; convertedData := [];
     fileName := None; conversionMode := GL; isSyncing := false; syncResult := None |}.

(** A dropped or selected file: its name and what [file.text()] settles
    to (a rejection carries the message of its Error). *)
Record InputFile : Type := {
  name : string;
  text : outcome string
}.

(** The [try] block of [processFile]. *)
Definition readFile (mode : ConversionMode) (file : InputFile)
  : completion (list QBOJournalEntry) :=
  match text file with
  | Rejected message => Throw message
  | Resolved text =>
      match convert text mode with
      | Throw message => Throw message
      | Return data =>
          if Nat.eqb (length data) 0
          then Throw "No valid transactions found in file."
          else Return data
      end
  end.

Definition processFile (st : State) (file : InputFile) : State :=
  match readFile (conversionMode st) file with
  | Return data =>
      {| isProcessing := false; errorMessage := None; convertedData := data;
         fileName := Some (name file); conversionMode := conversionMode st;
         isSyncing := isSyncing st; syncResult := syncResult st |}
  | Throw msg =>
      {| isProcessing := false; errorMessage := Some msg; convertedData := [];
         fileName := Some (name file); conversionMode := conversionMode st;
         isSyncing := isSyncing st; syncResult := syncResult st |}
  end.

(** [downloadCsv]: the content handed to the browser, if any.  [toCSV] is
    called without a mode, so its parameter takes the default, [GL]. *)
Definition downloadCsv (st : State) : option string :=
  if Nat.eqb (length (convertedData st)) 0 then None
  else Some (toCSV (convertedData st) GL).

Section Push.
Variable remote : Type.
Variable makePost : remote -> string -> QBSync.payload -> remote * outcome unit.
Variable realmId : string.
Variable today : string.

(** [handlePushToQBO], with the main process answering the [qb:sync]
    invocation. *)
Definition handlePushToQBO (st : State) (qbSync : QBSync.QBSyncService) (r : remote)
  : State * remote :=
  if Nat.eqb (length (convertedData st)) 0 then (st, r)
  else
    let (r, res) :=
      Main.handleSync remote makePost realmId today qbSync r
                      (conversionMode st) (convertedData st) in
    match res with
    | Main.Success results =>
        ({| isProcessing := isProcessing st; errorMessage := None;
            convertedData := convertedData st; fileName := fileName st;
            conversionMode := conversionMode st;
            isSyncing := false; syncResult := Some results |}, r)
    | Main.Failure error =>
        ({| isProcessing := isProcessing st;
            errorMessage := Some (template ["Sync Failed: "; error]);
            convertedData := convertedData st; fileName := fileName st;
            conversionMode := conversionMode st;
            isSyncing := false; syncResult := None |}, r)
    end.
End Push.
End IIFConverter.

(* ===================================================================== *)
(** * The daily PDF reports ([pdfGenerator.ts])                            *)
(* ===================================================================== *)

Module PdfGenerator.
Import JS CsvProcessor.







Section Host.
Variable newDate : string -> Date.
(** [d.toLocaleTimeString([], { hour: '2-digit', minute: '2-digit' })] *)
Variable toLocaleTimeString : Date -> string.
(** [x.toLocaleString(undefined, { minimumFractionDigits: 2 })] *)
Variable toLocaleString : number -> string.





End Host.
End PdfGenerator.

(* ===================================================================== *)
(** * Notions of the specification                                         *)
(* ===================================================================== *)

Module Spec.
Import JS.

(** A calendar date: year, month index, day of the month. *)
Definition calendarDay : Type := (N * nat * nat)%type.

Definition calendarDate (c : civil) : calendarDay :=
  (fullYear c, monthIndex c, dayOfMonth c).

(** The day after a calendar date. *)
Definition nextCalendarDate (d : calendarDay) : calendarDay :=
  let '(y, m, d) := d in
  if (d <? daysInMonth y m)%nat then (y, m, S d)
  else if (m <? 11)%nat then (y, S m, 1)
  else ((y + 1)%N, 0, 1).

(** The label of a calendar date, [M/D/YYYY]. *)
Definition dateLabel (d : calendarDay) : string :=
  let '(y, m, d) := d in
  template [digits (N.of_nat (S m)); "/"; digits (N.of_nat d); "/"; digits y].

(** The local time of day, in seconds since midnight. *)
Definition secondOfDay (c : civil) : nat :=
  hours c * 3600 + minutes c * 60 + seconds c.

(** The fields of a Date are those of a real instant. *)
Definition wellFormed (c : civil) : Prop :=
  monthIndex c < 12
  /\ 1 <= dayOfMonth c <= daysInMonth (fullYear c) (monthIndex c)
  /\ hours c < 24 /\ minutes c < 60 /\ seconds c < 60.




(** The summary of an ingestion that kept no row. *)
Definition emptyReport (now : Date) : CsvProcessor.ReportSummary :=
  {| CsvProcessor.dateRange := toLocaleDateString now;
     CsvProcessor.totalAmount := zero;
     CsvProcessor.totalFees := zero;
     CsvProcessor.totalNet := zero;
     CsvProcessor.transactionCount := 0;
     CsvProcessor.dailyGroups := [];
     CsvProcessor.allTransactions := [] |}.




(** ** Reading comma-separated text *)

(** A reader of comma-separated text: records end at a line feed, cells at
    a comma; a cell that starts with a double quote runs to its closing
    quote, and a doubled quote inside it stands for one quote. *)
Inductive csvState : Type := Plain | Quoted | QuoteSeen.

Fixpoint csvRead (s : string) (st : csvState) (cell : string) (row : list string)
  : list (list string) :=
  match s with
  | EmptyString => [row ++ [cell]]
  | String c r =>
      let more := String.app cell (String c EmptyString) in
      match st with
      | Plain =>
          if Ascii.eqb c "," then csvRead r Plain EmptyString (row ++ [cell])
          else if Ascii.eqb c LF then (row ++ [cell]) :: csvRead r Plain EmptyString []
          else if Ascii.eqb c Converter.QUOTE && negb (truthy cell)
               then csvRead r Quoted EmptyString row
          else csvRead r Plain more row
      | Quoted =>
          if Ascii.eqb c Converter.QUOTE then csvRead r QuoteSeen cell row
          else csvRead r Quoted more row
      | QuoteSeen =>
          if Ascii.eqb c Converter.QUOTE then csvRead r Quoted more row
          else if Ascii.eqb c "," then csvRead r Plain EmptyString (row ++ [cell])
          else if Ascii.eqb c LF then (row ++ [cell]) :: csvRead r Plain EmptyString []
          else csvRead r Plain more row
      end
  end.

Definition readCsv (s : string) : list (list string) := csvRead s Plain EmptyString [].

(** ** Amounts *)





(** ** The order of the converted rows *)

(** The order of the General-Ledger output. *)
Definition journalOrder (a b : Converter.QBOJournalEntry) : Prop :=
  String.leb (Converter.JournalNo a) (Converter.JournalNo b) = true.

(** The order of the Accounts-Payable output: by date, then by number. *)
Definition billOrder (a b : Converter.QBOJournalEntry) : Prop :=
  String.ltb (Converter.JournalDate a) (Converter.JournalDate b) = true
  \/ (Converter.JournalDate a = Converter.JournalDate b
      /\ String.leb (Converter.JournalNo a) (Converter.JournalNo b) = true).

End Spec.

(* ===================================================================== *)
(** * A concrete host, to run the services                                 *)
(* ===================================================================== *)

Module Sample.
Import JS.

Definition field2 (s : string) (at_ : nat) : nat :=
  let '(v, _, _) := readDigits (substring at_ 2 s) 0 0 in Z.to_nat v.

(** [new Date(s)] on [YYYY-MM-DDTHH:mm:ss], read as local time. *)
Definition newDate (s : string) : Date :=
  let '(y, n, _) := readDigits (substring 0 4 s) 0 0 in
  if Nat.eqb n 4 && Nat.eqb (String.length s) 19
  then ValidDate (Civil (Z.to_N y) (field2 s 5 - 1) (field2 s 8)
                        (field2 s 11) (field2 s 14) (field2 s 17))
  else InvalidDate.

(** Seconds on a clock that gives every month 31 days: enough to order the
    instants. *)
Definition getTime (d : Date) : number :=
  match d with
  | InvalidDate => NaN
  | ValidDate c =>
      ofZ ((((Z.of_N (fullYear c) * 12 + Z.of_nat (monthIndex c)) * 31
              + Z.of_nat (dayOfMonth c)) * 24 + Z.of_nat (hours c)) * 3600
            + Z.of_nat (minutes c) * 60 + Z.of_nat (seconds c))
  end.

Definition now : Date := ValidDate (Civil 2024 0 9 12 0 0).

Definition toISOString (d : Date) : string := "2024-01-09T12:00:00.000Z".

Definition tab : string := String TAB EmptyString.
Definition newline : string := String LF EmptyString.

(** A tab-separated line. *)
Fixpoint tsv (cells : list string) : string :=
  match cells with
  | [] => EmptyString
  | [c] => c
  | c :: r => String.app c (String.app tab (tsv r))
  end.

(** A document from its lines. *)
Fixpoint document (lines : list string) : string :=
  match lines with
  | [] => EmptyString
  | [l] => l
  | l :: r => String.app l (String.app newline (document r))
  end.

Definition transactionAt (dateTime : string) : CsvProcessor.ShopifyTransaction :=
  {| CsvProcessor.ident := "T-0"; CsvProcessor.orderNumber := "T";
     CsvProcessor.dateTime := dateTime; CsvProcessor.customerName := "Internal/Guest";
     CsvProcessor.amount := ofZ 100; CsvProcessor.fee := ofZ (-2);
     CsvProcessor.net := ofZ 98; CsvProcessor.type_ := "Unknown";
     CsvProcessor.cardBrand := "N/A"; CsvProcessor.currency := "USD";
     CsvProcessor.sourceFile := "a.csv" |}.

Definition at1600 : CsvProcessor.ShopifyTransaction := transactionAt "2024-01-05T16:00:00".
Definition at1559 : CsvProcessor.ShopifyTransaction := transactionAt "2024-01-05T15:59:59".

(** A Shopify export whose only row has no readable amount. *)
Definition shopifyNoAmount : CsvProcessor.File :=
  {| CsvProcessor.fileName := "shopify.csv";
     CsvProcessor.papaParse :=
       Resolved [[("Created at", "2024-01-05T10:00:00"); ("Amount", "n/a")]] |}.

(** A PayPal export whose only row is a withdrawal. *)
Definition paypalWithdrawal : CsvProcessor.File :=
  {| CsvProcessor.fileName := "paypal.csv";
     CsvProcessor.papaParse :=
       Resolved [[("Date", "01/05/2024"); ("Time", "10:00:00");
                  ("Type", "General Withdrawal"); ("Gross", "-40.00")]] |}.

(** Two files, a row before and a row after the cutoff of the same day. *)
Definition morning : CsvProcessor.File :=
  {| CsvProcessor.fileName := "a.csv";
     CsvProcessor.papaParse :=
       Resolved [[("Created at", "2024-01-05T15:30:00"); ("Amount", "100.00");
                  ("Fee", "-2.50")]] |}.

Definition evening : CsvProcessor.File :=
  {| CsvProcessor.fileName := "b.csv";
     CsvProcessor.papaParse :=
       Resolved [[("Created at", "2024-01-05T16:05:00"); ("Amount", "50.00");
                  ("Fee", "-1.00")]] |}.

(** Data lines without any declaration line. *)
Definition undeclared : string :=
  document [tsv ["TRNS"; "1"; "BILL"; "01/05/2024"; "ACME"; "-12.50"];
            tsv ["SPL"; "2"; "BILL"; "01/05/2024"; "0-682-0"; "12.50"]].



(** A bill with two expense lines, the second without an amount. *)
Definition billTrnsDecl : string := tsv ["!TRNS"; "DOCNUM"; "DATE"; "NAME"; "AMOUNT"].
Definition billSplDecl : string := tsv ["!SPL"; "ACCNT"; "MEMO"; "AMOUNT"].
Definition billHeader : string := tsv ["TRNS"; "B-7"; "01/05/2024"; "ACME"; "-12.50"].
Definition billLine1 : string := tsv ["SPL"; "0-682-0"; "freight"; "12.50"].
Definition billLine2 : string := tsv ["SPL"; "0-115-0"; "parts"].
Definition bill : string :=
  document [billTrnsDecl; billSplDecl; billHeader; billLine1; billLine2].

(** A journal with a debit and a credit line. *)
Definition journal : string :=
  document [tsv ["!SPL"; "DATE"; "ACCNT"; "AMOUNT"; "DOCNUM"; "MEMO"];
            tsv ["SPL"; "01/05/2024"; "0-401-0"; "-12.5"; "D1"; "sale"];
            tsv ["SPL"; "01/05/2024"; "0-121-0"; "12.5"; "D1"; "cash"]].

(** The ledger answers every query with one account and no vendor. *)
Definition makeQuery (r : list QBSync.payload) (url : string)
  : list QBSync.payload * outcome (option QBSync.QueryResponse) :=
  (r, Resolved (Some {| QBSync.QR_Account :=
                          Some [{| QBSync.Name := "0-401-0 SALES"; QBSync.Id := "7" |}];
                        QBSync.QR_Vendor := Some [] |})).

(** A service that has been refreshed before. *)
Definition refreshedBefore : QBSync.QBSyncService :=
  {| QBSync.accountMap := [("0-999-0 CLOSED ACCOUNT", "3")]; QBSync.vendorMap := [] |}.



(** A service that knows two accounts. *)
Definition mapped : QBSync.QBSyncService :=
  {| QBSync.accountMap := [("0-401-0 SALES", "7"); ("0-121-0 UNDEPOSITED FUNDS", "9")];
     QBSync.vendorMap := [("ACME", "55")] |}.

Definition journalRow (journalNo account debit credit : string) : Converter.QBOJournalEntry :=
  {| Converter.JournalNo := journalNo; Converter.JournalDate := "01/05/2024";
     Converter.DueDate := None;
     Converter.Description := "(Ref: D1)"; Converter.Account := account;
     Converter.Debit := debit; Converter.Credit := credit; Converter.Name := EmptyString;
     Converter.LineAmount := None; Converter.BillNo := None; Converter.Supplier := None |}.

(** Three journals; the second posts to an account the ledger does not know. *)
Definition threeJournals : list Converter.QBOJournalEntry :=
  [ journalRow "CPIIF-010524" "0-401-0 SALES" EmptyString "12.50";
    journalRow "CPIIF-010624" "0-777-0 UNKNOWN" "3.00" EmptyString;
    journalRow "CPIIF-010524" "0-121-0 UNDEPOSITED FUNDS" "12.50" EmptyString;
    journalRow "CPIIF-010724" "0-121-0" "1.00" EmptyString ].

(** A remote ledger that accepts every document; its state is the list of
    the payloads received. *)
Definition remote : Type := list QBSync.payload.
Definition makePost (r : remote) (url : string) (p : QBSync.payload)
  : remote * outcome unit := (r ++ [p], Resolved tt).

(** A PayPal export: a payment, a withdrawal and a row without amounts. *)
Definition paypalSales : CsvProcessor.File :=
  {| CsvProcessor.fileName := "paypal.csv";
     CsvProcessor.papaParse :=
       Resolved [[("Date", "01/05/2024"); ("Time", "10:00:00");
                  ("Type", "Express Checkout Payment"); ("Gross", "40.00");
                  ("Fee", "-1.46"); ("Net", "38.54")];
                 [("Date", "01/05/2024"); ("Time", "11:00:00");
                  ("Type", "General Withdrawal"); ("Gross", "-38.54")];
                 [("Date", "01/05/2024"); ("Time", "12:00:00");
                  ("Type", "Invoice Sent")]] |}.

(** A transaction whose date the host cannot read. *)
Definition undated : CsvProcessor.ShopifyTransaction := transactionAt "yesterday".

Definition undeclaredFile : IIFConverter.InputFile :=
  {| IIFConverter.name := "bills.iif"; IIFConverter.text := Resolved undeclared |}.

Definition billFile : IIFConverter.InputFile :=
  {| IIFConverter.name := "bills.iif"; IIFConverter.text := Resolved bill |}.

Definition apView : IIFConverter.State :=
  {| IIFConverter.isProcessing := false; IIFConverter.errorMessage := None; IIFConverter.convertedData := [];
     IIFConverter.fileName := None; IIFConverter.conversionMode := Converter.AP; IIFConverter.isSyncing := false; IIFConverter.syncResult := None |}.

(** A ledger that answers the account query and fails on any other. *)
Definition vendorsDown (r : list QBSync.payload) (url : string)
  : list QBSync.payload * outcome (option QBSync.QueryResponse) :=
  if String.eqb url (QBSync.queryUrl "9130" true "Account")
  then makeQuery r url
  else (r, Rejected "Request failed with status code 503").


End Sample.

(* ===================================================================== *)
(** * Invariants used in the proofs                                        *)
(* ===================================================================== *)

Module Invariants.
Import JS.

(** A number of whole hundredths: an integer, or one of the non-finite
    values, which every operation of the ledger propagates. *)
Definition integral (x : number) : Prop :=
  match x with
  | Finite q => exists z : Z, q = Q2Qc (inject_Z z)
  | _ => True
  end.

(** Only decimal digits. *)
Definition allDigits (s : string) : bool :=
  forallb isDigit (list_ascii_of_string s).


(** The running total of the code, in hundredths. *)
Definition centsOf {A} (f : A -> number) (l : list A) : number :=
  fold_left (fun sum t => add sum (Math_round (mulLit (f t) 100))) l zero.

(** What holds of every group of the grouper, open or closed. *)
Definition groupOk (newDate : string -> Date) (g : CsvProcessor.DailyGroup) : Prop :=
  CsvProcessor.subtotal g
    = CsvProcessor.centTotal CsvProcessor.amount (CsvProcessor.transactions g)
  /\ CsvProcessor.subtotalFees g
     = CsvProcessor.centTotal CsvProcessor.fee (CsvProcessor.transactions g)
  /\ CsvProcessor.subtotalNet g
     = CsvProcessor.centTotal CsvProcessor.net (CsvProcessor.transactions g)
  /\ CsvProcessor.count g = length (CsvProcessor.transactions g)
  /\ Forall (fun t => CsvProcessor.getReportingDateString newDate (CsvProcessor.dateTime t)
                      = CsvProcessor.date g)
            (CsvProcessor.transactions g).

Definition stateOk (newDate : string -> Date)
           (st : list CsvProcessor.DailyGroup * option CsvProcessor.DailyGroup) : Prop :=
  Forall (groupOk newDate) (fst st)
  /\ match snd st with Some g => groupOk newDate g | None => True end.

(** The transactions the loop has placed so far, in order. *)
Definition grouped (st : list CsvProcessor.DailyGroup * option CsvProcessor.DailyGroup)
  : list CsvProcessor.ShopifyTransaction :=
  concat (map CsvProcessor.transactions (fst st))
  ++ match snd st with Some g => CsvProcessor.transactions g | None => [] end.

(** An error string of the sync names one of the document numbers. *)
Definition names (label : string) (docNos : list string) (e : string) : Prop :=
  exists docNo message,
    In docNo docNos /\ e = template [label; " "; docNo; ": "; message].

End Invariants.

(* ===================================================================== *)
(** * Invariants of the ledger ingestion                                *)
(* ===================================================================== *)

Module LedgerInvariants.
Import JS Spec CsvProcessor.

(** The text after the last separator. *)
Definition afterLast (sep : ascii) (s : string) : string :=
  List.last (split sep s) EmptyString.

(** The number spelt after the last dash of an identifier. *)
Definition serial (id : string) : Z :=
  let '(v, _, _) := readDigits (afterLast "-" id) 0 0 in v.

(** A row handler either leaves the ledger as it is or appends one
    transaction, numbered with the counter, and advances the counter. *)
Definition keeps (P : ShopifyTransaction -> Prop)
           (rowStep : File -> ledger -> object string -> ledger) : Prop :=
  forall file st row,
    rowStep file st row = st
    \/ exists t,
         rowStep file st row = (fst st ++ [t], (snd st + 1)%N)
         /\ ident t = String.app (orderNumber t) (String.app "-" (digits (snd st)))
         /\ sourceFile t = fileName file
         /\ P t.

Definition ledgerOk (P : ShopifyTransaction -> Prop) (names : list string)
           (st : ledger) : Prop :=
  snd st = N.of_nat (length (fst st))
  /\ (forall i t, fst st !! i = Some t ->
        ident t = String.app (orderNumber t) (String.app "-" (digits (N.of_nat i))))
  /\ Forall (fun t => P t /\ In (sourceFile t) names) (fst st).

(** What is true of every transaction the Shopify handler keeps. *)
Definition shopifyKept (t : ShopifyTransaction) : Prop :=
  isNaN (amount t) = false.

(** What is true of every transaction the PayPal handler keeps. *)
Definition paypalKept (t : ShopifyTransaction) : Prop :=
  cardBrand t = "PayPal"
  /\ type_ t <> "General Withdrawal"
  /\ type_ t <> "User Initiated Withdrawal"
  /\ strictEq (amount t) zero && strictEq (fee t) zero && strictEq (net t) zero = false.

(** The closed groups and the open one, in order. *)
Definition allGroups (st : list DailyGroup * option DailyGroup) : list DailyGroup :=
  fst st ++ match snd st with Some g => [g] | None => [] end.

(** No two neighbours of a list are equal. *)
Definition neighboursDiffer (l : list string) : Prop :=
  forall i a b, l !! i = Some a -> l !! S i = Some b -> a <> b.

(** The state of the grouping loop: no group is empty, neighbouring groups
    carry different dates, and there is an open group once a group exists. *)
Definition runsOk (st : list DailyGroup * option DailyGroup) : Prop :=
  Forall (fun g => transactions g <> []) (allGroups st)
  /\ neighboursDiffer (map CsvProcessor.date (allGroups st))
  /\ (snd st = None -> fst st = []).


End LedgerInvariants.

(* ===================================================================== *)
(** * Invariants of the converter and of its export                     *)
(* ===================================================================== *)

Module ExportInvariants.
Import JS Spec Converter.

(** What follows a cell: the end of the text, a comma or a line feed. *)
Definition boundary (rest : string) : Prop :=
  rest = EmptyString \/ exists r, rest = String "," r \/ rest = String LF r.

(** A record as [toCSV] writes it. *)
Definition csvRecord (cells : list string) : string :=
  join "," (map csvCell cells).

(** The cells [toCSV] writes for a row. *)
Definition cellsOf (mode : ConversionMode) (row : QBOJournalEntry) : list string :=
  map (valueOf row) (csvFieldNames mode).

(** The lines of a document that start with [SPL]. *)
Definition splLines (iifString : string) : list string :=
  List.filter (fun line => startsWith line "SPL") (splitLines iifString).

(** What holds of every row of the Accounts-Payable mode. *)
Definition billShape (row : QBOJournalEntry) : Prop :=
  Account row <> "0-201-0"
  /\ apAccountOverrides !! Account row = None
  /\ BillNo row = Some (JournalNo row)
  /\ Supplier row = Some (Name row)
  /\ (exists due, DueDate row = Some due)
  /\ (exists amount, LineAmount row = Some amount
                     /\ (Debit row = amount \/ Debit row = "0"))
  /\ (Debit row = "0" \/ Credit row = "0").

(** What holds of every row of the General-Ledger mode. *)
Definition journalShape (row : QBOJournalEntry) : Prop :=
  JournalNo row = journalNoOf (JournalDate row)
  /\ startsWith (JournalNo row) "CPIIF-" = true
  /\ glAccountOverrides !! Account row = None
  /\ (Debit row = "" \/ Credit row = "")
  /\ DueDate row = None /\ LineAmount row = None
  /\ BillNo row = None /\ Supplier row = None.

End ExportInvariants.

(* ===================================================================== *)
(** * Invariants of the sync                                            *)
(* ===================================================================== *)

Module SyncInvariants.
Import JS Invariants QBSync.

(** A date of the shape [YYYY-MM-DD]. *)
Definition isoDate (s : string) : bool :=
  match split "-" s with
  | [y; m; d] =>
      Nat.eqb (String.length y) 4 && allDigits y
      && Nat.eqb (String.length m) 2 && allDigits m
      && Nat.eqb (String.length d) 2 && allDigits d
  | _ => false
  end.

(** One or two decimal digits. *)
Definition shortField (s : string) : bool :=
  allDigits s && (Nat.eqb (String.length s) 1 || Nat.eqb (String.length s) 2).

(** Two or four decimal digits. *)
Definition yearField (s : string) : bool :=
  allDigits s && (Nat.eqb (String.length s) 2 || Nat.eqb (String.length s) 4).






End SyncInvariants.

(* ===================================================================== *)
(** * Invariants of the PDF reports                                     *)
(* ===================================================================== *)

Module PdfInvariants.
Import JS CsvProcessor PdfGenerator.






End PdfInvariants.

(* ===================================================================== *)
(** * Properties of the host primitives                                    *)
(* ===================================================================== *)

Module JSFacts.
Import JS Invariants.

Lemma Qc_ltb_lt (a b : Qc) : Qc_ltb a b = true <-> (a < b)%Qc.
Proof. unfold Qc_ltb, Qclt, Qlt. apply Z.ltb_lt. Qed.


Lemma inject_add (a b : Z) :
  (Q2Qc (inject_Z a) + Q2Qc (inject_Z b))%Qc = Q2Qc (inject_Z (a + b)).
Proof.
  apply Qc_is_canon. simpl. rewrite !Qred_correct. unfold Qeq. simpl. lia.
Qed.

Lemma div_mul_lit (q : Qc) (c : positive) :
  (q * Q2Qc (1 # c) * Q2Qc (inject_Z (Zpos c)))%Qc = q.
Proof.
  rewrite <- Qcmult_assoc.
  assert (H : (Q2Qc (1 # c) * Q2Qc (inject_Z (Zpos c)))%Qc = 1%Qc).
  { apply Qc_is_canon. simpl. rewrite !Qred_correct. unfold Qeq. simpl. lia. }
  rewrite H. apply Qcmult_1_r.
Qed.

(** Rounding leaves an integer unchanged. *)
Lemma round_ofZ (z : Z) : Math_round (ofZ z) = ofZ z.
Proof.
  unfold Math_round, ofZ. do 3 f_equal.
  transitivity (Qfloor (inject_Z z + (1 # 2))).
  { apply Qfloor_comp. simpl. rewrite !Qred_correct. reflexivity. }
  unfold Qfloor, inject_Z, Qplus. simpl. rewrite Z.mul_1_r.
  change (Z.pos (1 * 2)) with 2%Z.
  symmetry. apply Z.div_unique with (r := 1%Z); lia.
Qed.

Lemma integral_zero : integral zero.
Proof. exists 0%Z. reflexivity. Qed.

Lemma integral_round (x : number) : integral (Math_round x).
Proof. destruct x; simpl; eauto. Qed.

Lemma integral_add (x y : number) : integral x -> integral y -> integral (add x y).
Proof.
  destruct x as [|a|p], y as [|b|q]; simpl; try tauto.
  - destruct (Bool.eqb a b); simpl; tauto.
  - intros [u ->] [v ->]. exists (u + v)%Z. apply inject_add.
Qed.

(** Converting whole hundredths to units and back loses nothing. *)
Lemma round_mul_div (c : number) :
  integral c -> Math_round (mulLit (divLit c 100) 100) = c.
Proof.
  destruct c as [| b | q]; [reflexivity | reflexivity |].
  intros [z ->]. unfold divLit, mulLit. rewrite div_mul_lit. apply round_ofZ.
Qed.




Lemma divLit_zero (c : positive) : divLit zero c = zero.
Proof. unfold divLit, zero, ofZ. f_equal. apply Qcmult_0_l. Qed.

(** Sorting permutes. *)
Lemma insertSorted_perm {A} (after : A -> A -> bool) (x : A) (l : list A) :
  Permutation (x :: l) (insertSorted after x l).
Proof.
  induction l as [| y r IH]; simpl; [reflexivity |].
  destruct (after x y); [| reflexivity].
  rewrite perm_swap. constructor. exact IH.
Qed.

Lemma sort_perm {A} (after : A -> A -> bool) (l : list A) :
  Permutation l (sort after l).
Proof.
  induction l as [| x r IH]; simpl; [reflexivity |].
  rewrite <- insertSorted_perm. constructor. exact IH.
Qed.

Lemma sort_nil {A} (after : A -> A -> bool) : sort after [] = [].
Proof. reflexivity. Qed.

(** ** Strings *)

Lemma startsWith_head (a b : ascii) (p s : string) :
  startsWith (String b s) (String a p) = true -> b = a.
Proof.
  simpl. destruct (Ascii.eqb_spec a b); [congruence | discriminate].
Qed.

Lemma startsWith_cons (a b : ascii) (p s : string) :
  startsWith (String b s) (String a p) = Ascii.eqb a b && startsWith s p.
Proof. reflexivity. Qed.

Lemma split_nonempty (sep : ascii) (s : string) : split sep s <> [].
Proof.
  induction s as [| c r IH]; simpl; [discriminate |].
  destruct (Ascii.eqb c sep); [discriminate |].
  destruct (split sep r); discriminate.
Qed.

Lemma append_cons (c : ascii) (r s : string) :
  String.app (String c r) s = String c (String.app r s).
Proof. reflexivity. Qed.

Lemma append_nil (s : string) : String.app EmptyString s = s.
Proof. reflexivity. Qed.

(** A string without the separator is one piece. *)
Lemma split_none (sep : ascii) (s : string) :
  forallb (fun c => negb (Ascii.eqb c sep)) (list_ascii_of_string s) = true ->
  split sep s = [s].
Proof.
  induction s as [| c r IH]; simpl; [reflexivity |].
  intros H. apply andb_prop in H as [Hc Hr].
  destruct (Ascii.eqb c sep); [discriminate |].
  rewrite (IH Hr). reflexivity.
Qed.

Lemma split_app (sep : ascii) (a b : string) :
  forallb (fun c => negb (Ascii.eqb c sep)) (list_ascii_of_string a) = true ->
  split sep (String.app a (String sep b)) = a :: split sep b.
Proof.
  induction a as [| c r IH].
  - intros _. change (String.app EmptyString (String sep b)) with (String sep b).
    simpl. rewrite Ascii.eqb_refl. reflexivity.
  - intros H. simpl in H. apply andb_prop in H as [Hc Hr].
    change (String.app (String c r) (String sep b))
      with (String c (String.app r (String sep b))).
    simpl. destruct (Ascii.eqb c sep); [discriminate |].
    rewrite (IH Hr). reflexivity.
Qed.

(** ** Decimal digits *)

Lemma digitChar_isDigit (d : N) : (d < 10)%N -> isDigit (digitChar d) = true.
Proof.
  intros H.
  assert (E : d = N.of_nat (N.to_nat d)) by (symmetry; apply N2Nat.id).
  rewrite E. assert (Hn : N.to_nat d < 10) by lia.
  generalize dependent (N.to_nat d). clear. intros m _ Hm.
  do 10 (destruct m as [| m]; [reflexivity |]). lia.
Qed.

Lemma digitsGo_allDigits (fuel : nat) (n : N) (acc : string) :
  allDigits acc = true -> allDigits (digitsGo fuel n acc) = true.
Proof.
  revert n acc. induction fuel as [| f IH]; intros n acc Hacc; simpl; [exact Hacc |].
  assert (Hacc' : allDigits (String (digitChar (n mod 10)) acc) = true).
  { unfold allDigits. simpl. rewrite digitChar_isDigit by (apply N.mod_lt; lia).
    exact Hacc. }
  destruct (n / 10 =? 0)%N; [exact Hacc' | apply IH, Hacc'].
Qed.


Lemma digits_allDigits (n : N) : allDigits (digits n) = true.
Proof. apply digitsGo_allDigits. reflexivity. Qed.







End JSFacts.

(* ===================================================================== *)
(** * Properties of the ledger ingestion and of the day grouper            *)
(* ===================================================================== *)

Module CsvProcessorFacts.
Import JS JSFacts CsvProcessor Spec Invariants.

(** ** The calendar *)

Lemma daysInMonth_bounds (y : N) (m : nat) : 28 <= daysInMonth y m <= 31.
Proof.
  unfold daysInMonth.
  do 12 (destruct m as [| m]; [try destruct (isLeap y); lia |]). lia.
Qed.

Lemma carryDay_S (f : nat) (y : N) (m d : nat) :
  carryDay (S f) y m d =
    if (d <=? daysInMonth y m)%nat then (y, m, d)
    else let (y', m') := nextMonth y m in carryDay f y' m' (d - daysInMonth y m).
Proof. reflexivity. Qed.

Lemma carryDay_within (f : nat) (y : N) (m d : nat) :
  d <= daysInMonth y m -> carryDay (S f) y m d = (y, m, d).
Proof.
  intros H. rewrite carryDay_S.
  destruct (Nat.leb_spec d (daysInMonth y m)); [reflexivity | lia].
Qed.

Lemma carryDay_overflow (f : nat) (y : N) (m d : nat) :
  d = daysInMonth y m + 1 ->
  carryDay (S (S f)) y m d = (fst (nextMonth y m), snd (nextMonth y m), 1).
Proof.
  intros ->. rewrite carryDay_S.
  destruct (Nat.leb_spec (daysInMonth y m + 1) (daysInMonth y m)); [lia |].
  destruct (nextMonth y m) as [y' m']. simpl fst. simpl snd.
  replace (daysInMonth y m + 1 - daysInMonth y m) with 1 by lia.
  apply carryDay_within.
  pose proof (daysInMonth_bounds y' m'). lia.
Qed.

(** [setDate(getDate() + 1)] on a real date is the next calendar date. *)
Lemma setDate_next (c : civil) :
  wellFormed c ->
  calendarDate (setDate c (dayOfMonth c + 1)) = nextCalendarDate (calendarDate c).
Proof.
  intros (Hm & [Hd1 Hd2] & _).
  destruct c as [y m d hh mm ss]; simpl in Hm, Hd1, Hd2.
  unfold setDate, calendarDate, nextCalendarDate.
  cbn [fullYear monthIndex dayOfMonth hours minutes seconds].
  destruct d as [| d']; [lia |].
  replace (S d' + 1) with (S (S d')) by lia.
  destruct (Nat.ltb_spec (S d') (daysInMonth y m)) as [Hlt | Hge].
  - rewrite carryDay_within by lia. reflexivity.
  - assert (E : S (S d') = daysInMonth y m + 1) by lia.
    rewrite (carryDay_overflow d' y m _ E).
    unfold nextMonth.
    destruct (Nat.eqb_spec m 11) as [-> | Hne]; simpl.
    + reflexivity.
    + destruct (Nat.ltb_spec m 11); [reflexivity | lia].
Qed.

Lemma toLocaleDateString_label (c : civil) :
  toLocaleDateString (ValidDate c) = dateLabel (calendarDate c).
Proof. reflexivity. Qed.

(** The hour test of the grouper is the 16:00:00 cutoff on the time of day. *)
Lemma cutoff_hours (c : civil) :
  minutes c < 60 -> seconds c < 60 ->
  (16 <=? hours c)%nat = negb (secondOfDay c <? 16 * 3600)%nat.
Proof.
  intros Hm Hs. unfold secondOfDay.
  destruct (Nat.leb_spec 16 (hours c)), (Nat.ltb_spec (hours c * 3600 + minutes c * 60 + seconds c) (16 * 3600));
    simpl; try reflexivity; lia.
Qed.

Lemma reporting_date (newDate : string -> Date) (s : string) (c : civil) :
  newDate s = ValidDate c -> wellFormed c ->
  getReportingDateString newDate s =
    dateLabel (if (secondOfDay c <? 16 * 3600)%nat then calendarDate c
               else nextCalendarDate (calendarDate c)).
Proof.
  intros Hs Hwf. unfold getReportingDateString. rewrite Hs.
  pose proof Hwf as (Hm & Hd & Hh & Hmin & Hsec).
  rewrite (cutoff_hours c Hmin Hsec).
  destruct (secondOfDay c <? 16 * 3600)%nat; simpl negb; cbv iota.
  - apply toLocaleDateString_label.
  - rewrite toLocaleDateString_label. f_equal.
    apply setDate_next, Hwf.
Qed.

(** ** Cent-safe accumulation *)

Lemma centsOf_snoc {A} (f : A -> number) (l : list A) (t : A) :
  centsOf f (l ++ [t]) = add (centsOf f l) (Math_round (mulLit (f t) 100)).
Proof. unfold centsOf. rewrite fold_left_app. reflexivity. Qed.

Lemma integral_centsOf {A} (f : A -> number) (l : list A) : integral (centsOf f l).
Proof.
  induction l as [| t l IH] using rev_ind.
  - apply integral_zero.
  - rewrite centsOf_snoc. apply integral_add; [exact IH | apply integral_round].
Qed.

(** Adding one more value to a running cent-safe total. *)
Lemma centAdd_total {A} (f : A -> number) (l : list A) (t : A) :
  centAdd (centTotal f l) (f t) = centTotal f (l ++ [t]).
Proof.
  unfold centAdd, centTotal. fold (centsOf f l). fold (centsOf f (l ++ [t])).
  rewrite centsOf_snoc. rewrite round_mul_div by apply integral_centsOf.
  reflexivity.
Qed.

Lemma centTotal_nil {A} (f : A -> number) : centTotal f [] = zero.
Proof. unfold centTotal. simpl. apply divLit_zero. Qed.




(** ** The grouping loop *)

Section Grouping.
Variable newDate : string -> Date.

Lemma newGroup_ok (d : string) : groupOk newDate (newGroup d).
Proof.
  unfold groupOk, newGroup; simpl.
  rewrite !centTotal_nil. repeat split; constructor.
Qed.

Lemma appendTransaction_ok (g : DailyGroup) (t : ShopifyTransaction) :
  groupOk newDate g ->
  getReportingDateString newDate (dateTime t) = date g ->
  groupOk newDate (appendTransaction g t).
Proof.
  intros (Ha & Hf & Hn & Hc & Hd) Ht.
  unfold groupOk, appendTransaction; simpl.
  rewrite Ha, Hf, Hn, !centAdd_total, Hc, length_app. simpl.
  repeat split; try reflexivity.
  apply Forall_app; split; [exact Hd | constructor; [exact Ht | constructor]].
Qed.

Lemma groupStep_ok st t : stateOk newDate st -> stateOk newDate (groupStep newDate st t).
Proof.
  destruct st as [gs cur]. intros [Hgs Hcur]. simpl in Hgs, Hcur.
  unfold groupStep.
  destruct cur as [g |].
  - destruct (String.eqb_spec (date g) (getReportingDateString newDate (dateTime t))) as [E | NE];
      simpl negb; cbv iota; split; simpl.
    + exact Hgs.
    + apply appendTransaction_ok; [exact Hcur | symmetry; exact E].
    + apply Forall_app; split; [exact Hgs | constructor; [exact Hcur | constructor]].
    + apply appendTransaction_ok; [apply newGroup_ok | reflexivity].
  - split; simpl; [exact Hgs |].
    apply appendTransaction_ok; [apply newGroup_ok | reflexivity].
Qed.

Lemma groupLoop_ok (ts : list ShopifyTransaction) : stateOk newDate (groupLoop newDate ts).
Proof.
  unfold groupLoop.
  assert (H : forall st, stateOk newDate st -> stateOk newDate (fold_left (groupStep newDate) ts st)).
  { induction ts as [| t ts IH]; intros st Hst; simpl; [exact Hst |].
    apply IH, groupStep_ok, Hst. }
  apply H. split; simpl; [constructor | exact I].
Qed.

Lemma groupTransactionsByDate_ok (ts : list ShopifyTransaction) :
  Forall (groupOk newDate) (groupTransactionsByDate newDate ts).
Proof.
  unfold groupTransactionsByDate.
  destruct ts as [| t ts]; [constructor |].
  pose proof (groupLoop_ok (t :: ts)) as [Hgs Hcur].
  destruct (groupLoop newDate (t :: ts)) as [gs [g |]]; simpl in *.
  - apply Forall_app; split; [exact Hgs | constructor; [exact Hcur | constructor]].
  - exact Hgs.
Qed.
End Grouping.

(** ** Every transaction lands in a group *)

Section Flattening.
Variable newDate : string -> Date.

Lemma groupStep_grouped st t :
  grouped (groupStep newDate st t) = grouped st ++ [t].
Proof.
  destruct st as [gs [g |]]; unfold groupStep, grouped; simpl.
  - destruct (negb (String.eqb (date g) (getReportingDateString newDate (dateTime t))));
      simpl.
    + rewrite map_app, concat_app. simpl. rewrite !app_nil_r, <- app_assoc. reflexivity.
    + rewrite app_assoc. reflexivity.
  - rewrite app_nil_r. reflexivity.
Qed.

Lemma groupLoop_grouped (ts : list ShopifyTransaction) :
  grouped (groupLoop newDate ts) = ts.
Proof.
  unfold groupLoop.
  assert (H : forall st, grouped (fold_left (groupStep newDate) ts st) = grouped st ++ ts).
  { induction ts as [| t ts IH]; intros st; simpl.
    - rewrite app_nil_r. reflexivity.
    - rewrite IH, groupStep_grouped, <- app_assoc. reflexivity. }
  rewrite H. reflexivity.
Qed.

Lemma groupTransactionsByDate_flat (ts : list ShopifyTransaction) :
  concat (map transactions (groupTransactionsByDate newDate ts)) = ts.
Proof.
  unfold groupTransactionsByDate.
  destruct ts as [| t ts]; [reflexivity |].
  pose proof (groupLoop_grouped (t :: ts)) as H.
  destruct (groupLoop newDate (t :: ts)) as [gs [g |]]; unfold grouped in H; simpl in H.
  - rewrite map_app, concat_app. simpl. rewrite app_nil_r. exact H.
  - rewrite app_nil_r in H. exact H.
Qed.
End Flattening.

(** ** The claims on the grouper *)

(** C2.  The reporting date the day grouper assigns to a transaction is its
    calendar date when its local time is before 16:00:00 and the next
    calendar date from 16:00:00 on: every transaction of the input lies in
    a group, and the date of any group that holds it is that reporting
    date. *)
Theorem reporting_day_cutoff (newDate : string -> Date)
        (ts : list ShopifyTransaction) (t : ShopifyTransaction) (c : civil) :
  In t ts -> newDate (dateTime t) = ValidDate c -> wellFormed c ->
  let reportingDate :=
    dateLabel (if (secondOfDay c <? 16 * 3600)%nat then calendarDate c
               else nextCalendarDate (calendarDate c)) in
  (exists g, In g (groupTransactionsByDate newDate ts) /\ In t (transactions g))
  /\ (forall g, In g (groupTransactionsByDate newDate ts) ->
                In t (transactions g) -> date g = reportingDate).
Proof.
  intros Ht Hc Hwf reportingDate. split.
  - rewrite <- (groupTransactionsByDate_flat newDate ts) in Ht.
    apply in_concat in Ht as (l & Hl & Htl).
    apply in_map_iff in Hl as (g & <- & Hg). exists g. split; assumption.
  - intros g Hg Htg.
    pose proof (groupTransactionsByDate_ok newDate ts) as Hok.
    rewrite List.Forall_forall in Hok. specialize (Hok g Hg).
    destruct Hok as (_ & _ & _ & _ & Hdate).
    rewrite List.Forall_forall in Hdate. rewrite <- (Hdate t Htg).
    apply reporting_date; assumption.
Qed.

Lemma reporting_day_cutoff_witness :
  (exists g, In g (groupTransactionsByDate Sample.newDate [Sample.at1600; Sample.at1559])
             /\ In Sample.at1600 (transactions g) /\ date g = "1/6/2024")
  /\ (exists g, In g (groupTransactionsByDate Sample.newDate [Sample.at1600; Sample.at1559])
                /\ In Sample.at1559 (transactions g) /\ date g = "1/5/2024").
Proof.
  split.
  - destruct (reporting_day_cutoff Sample.newDate [Sample.at1600; Sample.at1559]
                Sample.at1600 (Civil 2024 0 5 16 0 0)) as [(g & Hg & Ht) Hdate].
    + left. reflexivity.
    + reflexivity.
    + unfold wellFormed. simpl. lia.
    + exists g. split; [exact Hg | split; [exact Ht |]].
      rewrite (Hdate g Hg Ht). reflexivity.
  - destruct (reporting_day_cutoff Sample.newDate [Sample.at1600; Sample.at1559]
                Sample.at1559 (Civil 2024 0 5 15 59 59)) as [(g & Hg & Ht) Hdate].
    + right. left. reflexivity.
    + reflexivity.
    + unfold wellFormed. simpl. lia.
    + exists g. split; [exact Hg | split; [exact Ht |]].
      rewrite (Hdate g Hg Ht). reflexivity.
Defined.


(** ** The claims on ingestion *)

Lemma report_nil newDate getTime now : report newDate getTime now [] = emptyReport now.
Proof.
  unfold report, emptyReport. simpl sort. simpl groupTransactionsByDate.
  cbv iota. rewrite !centTotal_nil. reflexivity.
Qed.

Lemma parseFiles_resolves rowStep (files : list File) (st : ledger) :
  Forall (fun f => exists rows, papaParse f = Resolved rows) files ->
  exists st', parseFiles rowStep files st = Resolved st'.
Proof.
  revert st. induction files as [| f files IH]; intros st Hall; simpl.
  - eauto.
  - inversion Hall as [| ? ? [rows Hrows] Hrest]; subst.
    rewrite Hrows. apply IH, Hrest.
Qed.

Lemma parseFiles_rejects rowStep (files : list File) (st : ledger) :
  Exists (fun f => exists reason, papaParse f = Rejected reason) files ->
  exists reason, parseFiles rowStep files st = Rejected reason.
Proof.
  revert st. induction files as [| f files IH]; intros st Hex.
  - inversion Hex.
  - simpl. destruct (papaParse f) as [rows | reason] eqn:E; [| eauto].
    apply IH. inversion Hex as [? ? [reason' Hbad] | ? ? Hrest]; subst.
    + congruence.
    + exact Hrest.
Qed.

(** C1, as the code has it.  An ingestion whose files are all read without
    error resolves, whatever its rows are; when no row of the batch is kept
    it resolves with the empty summary: no transaction, no group, zero
    totals and the current date as date range.  It rejects when a file is
    reported in error. *)
Theorem zero_rows_resolve newDate getTime now toISOString (files : list File) :
  (Forall (fun f => exists rows, papaParse f = Resolved rows) files ->
     (exists s, parseShopifyCSV newDate getTime now toISOString files = Resolved s)
     /\ (exists s, parsePaypalCSV newDate getTime now files = Resolved s))
  /\ (forall n, parseFiles (shopifyRow now toISOString) files ([], 0%N) = Resolved ([], n) ->
        parseShopifyCSV newDate getTime now toISOString files = Resolved (emptyReport now))
  /\ (forall n, parseFiles paypalRow files ([], 0%N) = Resolved ([], n) ->
        parsePaypalCSV newDate getTime now files = Resolved (emptyReport now))
  /\ (Exists (fun f => exists reason, papaParse f = Rejected reason) files ->
        (exists reason,
           parseShopifyCSV newDate getTime now toISOString files = Rejected reason)
        /\ (exists reason, parsePaypalCSV newDate getTime now files = Rejected reason)).
Proof.
  unfold parseShopifyCSV, parsePaypalCSV, parseWith.
  split; [| split; [| split]].
  - intros Hall. split.
    + destruct (parseFiles_resolves (shopifyRow now toISOString) files ([], 0%N) Hall)
        as [[l n] ->]. eauto.
    + destruct (parseFiles_resolves paypalRow files ([], 0%N) Hall) as [[l n] ->]. eauto.
  - intros n ->. rewrite report_nil. reflexivity.
  - intros n ->. rewrite report_nil. reflexivity.
  - intros Hbad. split.
    + destruct (parseFiles_rejects (shopifyRow now toISOString) files ([], 0%N) Hbad)
        as [reason ->]. eauto.
    + destruct (parseFiles_rejects paypalRow files ([], 0%N) Hbad) as [reason ->]. eauto.
Qed.

Lemma zero_rows_resolve_witness :
  parseShopifyCSV Sample.newDate Sample.getTime Sample.now Sample.toISOString
                  [Sample.shopifyNoAmount] = Resolved (emptyReport Sample.now)
  /\ parsePaypalCSV Sample.newDate Sample.getTime Sample.now
                    [Sample.paypalWithdrawal] = Resolved (emptyReport Sample.now)
  /\ exists s, parseShopifyCSV Sample.newDate Sample.getTime Sample.now Sample.toISOString
                               [Sample.morning; Sample.evening] = Resolved s.
Proof.
  split; [| split].
  - apply (proj1 (proj2 (zero_rows_resolve Sample.newDate Sample.getTime Sample.now
                           Sample.toISOString [Sample.shopifyNoAmount]))) with (n := 0%N).
    reflexivity.
  - apply (proj1 (proj2 (proj2 (zero_rows_resolve Sample.newDate Sample.getTime Sample.now
                                  Sample.toISOString [Sample.paypalWithdrawal]))))
      with (n := 0%N).
    reflexivity.
  - apply (proj1 (zero_rows_resolve Sample.newDate Sample.getTime Sample.now
                    Sample.toISOString [Sample.morning; Sample.evening])).
    repeat constructor; eexists; reflexivity.
Defined.

(** C1, as stated, fails: a batch that yields no valid row is not rejected. *)
Lemma zero_rows_not_rejected :
  parseFiles (shopifyRow Sample.now Sample.toISOString) [Sample.shopifyNoAmount] ([], 0%N)
    = Resolved ([], 0%N)
  /\ parseFiles paypalRow [Sample.paypalWithdrawal] ([], 0%N) = Resolved ([], 0%N)
  /\ (forall reason,
        parseShopifyCSV Sample.newDate Sample.getTime Sample.now Sample.toISOString
                        [Sample.shopifyNoAmount] <> Rejected reason)
  /\ (forall reason,
        parsePaypalCSV Sample.newDate Sample.getTime Sample.now
                       [Sample.paypalWithdrawal] <> Rejected reason).
Proof.
  repeat split; try reflexivity; intros reason H; vm_compute in H; discriminate H.
Qed.

(** ** The summary *)

(** The groups of the grouper, laid end to end, are the input list: every
    transaction is in one group and the order is kept. *)
Theorem grouping_keeps_order (newDate : string -> Date) (ts : list ShopifyTransaction) :
  concat (map transactions (groupTransactionsByDate newDate ts)) = ts.
Proof. apply groupTransactionsByDate_flat. Qed.


End CsvProcessorFacts.

(* ===================================================================== *)
(** * Properties of the legacy-format converter                            *)
(* ===================================================================== *)

Module ConverterFacts.
Import JS JSFacts Converter Spec.


(** ** Line kinds *)


Lemma trns_is_data (line : string) :
  startsWith line "TRNS" = true ->
  startsWith line "!TRNS" = false /\ startsWith line "!SPL" = false
  /\ startsWith line "SPL" = false.
Proof.
  destruct line as [| b s]; [discriminate |].
  intros H. apply startsWith_head in H as ->. repeat split; reflexivity.
Qed.


(** ** Declarations *)

Lemma fold_insert_nonempty (l : list (string * nat)) (m : gmap string nat) :
  l <> [] -> fold_left (fun m hi => <[fst hi := snd hi]> m) l m <> ∅.
Proof.
  intros Hl. destruct l as [| x l _] using rev_ind; [congruence |].
  rewrite fold_left_app. simpl. apply insert_non_empty.
Qed.

(** A declaration line always declares at least its own tag. *)
Lemma declareHeaders_nonempty (line : string) (m : gmap string nat) :
  noHeaders (declareHeaders m line) = false.
Proof.
  unfold noHeaders, declareHeaders.
  apply Nat.eqb_neq. rewrite map_size_empty_iff.
  apply fold_insert_nonempty.
  pose proof (split_nonempty TAB (trim line)) as H.
  destruct (split TAB (trim line)); [congruence | discriminate].
Qed.

Lemma discoverHeader_none (lines : list string) :
  Forall (fun line => startsWith (trim line) "!SPL" = false) lines ->
  discoverHeader lines = ∅.
Proof.
  induction 1 as [| line lines Hline _ IH]; simpl; [reflexivity |].
  rewrite Hline. exact IH.
Qed.

Lemma discoverHeader_first (pre post : list string) (d : string) :
  Forall (fun line => startsWith (trim line) "!SPL" = false) pre ->
  startsWith (trim d) "!SPL" = true ->
  discoverHeader (pre ++ d :: post) = declareHeaders ∅ d.
Proof.
  intros Hpre Hd. induction Hpre as [| line pre Hline _ IH]; simpl.
  - rewrite Hd. reflexivity.
  - rewrite Hline. exact IH.
Qed.

(** Either no line declares [!SPL] or there is a first one. *)
Lemma first_declaration (lines : list string) :
  Forall (fun line => startsWith (trim line) "!SPL" = false) lines
  \/ exists pre d post,
       lines = pre ++ d :: post
       /\ Forall (fun line => startsWith (trim line) "!SPL" = false) pre
       /\ startsWith (trim d) "!SPL" = true.
Proof.
  induction lines as [| line lines IH]; [left; constructor |].
  destruct (startsWith (trim line) "!SPL") eqn:E.
  - right. exists [], line, lines. repeat split; [constructor | exact E].
  - destruct IH as [IH | (pre & d & post & -> & Hpre & Hd)].
    + left. constructor; assumption.
    + right. exists (line :: pre), d, post. repeat split; [constructor; assumption | exact Hd].
Qed.

(** ** The two loops *)

Lemma glLoop_rows (headerMap : gmap string nat) (lines : list string)
      (acc : list QBOJournalEntry) :
  fold_left (glStep headerMap) lines acc =
    acc ++ map (glRow headerMap) (filter (fun l => startsWith l "SPL" = true) lines).
Proof.
  revert acc. induction lines as [| line lines IH]; intros acc; simpl.
  - rewrite app_nil_r. reflexivity.
  - rewrite IH. unfold glStep. rewrite filter_cons.
    destruct (decide (startsWith line "SPL" = true)) as [E | E].
    + rewrite E. simpl. rewrite <- app_assoc. reflexivity.
    + apply not_true_is_false in E. rewrite E. reflexivity.
Qed.

Lemma billsLoop_app (a b : list string) :
  billsLoop (a ++ b) = fold_left billsStep b (billsLoop a).
Proof. unfold billsLoop. apply fold_left_app. Qed.

Lemma billsLoop_snoc (a : list string) (line : string) :
  billsLoop (a ++ [line]) = billsStep (billsLoop a) line.
Proof. rewrite billsLoop_app. reflexivity. Qed.



(** Without a declaration nothing is read. *)
Lemma billsStep_undeclared (st : BillsState) (line : string) :
  headerMapTrns st = ∅ -> headerMapSpl st = ∅ ->
  startsWith line "!TRNS" = false -> startsWith line "!SPL" = false ->
  billsStep st line = st.
Proof.
  intros Ht Hs H1 H2. unfold billsStep. rewrite H1, H2, Ht, Hs.
  destruct (negb (startsWith line "TRNS") && negb (startsWith line "SPL"));
    [reflexivity |].
  destruct (startsWith line "TRNS"); reflexivity.
Qed.

Lemma billsLoop_undeclared (lines : list string) :
  Forall (fun line => startsWith line "!TRNS" = false /\ startsWith line "!SPL" = false)
         lines ->
  billsLoop lines = initialBills.
Proof.
  induction lines as [| line lines IH] using rev_ind; intros H; [reflexivity |].
  apply Forall_app in H as [Hl Hx]. inversion Hx as [| ? ? [H1 H2] _]; subst.
  rewrite billsLoop_snoc, (IH Hl). apply billsStep_undeclared; reflexivity || assumption.
Qed.





(** ** Missing declarations *)

(** C4, as the code has it.  In General-Ledger mode convert throws when no
    line, once trimmed, starts with [!SPL], and returns rows when one does.
    In Accounts-Payable mode convert never throws: a data line whose kind
    has no declaration yet is skipped, and a document without any
    declaration line yields the empty list. *)
Theorem missing_declaration (iifString : string) :
  (Forall (fun line => startsWith (trim line) "!SPL" = false) (splitLines iifString) ->
     convert iifString GL =
       Throw "Invalid IIF File: Could not find '!SPL' header row definition.")
  /\ (Exists (fun line => startsWith (trim line) "!SPL" = true) (splitLines iifString) ->
        exists rows, convert iifString GL = Return rows)
  /\ (exists rows, convert iifString AP = Return rows)
  /\ (Forall (fun line => startsWith line "!TRNS" = false /\ startsWith line "!SPL" = false)
             (splitLines iifString) ->
        convert iifString AP = Return []).
Proof.
  repeat split.
  - intros H. unfold convert, convertGL.
    rewrite (discoverHeader_none _ H). reflexivity.
  - intros H. unfold convert, convertGL.
    destruct (first_declaration (splitLines iifString))
      as [Hnone | (pre & d & post & E & Hpre & Hd)].
    + exfalso. apply List.Exists_exists in H as (line & Hin & Hline).
      rewrite List.Forall_forall in Hnone. rewrite (Hnone line Hin) in Hline.
      discriminate Hline.
    + rewrite E, (discoverHeader_first pre post d Hpre Hd), declareHeaders_nonempty.
      eauto.
  - unfold convert, convertBills. eauto.
  - intros H. unfold convert, convertBills.
    rewrite (billsLoop_undeclared _ H). reflexivity.
Qed.

Lemma missing_declaration_witness :
  convert Sample.undeclared GL =
    Throw "Invalid IIF File: Could not find '!SPL' header row definition."
  /\ convert Sample.undeclared AP = Return []
  /\ exists rows, convert Sample.journal GL = Return rows.
Proof.
  destruct (missing_declaration Sample.undeclared) as (Hgl & _ & _ & Hap).
  destruct (missing_declaration Sample.journal) as (_ & Hsome & _ & _).
  split; [| split].
  - apply Hgl. vm_compute. repeat constructor.
  - apply Hap. vm_compute. repeat constructor.
  - apply Hsome. vm_compute. apply Exists_cons_hd. reflexivity.
Defined.

(** C4, as stated, fails in Accounts-Payable mode: a document without any
    declaration line converts to the empty list, no error is raised. *)
Lemma undeclared_bills_return :
  Forall (fun line => startsWith line "!TRNS" = false /\ startsWith line "!SPL" = false)
         (splitLines Sample.undeclared)
  /\ convert Sample.undeclared AP = Return []
  /\ forall message, convert Sample.undeclared AP <> Throw message.
Proof.
  split; [| split].
  - vm_compute. repeat constructor.
  - reflexivity.
  - intros message H. discriminate H.
Qed.

(** ** Redeclared columns *)




(** ** Debit and credit *)

Lemma gt_lt_exclusive (x : number) : gt x zero = true -> lt x zero = false.
Proof.
  destruct x as [| [|] | q]; try discriminate; try reflexivity.
  unfold gt, lt, zero, ofZ. intros H.
  destruct (Qc_ltb q (Q2Qc (inject_Z 0))) eqn:E; [| reflexivity].
  apply Qc_ltb_lt in H, E. exfalso. exact (Qclt_not_le _ _ H (Qclt_le_weak _ _ E)).
Qed.

(** What [parseAmount] returns, by the sign of the parsed amount. *)
Lemma parseAmount_split (amountStr : string) :
  let a := parseFloat amountStr in
  (gt a zero = true -> parseAmount amountStr = (toFixed a 2, ""))
  /\ (lt a zero = true -> parseAmount amountStr = ("", toFixed (Math_abs a) 2))
  /\ (fst (parseAmount amountStr) = "" \/ snd (parseAmount amountStr) = "").
Proof.
  intros a. unfold parseAmount. fold a.
  destruct a as [| b | q] eqn:Ea; cbn [isNaN].
  - repeat split; try discriminate. left. reflexivity.
  - destruct b; repeat split; try discriminate; try reflexivity;
      (left; reflexivity) || (right; reflexivity).
  - destruct (gt (Finite q) zero) eqn:Hgt.
    + repeat split; try reflexivity.
      * rewrite (gt_lt_exclusive _ Hgt). discriminate.
      * right. reflexivity.
    + destruct (lt (Finite q) zero) eqn:Hlt; repeat split; try discriminate;
        try reflexivity; left; reflexivity.
Qed.




(** ** Lines without a readable amount *)



End ConverterFacts.

(* ===================================================================== *)
(** * Properties of the mapping refresh, of name resolution and of sync    *)
(* ===================================================================== *)

Module QBSyncFacts.
Import JS JSFacts QBSync Spec Invariants.

(** ** Objects *)





(** ** Enumeration of the keys *)

Lemma insertIndex_perm (x : N * string) (l : list (N * string)) :
  Permutation (x :: l) (insertIndex x l).
Proof.
  induction l as [| y l IH]; simpl; [reflexivity |].
  destruct (fst y <? fst x)%N; [| reflexivity].
  rewrite perm_swap. constructor. exact IH.
Qed.

(** [Object.keys] lists every own key once. *)
Lemma keys_perm {V} (o : object V) : Permutation (keys o) (map fst o).
Proof.
  unfold keys, indexKeys, nameKeys.
  induction o as [| [k v] o IH]; [reflexivity |].
  cbn [omap list_omap map fst]. simpl fst.
  destruct (arrayIndex k) as [i |]; cbn [foldr].
  - rewrite <- insertIndex_perm. cbn [map snd]. simpl. constructor. exact IH.
  - rewrite <- Permutation_middle. constructor. exact IH.
Qed.






(** ** Name resolution *)





(** ** Mapping refresh *)







(** ** Sync *)

(** C6 fails on the code: the first statements of both sync methods call
    [this.getBaseUrl()], which the class does not define, so every call is
    rejected before any row is grouped or submitted. *)
Theorem sync_rejected (remote : Type)
        (makePost : remote -> string -> payload -> remote * outcome unit)
        (realmId today : string) (this : QBSyncService) (r : remote)
        (entries : list Converter.QBOJournalEntry) :
  syncJournalEntries remote makePost realmId today this r entries =
    (r, Rejected "this.getBaseUrl is not a function")
  /\ syncBills remote makePost realmId today this r entries =
       (r, Rejected "this.getBaseUrl is not a function").
Proof. split; reflexivity. Qed.

(** The rest of the sync methods does what C6 says: had [baseUrl] been
    bound, every document key would be submitted once and counted once. *)
Section Tally.
Variable remote : Type.
Variable makePost : remote -> string -> payload -> remote * outcome unit.
Variable label url : string.
Variable build : string -> list Converter.QBOJournalEntry -> completion payload.


Variable key : Converter.QBOJournalEntry -> string.


End Tally.


End QBSyncFacts.

(* ===================================================================== *)
(** * More on the host primitives                                       *)
(* ===================================================================== *)

Module HostFacts.
Import JS Spec Invariants JSFacts.

(** ** Strings *)

Lemma append_nil_r (s : string) : String.app s EmptyString = s.
Proof. induction s as [| c r IH]; [reflexivity |]. rewrite append_cons, IH. reflexivity. Qed.

Lemma append_assoc (a b c : string) :
  String.app (String.app a b) c = String.app a (String.app b c).
Proof.
  induction a as [| x a IH]; [reflexivity |]. rewrite !append_cons, IH. reflexivity.
Qed.

Lemma append_snoc (cell : string) (c : ascii) (v : string) :
  String.app (String.app cell (String c EmptyString)) v = String.app cell (String c v).
Proof. rewrite append_assoc. reflexivity. Qed.

(** ** Decimal digits, read back *)

Lemma digitVal_digitChar (d : N) : (d < 10)%N -> digitVal (digitChar d) = Z.of_N d.
Proof.
  intros H.
  assert (E : d = N.of_nat (N.to_nat d)) by (symmetry; apply N2Nat.id).
  rewrite E. assert (Hn : N.to_nat d < 10) by lia.
  generalize dependent (N.to_nat d). clear. intros m _ Hm.
  do 10 (destruct m as [| m]; [reflexivity |]). lia.
Qed.

Lemma readDigits_digit (d : N) (r : string) (a : Z) (c : nat) :
  (d < 10)%N ->
  readDigits (String (digitChar d) r) a c = readDigits r (10 * a + Z.of_N d)%Z (S c).
Proof.
  intros H. cbn [readDigits]. rewrite (digitChar_isDigit d H), (digitVal_digitChar d H).
  reflexivity.
Qed.

Lemma readDigits_digitsGo (fuel : nat) :
  forall (n : N) (acc : string) (a : Z) (c : nat),
    (n < 10 ^ N.of_nat (S fuel))%N ->
    exists len : nat,
      (Z.of_N n < 10 ^ Z.of_nat (S len))%Z
      /\ readDigits (digitsGo (S fuel) n acc) a c
         = readDigits acc (a * 10 ^ Z.of_nat (S len) + Z.of_N n)%Z (c + S len).
Proof.
  induction fuel as [| f IH]; intros n acc a c Hn.
  - exists 0. change (10 ^ N.of_nat 1)%N with 10%N in Hn.
    cbn [digitsGo]. rewrite N.mod_small by exact Hn.
    rewrite N.div_small by exact Hn. cbn [N.eqb].
    rewrite readDigits_digit by exact Hn.
    split; [change (10 ^ Z.of_nat 1)%Z with 10%Z; lia |].
    f_equal; [change (10 ^ Z.of_nat 1)%Z with 10%Z; lia | lia].
  - remember (S f) as f1 eqn:Ef. cbn [digitsGo].
    destruct (N.eqb_spec (n / 10) 0) as [E | E].
    + exists 0. assert (Hlt : (n < 10)%N).
      { apply N.div_small_iff in E; lia. }
      rewrite N.mod_small by exact Hlt.
      rewrite readDigits_digit by exact Hlt.
      split; [change (10 ^ Z.of_nat 1)%Z with 10%Z; lia |].
      f_equal; [change (10 ^ Z.of_nat 1)%Z with 10%Z; lia | lia].
    + assert (Hdiv : (n / 10 < 10 ^ N.of_nat f1)%N).
      { apply N.Div0.div_lt_upper_bound.
        replace (N.of_nat (S f1)) with (N.succ (N.of_nat f1)) in Hn by lia.
        rewrite N.pow_succ_r' in Hn. exact Hn. }
      subst f1.
      destruct (IH (n / 10)%N (String (digitChar (n mod 10)) acc) a c Hdiv)
        as (len & Hb & Hr).
      exists (S len). rewrite Hr.
      rewrite readDigits_digit by (apply N.mod_lt; lia).
      assert (En : Z.of_N n = (10 * Z.of_N (n / 10) + Z.of_N (n mod 10))%Z).
      { rewrite <- (N2Z.inj_mul 10), <- N2Z.inj_add. f_equal.
        apply N.div_mod. lia. }
      assert (Hm : (Z.of_N (n mod 10) < 10)%Z).
      { pose proof (N.mod_lt n 10). lia. }
      replace (Z.of_nat (S (S len))) with (Z.succ (Z.of_nat (S len))) by lia.
      rewrite Z.pow_succ_r by lia.
      split; [lia |].
      f_equal; [lia | lia].
Qed.

Lemma digits_fuel (n : N) : (n < 10 ^ N.of_nat (S (N.to_nat (N.log2 n))))%N.
Proof.
  destruct (N.eq_dec n 0%N) as [-> | Hn]; [reflexivity |].
  assert (H : (n < 2 ^ N.succ (N.log2 n))%N) by (apply N.log2_spec; lia).
  replace (N.of_nat (S (N.to_nat (N.log2 n)))) with (N.succ (N.log2 n)) by lia.
  eapply N.lt_le_trans; [exact H |].
  apply N.pow_le_mono_l. lia.
Qed.

(** Reading the decimal digits of [n] gives back [n]. *)
Lemma readDigits_digits (n : N) (rest : string) (a : Z) (c : nat) :
  exists len : nat,
    (Z.of_N n < 10 ^ Z.of_nat (S len))%Z
    /\ readDigits (digitsGo (S (N.to_nat (N.log2 n))) n rest) a c
       = readDigits rest (a * 10 ^ Z.of_nat (S len) + Z.of_N n)%Z (c + S len).
Proof. apply readDigits_digitsGo, digits_fuel. Qed.

Lemma digitsGo_app (fuel : nat) (n : N) (acc rest : string) :
  String.app (digitsGo fuel n acc) rest = digitsGo fuel n (String.app acc rest).
Proof.
  revert n acc. induction fuel as [| f IH]; intros n acc; cbn [digitsGo]; [reflexivity |].
  destruct (n / 10 =? 0)%N; [reflexivity |].
  rewrite IH. reflexivity.
Qed.

Lemma digits_app (n : N) (rest : string) :
  String.app (digits n) rest = digitsGo (S (N.to_nat (N.log2 n))) n rest.
Proof. unfold digits. rewrite digitsGo_app. reflexivity. Qed.

(** ** Sorting *)

Section SortFacts.
Context {A : Type} (after : A -> A -> bool).

(** Whatever the comparator, the elements of a class of ties keep their
    relative order. *)
Lemma insertSorted_stable (p : A -> bool) (x : A) (l : list A) :
  (forall a b, p a = true -> p b = true -> after a b = false) ->
  List.filter p (insertSorted after x l) = List.filter p (x :: l).
Proof.
  intros Htie. induction l as [| y r IH]; [reflexivity |].
  cbn [insertSorted]. destruct (after x y) eqn:E; [| reflexivity].
  cbn [List.filter] in *. rewrite IH.
  destruct (p x) eqn:Px, (p y) eqn:Py; try reflexivity.
  rewrite (Htie x y Px Py) in E. discriminate E.
Qed.

Lemma sort_stable (p : A -> bool) (l : list A) :
  (forall a b, p a = true -> p b = true -> after a b = false) ->
  List.filter p (sort after l) = List.filter p l.
Proof.
  intros Htie. induction l as [| x r IH]; [reflexivity |].
  cbn [sort foldr]. fold (sort after r).
  rewrite (insertSorted_stable p x (sort after r) Htie).
  cbn [List.filter]. rewrite IH. reflexivity.
Qed.

(** With a comparator that orders the elements satisfying [P], the result
    is ordered. *)
Lemma insertSorted_sorted (P : A -> Prop) (R : A -> A -> Prop) (x : A) (l : list A) :
  (forall a b c, R a b -> R b c -> R a c) ->
  (forall a b, P a -> P b -> after a b = false -> R a b) ->
  (forall a b, P a -> P b -> after a b = true -> R b a) ->
  P x -> Forall P l ->
  StronglySorted R l -> StronglySorted R (insertSorted after x l).
Proof.
  intros Htrans Hle Hgt Px. induction l as [| y r IH]; intros Hall Hs.
  - repeat constructor.
  - cbn [insertSorted]. inversion Hall as [| ? ? Py Hr]; subst.
    inversion Hs as [| ? ? Hsr Hyr]; subst.
    destruct (after x y) eqn:E.
    + constructor; [apply IH; assumption |].
      apply (Permutation_Forall (insertSorted_perm after x r)).
      constructor; [apply Hgt; assumption | exact Hyr].
    + constructor; [exact Hs |].
      assert (Hxy : R x y) by (apply Hle; assumption).
      constructor; [exact Hxy |].
      eapply Forall_impl; [exact Hyr |]. intros a Ha. exact (Htrans _ _ _ Hxy Ha).
Qed.

Lemma sort_sorted (P : A -> Prop) (R : A -> A -> Prop) (l : list A) :
  (forall a b c, R a b -> R b c -> R a c) ->
  (forall a b, P a -> P b -> after a b = false -> R a b) ->
  (forall a b, P a -> P b -> after a b = true -> R b a) ->
  Forall P l -> StronglySorted R (sort after l).
Proof.
  intros Htrans Hle Hgt. induction l as [| x r IH]; intros Hall.
  - constructor.
  - inversion Hall as [| ? ? Px Hr]; subst. cbn [sort foldr]. fold (sort after r).
    apply (insertSorted_sorted P); try assumption.
    + apply (Permutation_Forall (sort_perm after r)). exact Hr.
    + apply IH, Hr.
Qed.
End SortFacts.

(** ** The order of strings *)

Lemma ltb_leb (a b : string) : String.ltb b a = false <-> String.leb a b = true.
Proof.
  unfold String.ltb, String.leb. rewrite (String.compare_antisym a b).
  destruct (String.compare b a); simpl; split; congruence.
Qed.

Lemma ltb_irrefl (a : string) : String.ltb a a = false.
Proof.
  unfold String.ltb. pose proof (String.compare_antisym a a) as H.
  destruct (String.compare a a); try reflexivity; discriminate H.
Qed.

Lemma leb_trans (a b c : string) :
  String.leb a b = true -> String.leb b c = true -> String.leb a c = true.
Proof.
  intros H1 H2.
  assert (T : String.le a c).
  { transitivity b; unfold String.le; [rewrite H1 | rewrite H2]; exact I. }
  unfold String.le in T. destruct (String.leb a c); [reflexivity | destruct T].
Qed.

Lemma ltb_false_eq (a b : string) :
  String.ltb a b = false -> String.ltb b a = false -> a = b.
Proof.
  intros H1 H2. apply ltb_leb in H1, H2. apply String.leb_antisym; assumption.
Qed.

Lemma ltb_leb_weak (a b : string) : String.ltb a b = true -> String.leb a b = true.
Proof.
  unfold String.ltb, String.leb. destruct (String.compare a b); congruence.
Qed.

Lemma ltb_asym (a b : string) : String.ltb a b = true -> String.ltb b a = false.
Proof.
  unfold String.ltb. rewrite (String.compare_antisym a b).
  destruct (String.compare b a); simpl; congruence.
Qed.

Lemma ltb_leb_trans (a b c : string) :
  String.ltb a b = true -> String.leb b c = true -> String.ltb a c = true.
Proof.
  intros H1 H2. destruct (String.ltb a c) eqn:E; [reflexivity |].
  apply ltb_leb in E.
  assert (Hba : String.leb b a = true) by (eapply leb_trans; eassumption).
  assert (a = b) by (apply String.leb_antisym; [apply ltb_leb_weak, H1 | exact Hba]).
  subst b. rewrite ltb_irrefl in H1. discriminate H1.
Qed.

Lemma leb_ltb_trans (a b c : string) :
  String.leb a b = true -> String.ltb b c = true -> String.ltb a c = true.
Proof.
  intros H1 H2. destruct (String.ltb a c) eqn:E; [reflexivity |].
  apply ltb_leb in E.
  assert (Hcb : String.leb c b = true) by (eapply leb_trans; eassumption).
  assert (b = c) by (apply String.leb_antisym; [apply ltb_leb_weak, H2 | exact Hcb]).
  subst c. rewrite ltb_irrefl in H2. discriminate H2.
Qed.

(** ** The order of numbers *)

Lemma Qc_ltb_irrefl (a : Qc) : Qc_ltb a a = false.
Proof. unfold Qc_ltb. apply Z.ltb_irrefl. Qed.

(** [y - x > 0] is [x < y], for the non-finite values as well. *)
Lemma gt_sub_lt (x y : number) : gt (sub y x) zero = lt x y.
Proof.
  destruct x as [| [|] | a], y as [| [|] | b]; try reflexivity.
  unfold gt, sub, neg, add, zero, ofZ, lt.
  apply Bool.eq_iff_eq_true. rewrite !Qc_ltb_lt. symmetry. apply Qclt_minus_iff.
Qed.

Lemma lt_irrefl (x : number) : lt x x = false.
Proof. destruct x as [| [|] | a]; try reflexivity. apply Qc_ltb_irrefl. Qed.

Lemma ge_not_lt (x y : number) :
  isNaN x = false -> isNaN y = false -> ge x y = negb (lt x y).
Proof. destruct x, y; try discriminate; reflexivity. Qed.

Lemma lt_asym (x y : number) : lt x y = true -> lt y x = false.
Proof.
  destruct x as [| [|] | a], y as [| [|] | b]; try reflexivity; try discriminate.
  cbn [lt]. intros H. apply Qc_ltb_lt in H.
  destruct (Qc_ltb b a) eqn:E; [| reflexivity].
  apply Qc_ltb_lt in E. destruct (Qclt_not_le _ _ H). apply Qclt_le_weak, E.
Qed.

Lemma ge_trans (x y z : number) : ge x y = true -> ge y z = true -> ge x z = true.
Proof.
  destruct x as [| [|] | a], y as [| [|] | b], z as [| [|] | c];
    try reflexivity; try discriminate.
  cbn [ge lt]. rewrite !Bool.negb_true_iff. intros H1 H2.
  destruct (Qc_ltb a c) eqn:E; [| reflexivity].
  apply Qc_ltb_lt in E.
  assert (Hba : (b <= a)%Qc).
  { apply Qcnot_lt_le. intros H. apply Qc_ltb_lt in H. congruence. }
  assert (Hcb : (c <= b)%Qc).
  { apply Qcnot_lt_le. intros H. apply Qc_ltb_lt in H. congruence. }
  destruct (Qclt_not_le _ _ E). eapply Qcle_trans; eassumption.
Qed.

(** ** Two-decimal renderings, read back *)

(** ** What a decimal digit is not *)



(** ** Reading what [toFixed] wrote *)








End HostFacts.

(* ===================================================================== *)
(** * More on the ledger ingestion and the day grouper                  *)
(* ===================================================================== *)

Module LedgerFacts.
Import JS Spec Invariants LedgerInvariants JSFacts HostFacts CsvProcessor CsvProcessorFacts.

(** ** Identifiers *)

Lemma split_two (sep : ascii) (a b : string) :
  exists h1 h2 t, split sep (String.app a (String sep b)) = h1 :: h2 :: t.
Proof.
  induction a as [| c r IH].
  - rewrite append_nil. cbn [split]. rewrite Ascii.eqb_refl.
    destruct (split sep b) as [| h t] eqn:E; [destruct (split_nonempty _ _ E) |].
    eauto.
  - rewrite append_cons. cbn [split]. destruct IH as (h1 & h2 & t & ->).
    destruct (Ascii.eqb c sep); eauto.
Qed.

Lemma afterLast_app (sep : ascii) (a b : string) :
  afterLast sep (String.app a (String sep b)) = afterLast sep b.
Proof.
  unfold afterLast. induction a as [| c r IH].
  - rewrite append_nil. cbn [split]. rewrite Ascii.eqb_refl.
    destruct (split sep b) as [| h t] eqn:E; [destruct (split_nonempty _ _ E) |].
    reflexivity.
  - rewrite append_cons. cbn [split].
    destruct (split_two sep r b) as (h1 & h2 & t & E). rewrite E in *.
    destruct (Ascii.eqb c sep); exact IH.
Qed.

Lemma allDigits_no_dash (s : string) :
  allDigits s = true ->
  forallb (fun c => negb (Ascii.eqb c "-")) (list_ascii_of_string s) = true.
Proof.
  unfold allDigits. induction s as [| c r IH]; simpl; [reflexivity |].
  intros H. apply andb_prop in H as [Hc Hr]. rewrite (IH Hr), andb_true_r.
  destruct (Ascii.eqb_spec c "-"); [subst c; discriminate Hc | reflexivity].
Qed.

(** The serial number of an identifier is the counter it was built from. *)
Lemma serial_ident (orderId : string) (n : N) :
  serial (String.app orderId (String.app "-" (digits n))) = Z.of_N n.
Proof.
  unfold serial. change (String.app "-" (digits n)) with (String "-"%char (digits n)).
  rewrite afterLast_app. unfold afterLast.
  rewrite split_none by (apply allDigits_no_dash, digits_allDigits).
  cbn [List.last]. rewrite <- (append_nil_r (digits n)), digits_app.
  destruct (readDigits_digits n EmptyString 0 0) as (len & _ & ->).
  cbn [readDigits]. lia.
Qed.

Section Ingestion.
Variable P : ShopifyTransaction -> Prop.
Variable rowStep : File -> ledger -> object string -> ledger.
Hypothesis Hkeeps : keeps P rowStep.

Lemma rowStep_ok (names : list string) (file : File) (st : ledger) (row : object string) :
  In (fileName file) names -> ledgerOk P names st -> ledgerOk P names (rowStep file st row).
Proof.
  intros Hin (Hn & Hid & Hall).
  destruct (Hkeeps file st row) as [-> | (t & -> & Hident & Hsrc & Ht)].
  - repeat split; assumption.
  - unfold ledgerOk. cbn [fst snd]. split; [| split].
    + rewrite length_app. cbn [length]. lia.
    + intros i u Hi. apply lookup_app_Some in Hi as [Hi | [Hge Hi]].
      * apply Hid, Hi.
      * apply list_lookup_singleton_Some in Hi as [Hi <-].
        rewrite Hident, Hn. do 3 f_equal. lia.
    + apply Forall_app. split; [exact Hall |].
      constructor; [| constructor]. split; [exact Ht | rewrite Hsrc; exact Hin].
Qed.

Lemma rows_ok (names : list string) (file : File) (rows : list (object string)) (st : ledger) :
  In (fileName file) names -> ledgerOk P names st ->
  ledgerOk P names (fold_left (rowStep file) rows st).
Proof.
  intros Hin. revert st. induction rows as [| row rows IH]; intros st Hst; [exact Hst |].
  cbn [fold_left]. apply IH, rowStep_ok; assumption.
Qed.

Lemma parseFiles_ok (names : list string) (files : list File) (st st' : ledger) :
  incl (map fileName files) names -> ledgerOk P names st ->
  parseFiles rowStep files st = Resolved st' -> ledgerOk P names st'.
Proof.
  revert st. induction files as [| file files IH]; intros st Hincl Hst Hrun.
  - cbn in Hrun. injection Hrun as <-. exact Hst.
  - cbn [parseFiles] in Hrun. destruct (papaParse file) as [rows | e]; [| discriminate Hrun].
    apply (IH _ (fun x Hx => Hincl x (or_intror Hx)) (rows_ok names file rows st
             (Hincl _ (or_introl eq_refl)) Hst) Hrun).
Qed.

Lemma ledger_start (names : list string) : ledgerOk P names ([], 0%N).
Proof.
  split; [reflexivity |]. split; [| constructor].
  intros i t Hi. cbn [fst] in Hi. rewrite lookup_nil in Hi. discriminate Hi.
Qed.

Lemma ledgerOk_NoDup (names : list string) (st : ledger) :
  ledgerOk P names st -> NoDup (map ident (fst st)).
Proof.
  intros (_ & Hid & _). apply NoDup_alt. intros i j x Hi Hj.
  rewrite list_lookup_fmap in Hi, Hj.
  destruct (fst st !! i) as [t |] eqn:Ei; [| discriminate Hi].
  destruct (fst st !! j) as [u |] eqn:Ej; [| discriminate Hj].
  cbn in Hi, Hj. injection Hi as Hi. injection Hj as Hj.
  pose proof (Hid i t Ei) as Ht. pose proof (Hid j u Ej) as Hu.
  assert (E : serial (ident t) = serial (ident u)) by congruence.
  rewrite Ht, Hu, !serial_ident in E. lia.
Qed.

Lemma parseWith_ok newDate getTime now (files : list File) (s : ReportSummary) :
  parseWith newDate getTime now rowStep files = Resolved s ->
  exists st, ledgerOk P (map fileName files) st
             /\ Permutation (fst st) (allTransactions s)
             /\ transactionCount s = length (fst st).
Proof.
  unfold parseWith. destruct (parseFiles rowStep files ([], 0%N)) as [[l n] | e] eqn:E;
    [| discriminate].
  intros H. injection H as <-. exists (l, n). split; [| split].
  - eapply parseFiles_ok; [| apply ledger_start | exact E]. intros x Hx; exact Hx.
  - apply sort_perm.
  - cbn. symmetry. apply Permutation_length, sort_perm.
Qed.
End Ingestion.

Lemma shopifyRow_keeps now toISOString : keeps shopifyKept (shopifyRow now toISOString).
Proof.
  intros file [txs n] row. unfold shopifyRow. cbv zeta.
  match goal with
  | |- context [negb (isNaN ?a)] => destruct (isNaN a) eqn:E
  end; cbn [negb].
  - left. reflexivity.
  - right. eexists. split; [reflexivity |]. cbn [ident orderNumber sourceFile fst snd].
    split; [reflexivity |]. split; [reflexivity |]. exact E.
Qed.

Lemma paypalRow_keeps : keeps paypalKept paypalRow.
Proof.
  intros file [txs n] row. unfold paypalRow. cbv zeta.
  destruct (negb (truthy (field row "Date")) || negb (truthy (field row "Time")));
    [left; reflexivity |].
  destruct (String.eqb_spec (field row "Type" ||: "Unknown") "General Withdrawal") as [| H1];
    [left; reflexivity |].
  destruct (String.eqb_spec (field row "Type" ||: "Unknown") "User Initiated Withdrawal")
    as [| H2]; [left; reflexivity |].
  cbn [orb].
  destruct (strictEq (cleanFloat (field row "Gross")) zero
            && strictEq (cleanFloat (field row "Fee")) zero
            && strictEq (cleanFloat (field row "Net")) zero) eqn:E;
    [left; reflexivity |].
  right. eexists. split; [reflexivity |]. cbn [ident orderNumber sourceFile fst snd].
  split; [reflexivity |]. split; [reflexivity |].
  unfold paypalKept. cbn [cardBrand type_ amount fee net]. auto.
Qed.

Lemma ids_of_ledger (P : ShopifyTransaction -> Prop) (names : list string) (st : ledger)
      (l : list ShopifyTransaction) :
  ledgerOk P names st -> Permutation (fst st) l ->
  NoDup (map ident l)
  /\ Forall (fun t => exists k, (k < N.of_nat (length l))%N
               /\ ident t = String.app (orderNumber t) (String.app "-" (digits k))) l
  /\ (forall k, (k < N.of_nat (length l))%N ->
        exists t, In t l
                  /\ ident t = String.app (orderNumber t) (String.app "-" (digits k))).
Proof.
  intros Hok Hperm. pose proof Hok as (_ & Hid & _).
  rewrite <- (Permutation_length Hperm). split; [| split].
  - rewrite <- (Permutation_map ident Hperm).
    apply (ledgerOk_NoDup P names), Hok.
  - apply (Permutation_Forall Hperm). apply Forall_lookup. intros i t Hi.
    exists (N.of_nat i). split; [| apply Hid, Hi].
    apply lookup_lt_Some in Hi. lia.
  - intros k Hk. destruct (lookup_lt_is_Some_2 (fst st) (N.to_nat k)) as [t Ht]; [lia |].
    exists t. split.
    + apply (Permutation_in _ Hperm). apply list_elem_of_In.
      eapply list_elem_of_lookup_2, Ht.
    + rewrite (Hid _ _ Ht), N2Nat.id. reflexivity.
Qed.

(** Both ingestions number the rows they keep 0, 1, 2, ... in the order of
    acceptance, across all files of the batch: the identifier of a
    transaction is its order number, a dash and its serial number, every
    serial number below the count is used, and no two transactions of a
    summary share an identifier. *)
Theorem transaction_ids_unique newDate getTime now toISOString
        (files : list File) (s : ReportSummary) :
  parseShopifyCSV newDate getTime now toISOString files = Resolved s
  \/ parsePaypalCSV newDate getTime now files = Resolved s ->
  NoDup (map ident (allTransactions s))
  /\ Forall (fun t => exists k, (k < N.of_nat (transactionCount s))%N
               /\ ident t = String.app (orderNumber t) (String.app "-" (digits k)))
            (allTransactions s)
  /\ (forall k, (k < N.of_nat (transactionCount s))%N ->
        exists t, In t (allTransactions s)
                  /\ ident t = String.app (orderNumber t) (String.app "-" (digits k))).
Proof.
  intros [H | H].
  - destruct (parseWith_ok _ _ (shopifyRow_keeps now toISOString) _ _ _ _ _ H)
      as (st & Hok & Hperm & Hcount).
    rewrite Hcount, (Permutation_length Hperm).
    exact (ids_of_ledger _ _ _ _ Hok Hperm).
  - destruct (parseWith_ok _ _ paypalRow_keeps _ _ _ _ _ H) as (st & Hok & Hperm & Hcount).
    rewrite Hcount, (Permutation_length Hperm).
    exact (ids_of_ledger _ _ _ _ Hok Hperm).
Qed.

Lemma transaction_ids_unique_witness :
  exists s,
    parseShopifyCSV Sample.newDate Sample.getTime Sample.now Sample.toISOString
                    [Sample.morning; Sample.evening] = Resolved s
    /\ map ident (allTransactions s) = ["Line-1-1"; "Line-0-0"]
    /\ NoDup (map ident (allTransactions s)).
Proof.
  eexists. split; [vm_compute; reflexivity |]. split; [vm_compute; reflexivity |].
  apply (transaction_ids_unique Sample.newDate Sample.getTime Sample.now Sample.toISOString
           [Sample.morning; Sample.evening]).
  left. vm_compute. reflexivity.
Defined.

Lemma kept_of_ledger (P : ShopifyTransaction -> Prop) (names : list string) (st : ledger)
      (l : list ShopifyTransaction) :
  ledgerOk P names st -> Permutation (fst st) l ->
  Forall (fun t => P t /\ In (sourceFile t) names) l.
Proof.
  intros (_ & _ & Hall) Hperm. apply (Permutation_Forall Hperm), Hall.
Qed.

(** What the summaries never list.  A Shopify summary holds no transaction
    whose amount did not parse; a PayPal summary holds no withdrawal and no
    row whose gross, fee and net are all zero, and every transaction of it
    has the card brand PayPal.  Every transaction names one of the files of
    the batch as its source. *)
Theorem kept_rows newDate getTime now toISOString (files : list File) (s : ReportSummary) :
  (parseShopifyCSV newDate getTime now toISOString files = Resolved s ->
     Forall (fun t => isNaN (amount t) = false
                      /\ In (sourceFile t) (map fileName files)) (allTransactions s))
  /\ (parsePaypalCSV newDate getTime now files = Resolved s ->
        Forall (fun t => (cardBrand t = "PayPal"
                          /\ type_ t <> "General Withdrawal"
                          /\ type_ t <> "User Initiated Withdrawal"
                          /\ strictEq (amount t) zero && strictEq (fee t) zero
                             && strictEq (net t) zero = false)
                         /\ In (sourceFile t) (map fileName files)) (allTransactions s)).
Proof.
  split; intros H.
  - destruct (parseWith_ok _ _ (shopifyRow_keeps now toISOString) _ _ _ _ _ H)
      as (st & Hok & Hperm & _).
    exact (kept_of_ledger _ _ _ _ Hok Hperm).
  - destruct (parseWith_ok _ _ paypalRow_keeps _ _ _ _ _ H) as (st & Hok & Hperm & _).
    exact (kept_of_ledger _ _ _ _ Hok Hperm).
Qed.

Lemma kept_rows_witness :
  exists s,
    parsePaypalCSV Sample.newDate Sample.getTime Sample.now [Sample.paypalSales] = Resolved s
    /\ transactionCount s = 1
    /\ Forall (fun t => cardBrand t = "PayPal") (allTransactions s).
Proof.
  assert (E : exists s, parsePaypalCSV Sample.newDate Sample.getTime Sample.now [Sample.paypalSales]
                        = Resolved s) by (vm_compute; eexists; reflexivity).
  destruct E as [s E]. exists s. split; [exact E |]. split.
  - revert E. vm_compute. intros E. injection E as <-. reflexivity.
  - pose proof (proj2 (kept_rows Sample.newDate Sample.getTime Sample.now
                         Sample.toISOString [Sample.paypalSales] s) E) as H.
    eapply Forall_impl; [exact H |]. intros t Ht. apply Ht.
Defined.

(** A transaction whose date the host cannot read is not dropped: it lies
    in a group of the report, and every group that holds it is labelled
    "Invalid Date". *)
Theorem invalid_dates_grouped (newDate : string -> Date)
        (ts : list ShopifyTransaction) (t : ShopifyTransaction) :
  In t ts -> newDate (dateTime t) = InvalidDate ->
  (exists g, In g (groupTransactionsByDate newDate ts) /\ In t (transactions g))
  /\ (forall g, In g (groupTransactionsByDate newDate ts) -> In t (transactions g) ->
        CsvProcessor.date g = "Invalid Date").
Proof.
  intros Ht Hd. split.
  - rewrite <- (groupTransactionsByDate_flat newDate ts) in Ht.
    apply in_concat in Ht as (l & Hl & Htl).
    apply in_map_iff in Hl as (g & <- & Hg). exists g. split; assumption.
  - intros g Hg Htg.
    pose proof (groupTransactionsByDate_ok newDate ts) as Hok.
    rewrite List.Forall_forall in Hok. destruct (Hok g Hg) as (_ & _ & _ & _ & Hdate).
    rewrite List.Forall_forall in Hdate. rewrite <- (Hdate t Htg).
    unfold getReportingDateString. rewrite Hd. reflexivity.
Qed.

Lemma invalid_dates_grouped_witness :
  exists g, In g (groupTransactionsByDate Sample.newDate [Sample.at1559; Sample.undated])
            /\ In Sample.undated (transactions g) /\ CsvProcessor.date g = "Invalid Date".
Proof.
  destruct (invalid_dates_grouped Sample.newDate [Sample.at1559; Sample.undated] Sample.undated)
    as [(g & Hg & Ht) Hdate].
  - right. left. reflexivity.
  - reflexivity.
  - exists g. split; [exact Hg | split; [exact Ht | exact (Hdate g Hg Ht)]].
Defined.

(** ** The order of the summary *)

Section Sorting.
Variable newDate : string -> Date.
Variable getTime : Date -> number.
Variable now : Date.

Lemma olderFirst_lt (a b : ShopifyTransaction) :
  olderFirst newDate getTime a b
  = lt (getTime (newDate (dateTime a))) (getTime (newDate (dateTime b))).
Proof. apply gt_sub_lt. Qed.

End Sorting.

(** The summary lists the transactions newest first: when every date is
    valid, no transaction is followed, at any distance, by a later one. *)
Theorem report_newest_first newDate getTime now (l : list ShopifyTransaction) :
  Forall (fun t => isNaN (getTime (newDate (dateTime t))) = false) l ->
  StronglySorted
    (fun a b => ge (getTime (newDate (dateTime a))) (getTime (newDate (dateTime b))) = true)
    (allTransactions (report newDate getTime now l)).
Proof.
  intros Hall. unfold report. cbn [allTransactions].
  apply (sort_sorted _ (fun t => isNaN (getTime (newDate (dateTime t))) = false)).
  - intros a b c. apply ge_trans.
  - intros a b Ha Hb H. rewrite olderFirst_lt in H.
    rewrite (ge_not_lt _ _ Ha Hb), H. reflexivity.
  - intros a b Ha Hb H. rewrite olderFirst_lt in H.
    rewrite (ge_not_lt _ _ Hb Ha), (lt_asym _ _ H). reflexivity.
  - exact Hall.
Qed.

Lemma report_newest_first_witness :
  StronglySorted
    (fun a b => ge (Sample.getTime (Sample.newDate (dateTime a)))
                   (Sample.getTime (Sample.newDate (dateTime b))) = true)
    (allTransactions (report Sample.newDate Sample.getTime Sample.now
                             [Sample.at1559; Sample.at1600])).
Proof.
  apply report_newest_first.
  constructor; [reflexivity | constructor; [reflexivity | constructor]].
Defined.


(** ** Runs of one reporting date *)

Lemma neighboursDiffer_snoc (l : list string) (a b : string) :
  neighboursDiffer (l ++ [a]) -> a <> b -> neighboursDiffer ((l ++ [a]) ++ [b]).
Proof.
  intros Hl Hab i x y Hx Hy.
  destruct (decide (S i < length (l ++ [a]))) as [Hlt | Hge].
  - rewrite lookup_app_l in Hx by lia. rewrite lookup_app_l in Hy by exact Hlt.
    exact (Hl i x y Hx Hy).
  - pose proof (lookup_lt_Some _ _ _ Hy) as Hb. rewrite length_app in Hb. cbn in Hb.
    assert (Ei : S i = length (l ++ [a])) by lia.
    rewrite Ei, list_lookup_middle in Hy by reflexivity. injection Hy as <-.
    rewrite lookup_app_l in Hx by lia.
    rewrite length_app in Ei. cbn in Ei.
    assert (Ei' : i = length l) by lia.
    rewrite Ei', list_lookup_middle in Hx by reflexivity. injection Hx as <-.
    exact Hab.
Qed.

Section GroupRuns.
Variable newDate : string -> Date.

Lemma groupStep_runs st t : runsOk st -> runsOk (groupStep newDate st t).
Proof.
  destruct st as [gs [g |]]; intros (Hne & Hnb & Hopen); unfold runsOk, allGroups in *;
    cbn [fst snd groupStep] in *.
  - destruct (String.eqb_spec (CsvProcessor.date g)
                              (getReportingDateString newDate (dateTime t))) as [E | NE];
      cbn [negb fst snd].
    + split; [| split; [| discriminate]].
      * apply Forall_app in Hne as [Hgs _]. apply Forall_app. split; [exact Hgs |].
        constructor; [| constructor]. cbn. intros H. apply app_eq_nil in H as [_ H].
        discriminate H.
      * rewrite map_app in *. exact Hnb.
    + split; [| split; [| discriminate]].
      * apply Forall_app. split; [exact Hne |].
        constructor; [| constructor]. cbn. discriminate.
      * rewrite !map_app. rewrite map_app in Hnb.
        cbn [map appendTransaction newGroup CsvProcessor.date] in *.
        apply neighboursDiffer_snoc; [exact Hnb | exact NE].
  - rewrite (Hopen eq_refl). cbn. split; [| split; [| discriminate]].
    + constructor; [discriminate | constructor].
    + intros i a b Ha Hb. destruct i; discriminate Hb.
Qed.

Lemma groupLoop_runs (ts : list ShopifyTransaction) : runsOk (groupLoop newDate ts).
Proof.
  unfold groupLoop.
  assert (H : forall st, runsOk st -> runsOk (fold_left (groupStep newDate) ts st)).
  { induction ts as [| t ts IH]; intros st Hst; cbn [fold_left]; [exact Hst |].
    apply IH, groupStep_runs, Hst. }
  apply H. split; [constructor | split; [| reflexivity]].
  intros i a b Ha. destruct i; discriminate Ha.
Qed.

Lemma groupTransactionsByDate_all (ts : list ShopifyTransaction) :
  groupTransactionsByDate newDate ts = allGroups (groupLoop newDate ts).
Proof.
  unfold groupTransactionsByDate, allGroups. destruct ts as [| t ts]; [reflexivity |].
  destruct (groupLoop newDate (t :: ts)) as [gs [g |]]; cbn [fst snd];
    [reflexivity | rewrite app_nil_r; reflexivity].
Qed.
End GroupRuns.

(** The groups are runs: no group is empty, and two groups that follow one
    another never carry the same reporting date (a new group is opened only
    when the date changes). *)
Theorem groups_are_runs (newDate : string -> Date) (ts : list ShopifyTransaction) :
  let groups := groupTransactionsByDate newDate ts in
  Forall (fun g => transactions g <> [] /\ (0 < count g)%nat) groups
  /\ (forall i g h, groups !! i = Some g -> groups !! S i = Some h ->
        CsvProcessor.date g <> CsvProcessor.date h)
  /\ (length groups <= length ts)%nat.
Proof.
  cbn zeta. pose proof (groupLoop_runs newDate ts) as (Hne & Hnb & _).
  rewrite <- groupTransactionsByDate_all in Hne, Hnb.
  assert (Hpos : Forall (fun g => transactions g <> [] /\ (0 < count g)%nat)
                        (groupTransactionsByDate newDate ts)).
  { pose proof (groupTransactionsByDate_ok newDate ts) as Hok.
    rewrite List.Forall_forall in *. intros g Hg. split; [apply Hne, Hg |].
    destruct (Hok g Hg) as (_ & _ & _ & Hc & _). rewrite Hc.
    specialize (Hne g Hg). destruct (transactions g); [congruence | cbn; lia]. }
  split; [exact Hpos | split].
  - intros i g h Hg Hh. apply (Hnb i).
    + rewrite list_lookup_fmap, Hg. reflexivity.
    + rewrite list_lookup_fmap, Hh. reflexivity.
  - rewrite <- (groupTransactionsByDate_flat newDate ts) at 2.
    clear Hne Hnb. induction Hpos as [| g gs [Hg _] _ IH]; [cbn; lia |].
    cbn [map concat length]. rewrite length_app.
    destruct (transactions g) as [| u us]; [congruence |]. cbn [length]. lia.
Qed.

(** ** Whole cents *)












End LedgerFacts.

(* ===================================================================== *)
(** * More on the converter and its export                              *)
(* ===================================================================== *)

Module ExportFacts.
Import JS Spec Invariants ExportInvariants JSFacts HostFacts Converter ConverterFacts.

(** ** Writing and reading comma-separated text *)

Lemma needsQuotes_cons (c : ascii) (v : string) :
  needsQuotes (String c v)
  = (Ascii.eqb c QUOTE || Ascii.eqb c "," || Ascii.eqb c LF) || needsQuotes v.
Proof. reflexivity. Qed.

Lemma escapeQuotes_plain (v : string) : needsQuotes v = false -> escapeQuotes v = v.
Proof.
  induction v as [| c v IH]; [reflexivity |].
  rewrite needsQuotes_cons. intros H. apply orb_false_elim in H as [Hc Hv].
  cbn [escapeQuotes]. destruct (Ascii.eqb c QUOTE); [discriminate Hc |].
  rewrite (IH Hv). reflexivity.
Qed.

Lemma needsQuotes_escape (v : string) : needsQuotes (escapeQuotes v) = needsQuotes v.
Proof.
  induction v as [| c v IH]; [reflexivity |]. cbn [escapeQuotes].
  destruct (Ascii.eqb c QUOTE) eqn:E.
  - rewrite !needsQuotes_cons, E. reflexivity.
  - rewrite !needsQuotes_cons, IH. reflexivity.
Qed.

(** Reading a cell that was written bare. *)
Lemma read_bare (v rest cell : string) (row : list string) :
  needsQuotes v = false ->
  csvRead (String.app v rest) Plain cell row = csvRead rest Plain (String.app cell v) row.
Proof.
  revert cell. induction v as [| c v IH]; intros cell H.
  - rewrite append_nil, append_nil_r. reflexivity.
  - rewrite needsQuotes_cons in H. apply orb_false_elim in H as [Hc Hv].
    apply orb_false_elim in Hc as [Hc Hlf]. apply orb_false_elim in Hc as [Hq Hcomma].
    rewrite append_cons. cbn [csvRead]. rewrite Hq, Hcomma, Hlf. cbn [andb].
    rewrite (IH _ Hv), append_snoc. reflexivity.
Qed.

(** Reading the inside of a quoted cell up to its closing quote. *)
Lemma read_quoted (v rest cell : string) (row : list string) :
  csvRead (String.app (escapeQuotes v) (String QUOTE rest)) Quoted cell row
  = csvRead rest QuoteSeen (String.app cell v) row.
Proof.
  revert cell. induction v as [| c v IH]; intros cell.
  - cbn [escapeQuotes]. rewrite append_nil, append_nil_r. cbn [csvRead].
    rewrite Ascii.eqb_refl. reflexivity.
  - cbn [escapeQuotes]. destruct (Ascii.eqb c QUOTE) eqn:E.
    + rewrite !append_cons. cbn [csvRead]. rewrite !Ascii.eqb_refl.
      apply Ascii.eqb_eq in E. subst c. rewrite IH, append_snoc. reflexivity.
    + rewrite append_cons. cbn [csvRead]. rewrite E, IH, append_snoc. reflexivity.
Qed.


Lemma read_cell (v rest : string) (row : list string) :
  boundary rest ->
  csvRead (String.app (csvCell v) rest) Plain EmptyString row = csvRead rest Plain v row.
Proof.
  intros Hb. unfold csvCell. rewrite needsQuotes_escape.
  destruct (needsQuotes v) eqn:E.
  - unfold template, dquote. cbn [fold_right]. fold QUOTE.
    rewrite append_nil_r, !append_cons, append_nil, append_assoc, append_cons, append_nil.
    cbn [csvRead].
    replace (Ascii.eqb QUOTE ",") with false by reflexivity.
    replace (Ascii.eqb QUOTE LF) with false by reflexivity.
    rewrite Ascii.eqb_refl. cbn [truthy negb andb].
    rewrite read_quoted, append_nil.
    destruct Hb as [-> | [r [-> | ->]]]; reflexivity.
  - rewrite (escapeQuotes_plain v E), (read_bare v rest EmptyString row E), append_nil.
    reflexivity.
Qed.

Lemma join_cons (sep x y : string) (r : list string) :
  join sep (x :: y :: r) = String.app x (String.app sep (join sep (y :: r))).
Proof. reflexivity. Qed.

(** Reading a record up to what follows it. *)
Lemma read_record (vs : list string) (v rest : string) (row : list string) :
  rest = EmptyString \/ (exists r, rest = String LF r) ->
  csvRead (String.app (csvRecord (v :: vs)) rest) Plain EmptyString row
  = csvRead rest Plain (List.last (v :: vs) EmptyString) (row ++ removelast (v :: vs)).
Proof.
  intros Hrest. revert v row. induction vs as [| w ws IH]; intros v row.
  - unfold csvRecord. cbn [map join List.last removelast]. rewrite List.app_nil_r.
    apply read_cell. destruct Hrest as [-> | [r ->]]; [left | right; exists r; right];
      reflexivity.
  - change (csvRecord (v :: w :: ws))
      with (String.app (csvCell v) (String.app "," (csvRecord (w :: ws)))).
    rewrite !append_assoc, append_cons, append_nil.
    rewrite read_cell by (right; eexists; left; reflexivity).
    cbn [csvRead]. rewrite Ascii.eqb_refl.
    rewrite (IH w (row ++ [v])).
    change (List.last (v :: w :: ws) EmptyString) with (List.last (w :: ws) EmptyString).
    change (removelast (v :: w :: ws)) with (v :: removelast (w :: ws)).
    rewrite <- List.app_assoc. reflexivity.
Qed.

Lemma read_last_record (vs : list string) (v : string) :
  csvRead (csvRecord (v :: vs)) Plain EmptyString [] = [v :: vs].
Proof.
  rewrite <- (append_nil_r (csvRecord (v :: vs))).
  rewrite read_record by (left; reflexivity). cbn [csvRead app].
  rewrite <- app_removelast_last by discriminate. reflexivity.
Qed.

Lemma read_line (vs : list string) (v rest : string) :
  csvRead (String.app (csvRecord (v :: vs)) (String LF rest)) Plain EmptyString []
  = (v :: vs) :: csvRead rest Plain EmptyString [].
Proof.
  rewrite read_record by (right; eexists; reflexivity). cbn [csvRead app].
  replace (Ascii.eqb LF ",") with false by reflexivity. rewrite Ascii.eqb_refl.
  rewrite <- app_removelast_last by discriminate. reflexivity.
Qed.

(** Reading back a text of records, none of them without a cell. *)
Lemma read_records (records : list (list string)) (first : list string) :
  Forall (fun cells => cells <> []) (first :: records) ->
  readCsv (join (String LF EmptyString) (map csvRecord (first :: records)))
  = first :: records.
Proof.
  unfold readCsv. revert first. induction records as [| next records IH]; intros first Hne.
  - inversion Hne as [| ? ? Hfirst _]; subst. cbn [map join].
    destruct first as [| v vs]; [congruence |]. apply read_last_record.
  - inversion Hne as [| ? ? Hfirst Hrest]; subst. cbn [map]. rewrite join_cons.
    destruct first as [| v vs]; [congruence |].
    rewrite append_cons, append_nil, read_line. f_equal. apply (IH next Hrest).
Qed.

Lemma header_cells (mode : ConversionMode) :
  join "," (csvHeaders mode) = csvRecord (csvHeaders mode).
Proof. destruct mode; vm_compute; reflexivity. Qed.

Lemma toCSV_records (data : list QBOJournalEntry) (mode : ConversionMode) :
  toCSV data mode
  = join (String LF EmptyString) (map csvRecord (csvHeaders mode :: map (cellsOf mode) data)).
Proof.
  unfold toCSV. cbv zeta. rewrite header_cells. cbn [map]. do 2 f_equal.
  rewrite map_map. apply map_ext. intros row. unfold csvRecord, cellsOf.
  rewrite map_map. reflexivity.
Qed.

Lemma records_nonempty (data : list QBOJournalEntry) (mode : ConversionMode) :
  Forall (fun cells => cells <> []) (csvHeaders mode :: map (cellsOf mode) data).
Proof.
  constructor.
  - destruct mode; discriminate.
  - apply List.Forall_forall. intros cells Hin. apply in_map_iff in Hin as (row & <- & _).
    destruct mode; discriminate.
Qed.

(** What [toCSV] writes is read back cell for cell: a header record with
    the column titles of the mode, then one record per row with the value
    of each exported field (the empty text for an absent one), whatever
    commas, quotes or line feeds the values hold. *)
Theorem csv_round_trip (data : list QBOJournalEntry) (mode : ConversionMode) :
  readCsv (toCSV data mode) = csvHeaders mode :: map (cellsOf mode) data.
Proof.
  rewrite toCSV_records. apply read_records, records_nonempty.
Qed.

(** ** The order of the rows *)

Lemma filter_stdpp {A} (p : A -> bool) (l : list A) :
  filter (fun x => p x = true) l = List.filter p l.
Proof.
  induction l as [| x l IH]; [reflexivity |]. rewrite filter_cons. cbn [List.filter].
  destruct (decide (p x = true)) as [E | E].
  - rewrite E, IH. reflexivity.
  - apply not_true_is_false in E. rewrite E, IH. reflexivity.
Qed.

Lemma compareJournalNo_after (a b : QBOJournalEntry) :
  (0 <? compareJournalNo a b)%Z = String.ltb (JournalNo b) (JournalNo a).
Proof.
  unfold compareJournalNo. destruct (String.ltb (JournalNo a) (JournalNo b)) eqn:E.
  - rewrite (ltb_asym _ _ E). reflexivity.
  - destruct (String.ltb (JournalNo b) (JournalNo a)); reflexivity.
Qed.

(** The General-Ledger output is the list of the rows of the [SPL] lines,
    one row per line, sorted by journal number; the rows of one journal
    keep the order of their lines in the document. *)
Theorem gl_rows_ordered (iifString : string) (rows : list QBOJournalEntry) :
  convert iifString GL = Return rows ->
  let written := map (glRow (discoverHeader (splitLines iifString))) (splLines iifString) in
  Permutation written rows
  /\ length rows = length (splLines iifString)
  /\ StronglySorted journalOrder rows
  /\ (forall journalNo,
        List.filter (fun row => String.eqb (JournalNo row) journalNo) rows
        = List.filter (fun row => String.eqb (JournalNo row) journalNo) written).
Proof.
  unfold convert, convertGL. cbv zeta.
  destruct (noHeaders (discoverHeader (splitLines iifString))); [discriminate |].
  intros H. injection H as <-.
  rewrite glLoop_rows, filter_stdpp. cbn [app]. fold (splLines iifString).
  set (written := map _ (splLines iifString)).
  split; [apply sort_perm | split; [| split]].
  - rewrite <- (Permutation_length (sort_perm _ written)). apply length_map.
  - apply (sort_sorted _ (fun _ => True)).
    + intros a b c. apply leb_trans.
    + intros a b _ _ H. rewrite compareJournalNo_after in H. apply ltb_leb, H.
    + intros a b _ _ H. rewrite compareJournalNo_after in H. apply ltb_leb_weak, H.
    + apply List.Forall_forall. intros; exact I.
  - intros journalNo. apply sort_stable. intros a b Ha Hb.
    apply String.eqb_eq in Ha, Hb. rewrite compareJournalNo_after, Ha, Hb.
    apply ltb_irrefl.
Qed.

Lemma gl_rows_ordered_witness :
  exists rows,
    convert Sample.journal GL = Return rows
    /\ length rows = 2
    /\ StronglySorted journalOrder rows.
Proof.
  assert (E : exists rows, convert Sample.journal GL = Return rows)
    by (vm_compute; eexists; reflexivity).
  destruct E as [rows E]. exists rows. split; [exact E |].
  destruct (gl_rows_ordered Sample.journal rows E) as (_ & Hlen & Hsorted & _).
  split; [rewrite Hlen; vm_compute; reflexivity | exact Hsorted].
Defined.

(** ** The override tables *)

Lemma table_values (l : list (string * string)) (k v : string) :
  (list_to_map l : gmap string string) !! k = Some v -> In (k, v) l.
Proof.
  intros H. apply list_elem_of_In. apply elem_of_list_to_map_2 in H. exact H.
Qed.

(** No full name of the Accounts-Payable table is itself a short code of
    the table, and none is the control account. *)
Lemma apOverride_final (k v : string) :
  apAccountOverrides !! k = Some v ->
  v <> "0-201-0" /\ apAccountOverrides !! v = None.
Proof.
  intros H. apply table_values in H. cbn [In] in H.
  repeat (destruct H as [H | H]; [injection H as <- <-; split; [discriminate | vm_compute; reflexivity] |]).
  destruct H.
Qed.

Lemma glOverride_final (k v : string) :
  glAccountOverrides !! k = Some v -> glAccountOverrides !! v = None.
Proof.
  intros H. apply table_values in H. cbn [In] in H.
  repeat (destruct H as [H | H]; [injection H as <- <-; vm_compute; reflexivity |]).
  destruct H.
Qed.

(** ** The Accounts-Payable rows *)

Lemma billRow_shape (currentMap : gmap string nat) (ctx : Context) (line : string) :
  getVal (split TAB (trim line)) currentMap "ACCNT" <> "0-201-0" ->
  billShape (billRow currentMap ctx line).
Proof.
  intros Hacc. unfold billShape, billRow. cbv zeta.
  cbn [Account BillNo JournalNo Supplier Name DueDate LineAmount Debit Credit].
  set (raw := getVal (split TAB (trim line)) currentMap "ACCNT") in *.
  set (amountVal := parseFloat (getVal (split TAB (trim line)) currentMap "AMOUNT")).
  split; [| split; [| split; [| split; [| split; [| split]]]]].
  - destruct (apAccountOverrides !! raw) as [v |] eqn:E; cbn [default];
      [apply (apOverride_final raw v E) | exact Hacc].
  - destruct (apAccountOverrides !! raw) as [v |] eqn:E; cbn [default];
      [apply (apOverride_final raw v E) | exact E].
  - reflexivity.
  - reflexivity.
  - eexists. reflexivity.
  - eexists. split; [reflexivity |]. destruct (gt amountVal zero); [left | right]; reflexivity.
  - destruct (gt amountVal zero) eqn:G; [| left; reflexivity].
    right. rewrite (gt_lt_exclusive _ G). reflexivity.
Qed.

Lemma billsStep_shape (st : BillsState) (line : string) :
  Forall billShape (processedRows st) ->
  Forall billShape (processedRows (billsStep st line))
  /\ length (processedRows (billsStep st line))
     <= length (processedRows st) + (if startsWith line "SPL" then 1 else 0).
Proof.
  intros Hst. unfold billsStep.
  destruct (startsWith line "!TRNS") eqn:E1.
  { cbn [processedRows]. split; [exact Hst | lia]. }
  destruct (startsWith line "!SPL") eqn:E2.
  { cbn [processedRows]. split; [exact Hst | lia]. }
  destruct (negb (startsWith line "TRNS") && negb (startsWith line "SPL")) eqn:E3.
  { split; [exact Hst | lia]. }
  destruct (startsWith line "TRNS") eqn:E4.
  - destruct (noHeaders (headerMapTrns st)); cbn [processedRows]; (split; [exact Hst | lia]).
  - cbn [negb andb] in E3. apply Bool.negb_false_iff in E3. rewrite E3.
    destruct (noHeaders (headerMapSpl st)); [split; [exact Hst | lia] |].
    destruct (String.eqb_spec (getVal (split TAB (trim line)) (headerMapSpl st) "ACCNT")
                              "0-201-0") as [E | NE].
    + split; [exact Hst | lia].
    + cbn [processedRows]. split.
      * apply Forall_app. split; [exact Hst |].
        constructor; [apply billRow_shape, NE | constructor].
      * rewrite length_app. cbn [length]. lia.
Qed.

Lemma billsLoop_shape (lines : list string) :
  Forall billShape (processedRows (billsLoop lines))
  /\ length (processedRows (billsLoop lines))
     <= length (List.filter (fun line => startsWith line "SPL") lines).
Proof.
  induction lines as [| line lines [IH1 IH2]] using rev_ind.
  - split; [constructor | cbn; lia].
  - rewrite billsLoop_snoc. destruct (billsStep_shape (billsLoop lines) line IH1) as [H1 H2].
    split; [exact H1 |]. rewrite List.filter_app, length_app. cbn [List.filter].
    destruct (startsWith line "SPL"); cbn [length]; lia.
Qed.

Lemma compareBills_le (a b : QBOJournalEntry) :
  (0 <? compareBills a b)%Z = false -> billOrder a b.
Proof.
  unfold compareBills, billOrder.
  destruct (String.ltb (JournalDate a) (JournalDate b)) eqn:D1; [left; reflexivity |].
  destruct (String.ltb (JournalDate b) (JournalDate a)) eqn:D2; [discriminate |].
  intros H. right. split; [apply ltb_false_eq; assumption |].
  destruct (String.ltb (JournalNo a) (JournalNo b)) eqn:N1; [apply ltb_leb_weak, N1 |].
  destruct (String.ltb (JournalNo b) (JournalNo a)) eqn:N2; [discriminate H |].
  apply ltb_leb, N2.
Qed.

Lemma compareBills_gt (a b : QBOJournalEntry) :
  (0 <? compareBills a b)%Z = true -> billOrder b a.
Proof.
  unfold compareBills, billOrder.
  destruct (String.ltb (JournalDate a) (JournalDate b)) eqn:D1; [discriminate |].
  destruct (String.ltb (JournalDate b) (JournalDate a)) eqn:D2; [left; reflexivity |].
  intros H. right. split; [apply ltb_false_eq; assumption |].
  destruct (String.ltb (JournalNo a) (JournalNo b)) eqn:N1; [discriminate H |].
  destruct (String.ltb (JournalNo b) (JournalNo a)) eqn:N2; [| discriminate H].
  apply ltb_leb_weak, N2.
Qed.

Lemma billOrder_trans (a b c : QBOJournalEntry) :
  billOrder a b -> billOrder b c -> billOrder a c.
Proof.
  unfold billOrder. intros [H1 | [E1 H1]] [H2 | [E2 H2]].
  - left. eapply ltb_leb_trans; [exact H1 | apply ltb_leb_weak, H2].
  - left. rewrite <- E2. exact H1.
  - left. rewrite E1. exact H2.
  - right. split; [congruence | eapply leb_trans; eassumption].
Qed.

(** The Accounts-Payable output is the list of the rows written in the
    single pass, sorted by bill date and then by bill number; the rows of
    one bill keep the order of their lines in the document. *)
Theorem bill_rows_ordered (iifString : string) (rows : list QBOJournalEntry) :
  convert iifString AP = Return rows ->
  let written := processedRows (billsLoop (splitLines iifString)) in
  Permutation written rows
  /\ StronglySorted billOrder rows
  /\ (forall billDate billNo,
        List.filter (fun row => String.eqb (JournalDate row) billDate
                                && String.eqb (JournalNo row) billNo) rows
        = List.filter (fun row => String.eqb (JournalDate row) billDate
                                  && String.eqb (JournalNo row) billNo) written).
Proof.
  unfold convert, convertBills. cbv zeta. intros H. injection H as <-.
  set (written := processedRows (billsLoop (splitLines iifString))).
  split; [apply sort_perm | split].
  - apply (sort_sorted _ (fun _ => True)).
    + exact billOrder_trans.
    + intros a b _ _. apply compareBills_le.
    + intros a b _ _. apply compareBills_gt.
    + apply List.Forall_forall. intros; exact I.
  - intros billDate billNo. apply sort_stable. intros a b Ha Hb.
    apply andb_prop in Ha as [Ha1 Ha2]. apply andb_prop in Hb as [Hb1 Hb2].
    apply String.eqb_eq in Ha1, Ha2, Hb1, Hb2. unfold compareBills.
    rewrite Ha1, Ha2, Hb1, Hb2, !ltb_irrefl. reflexivity.
Qed.

Lemma bill_rows_ordered_witness :
  exists rows, convert Sample.bill AP = Return rows /\ StronglySorted billOrder rows.
Proof.
  assert (E : exists rows, convert Sample.bill AP = Return rows)
    by (vm_compute; eexists; reflexivity).
  destruct E as [rows E]. exists rows. split; [exact E |].
  exact (proj1 (proj2 (bill_rows_ordered Sample.bill rows E))).
Defined.

(** Every row of the Accounts-Payable output comes from an [SPL] line, at
    most one row per line ([TRNS] lines give none).  No row posts to the
    control account 0-201-0 or keeps a short code of the override table;
    every row carries the bill number and the supplier of its header, a due
    date, a line amount, and a zero in its debit or in its credit. *)
Theorem bill_rows_shape (iifString : string) (rows : list QBOJournalEntry) :
  convert iifString AP = Return rows ->
  length rows <= length (splLines iifString) /\ Forall billShape rows.
Proof.
  unfold convert, convertBills. cbv zeta. intros H. injection H as <-.
  destruct (billsLoop_shape (splitLines iifString)) as [Hshape Hlen].
  pose proof (sort_perm (fun a b => (0 <? compareBills a b)%Z)
                        (processedRows (billsLoop (splitLines iifString)))) as Hperm.
  split.
  - rewrite <- (Permutation_length Hperm). exact Hlen.
  - apply (Permutation_Forall Hperm), Hshape.
Qed.

Lemma bill_rows_shape_witness :
  exists rows,
    convert Sample.bill AP = Return rows /\ length rows <= 2 /\ Forall billShape rows.
Proof.
  assert (E : exists rows, convert Sample.bill AP = Return rows)
    by (vm_compute; eexists; reflexivity).
  destruct E as [rows E]. exists rows. split; [exact E |].
  exact (bill_rows_shape Sample.bill rows E).
Defined.

(** ** The rows of the General-Ledger mode *)

Lemma startsWith_app (p x : string) : startsWith (String.app p x) p = true.
Proof.
  induction p as [| c p IH]; [destruct x; reflexivity |].
  rewrite append_cons, startsWith_cons, Ascii.eqb_refl. exact IH.
Qed.

Lemma journalNoOf_prefix (rawDate : string) : startsWith (journalNoOf rawDate) "CPIIF-" = true.
Proof.
  unfold journalNoOf. destruct (split "/" rawDate) as [| mm [| dd [| yyyy [| ? ?]]]];
    apply startsWith_app.
Qed.

Lemma glRow_shape (headerMap : gmap string nat) (line : string) :
  journalShape (glRow headerMap line).
Proof.
  unfold journalShape.
  assert (Hdc : Debit (glRow headerMap line) = "" \/ Credit (glRow headerMap line) = "").
  { unfold glRow. cbv zeta.
    pose proof (proj2 (proj2 (parseAmount_split
                                (getVal (split TAB (trim line)) headerMap "AMOUNT")))) as H.
    destruct (parseAmount _) as [d c]. exact H. }
  unfold glRow in *. cbv zeta in *.
  destruct (parseAmount (getVal (split TAB (trim line)) headerMap "AMOUNT")) as [d c].
  cbn [JournalNo JournalDate Account Debit Credit DueDate LineAmount BillNo Supplier] in *.
  split; [reflexivity |]. split; [apply journalNoOf_prefix |].
  split; [| split; [exact Hdc | repeat split]].
  set (raw := getVal (split TAB (trim line)) headerMap "ACCNT").
  destruct (glAccountOverrides !! raw) as [v |] eqn:E; cbn [default];
    [apply (glOverride_final raw v E) | exact E].
Qed.

(** Every row of the General-Ledger output carries the journal number
    derived from its own date (rows of one date form one journal), names
    an account that the override table does not abbreviate any further,
    has an empty debit or an empty credit, and has none of the bill
    fields. *)
Theorem gl_rows_shape (iifString : string) (rows : list QBOJournalEntry) :
  convert iifString GL = Return rows ->
  Forall journalShape rows
  /\ (forall a b, In a rows -> In b rows ->
        JournalDate a = JournalDate b -> JournalNo a = JournalNo b).
Proof.
  unfold convert, convertGL. cbv zeta.
  destruct (noHeaders (discoverHeader (splitLines iifString))); [discriminate |].
  intros H. injection H as <-.
  assert (Hall : Forall journalShape
                   (sort (fun a b => (0 <? compareJournalNo a b)%Z)
                         (fold_left (glStep (discoverHeader (splitLines iifString)))
                                    (splitLines iifString) []))).
  { apply (Permutation_Forall (sort_perm _ _)). rewrite glLoop_rows. cbn [app].
    apply List.Forall_forall. intros row Hin. apply in_map_iff in Hin as (line & <- & _).
    apply glRow_shape. }
  split; [exact Hall |]. rewrite List.Forall_forall in Hall.
  intros a b Ha Hb E. rewrite (proj1 (Hall a Ha)), (proj1 (Hall b Hb)), E. reflexivity.
Qed.

Lemma gl_rows_shape_witness :
  exists rows, convert Sample.journal GL = Return rows /\ Forall journalShape rows.
Proof.
  assert (E : exists rows, convert Sample.journal GL = Return rows)
    by (vm_compute; eexists; reflexivity).
  destruct E as [rows E]. exists rows. split; [exact E |].
  exact (proj1 (gl_rows_shape Sample.journal rows E)).
Defined.

End ExportFacts.

(* ===================================================================== *)
(** * The converter view                                                *)
(* ===================================================================== *)

Module ViewFacts.
Import JS Spec Invariants ExportInvariants JSFacts HostFacts ExportFacts.
Import Converter ConverterFacts IIFConverter.

(** After a file has been processed the view shows either a table or an
    error, never both and never neither: the table is not empty exactly
    when there is no error message, and it is then what [convert] returned
    for the text in the mode of the view.  A document that [convert] turns
    into no row is reported with the message "No valid transactions found
    in file."; in particular, in Accounts-Payable mode, a document without
    any [!TRNS] or [!SPL] declaration line. *)
Theorem processed_file (st : State) (file : InputFile) :
  let st' := processFile st file in
  (errorMessage st' = None <-> convertedData st' <> [])
  /\ (convertedData st' <> [] ->
        exists text, IIFConverter.text file = Resolved text
                     /\ convert text (conversionMode st) = Return (convertedData st'))
  /\ (forall text,
        IIFConverter.text file = Resolved text ->
        convert text (conversionMode st) = Return [] ->
        errorMessage st' = Some "No valid transactions found in file.")
  /\ (forall text,
        IIFConverter.text file = Resolved text ->
        conversionMode st = AP ->
        Forall (fun line => startsWith line "!TRNS" = false
                            /\ startsWith line "!SPL" = false) (splitLines text) ->
        errorMessage st' = Some "No valid transactions found in file."
        /\ convertedData st' = []).
Proof.
  cbv zeta. unfold processFile, readFile.
  destruct (IIFConverter.text file) as [text | message] eqn:Etext.
  - destruct (convert text (conversionMode st)) as [data | message] eqn:Econv.
    + destruct data as [| row data]; cbn [length Nat.eqb errorMessage convertedData].
      * split; [split; [discriminate | congruence] |].
        split; [congruence |]. split; [reflexivity |]. intros; split; reflexivity.
      * split; [split; [discriminate | reflexivity] |].
        split; [intros _; exists text; split; [reflexivity | exact Econv] |].
        split.
        -- intros text' H. injection H as <-. rewrite Econv. discriminate.
        -- intros text' H Hmode Hlines. injection H as <-. exfalso.
           rewrite Hmode in Econv. unfold convert, convertBills in Econv.
           rewrite (billsLoop_undeclared _ Hlines) in Econv. discriminate Econv.
    + cbn [errorMessage convertedData].
      split; [split; [discriminate | congruence] |].
      split; [congruence |]. split.
      * intros text' H. injection H as <-. rewrite Econv. discriminate.
      * intros text' H Hmode Hlines. injection H as <-. exfalso.
        rewrite Hmode in Econv. discriminate Econv.
  - cbn [errorMessage convertedData].
    split; [split; [discriminate | congruence] |].
    split; [congruence |]. split; intros text' H; discriminate H.
Qed.

Lemma processed_file_witness :
  errorMessage (processFile Sample.apView Sample.undeclaredFile)
  = Some "No valid transactions found in file."
  /\ convertedData (processFile Sample.apView Sample.undeclaredFile) = [].
Proof.
  apply (proj2 (proj2 (proj2 (processed_file Sample.apView Sample.undeclaredFile)))
           Sample.undeclared).
  - reflexivity.
  - reflexivity.
  - vm_compute. repeat constructor.
Defined.

(** The download never uses the bill layout: whatever the mode of the
    view, a non-empty table is exported with the journal header and the
    eight journal columns of every row (nothing is exported for an empty
    table), so the bill number, the supplier and the line amount of a bill
    row are not in the file. *)
Theorem download_is_journal_layout (st : State) :
  match downloadCsv st with
  | None => convertedData st = []
  | Some content =>
      convertedData st <> []
      /\ readCsv content
         = ["JournalNo"; "JournalDate"; "DueDate"; "Description"; "Account"; "Debit";
            "Credit"; "Name"]
           :: map (fun row => [JournalNo row; JournalDate row;
                               default "" (DueDate row); Description row; Account row;
                               Debit row; Credit row; Name row])
                  (convertedData st)
  end.
Proof.
  unfold downloadCsv. destruct (convertedData st) as [| row data] eqn:E.
  - reflexivity.
  - cbn [length Nat.eqb]. split; [discriminate |].
    rewrite toCSV_records, read_records by apply records_nonempty.
    cbn [csvHeaders]. f_equal. apply map_ext. intros r.
    unfold cellsOf, valueOf. cbn [csvFieldNames map fieldOf].
    assert (Hor : forall s, or_else s EmptyString = s) by (intros [| c s]; reflexivity).
    rewrite !Hor. destruct (DueDate r) as [due |]; [rewrite Hor |]; reflexivity.
Qed.

(** Pushing never reaches the ledger.  With an empty table the handler
    returns at once; otherwise, in either mode and whatever the service has
    in its maps, the main process answers with a failure, the view shows
    "Sync Failed: this.getBaseUrl is not a function" and no result, and
    the remote ledger is left as it was. *)
Theorem push_never_submits (remote : Type)
        (makePost : remote -> string -> QBSync.payload -> remote * outcome unit)
        (realmId today : string) (st : State) (qbSync : QBSync.QBSyncService)
        (r : remote) :
  let (st', r') := handlePushToQBO remote makePost realmId today st qbSync r in
  r' = r
  /\ syncResult st' = (if Nat.eqb (length (convertedData st)) 0 then syncResult st else None)
  /\ errorMessage st'
     = (if Nat.eqb (length (convertedData st)) 0 then errorMessage st
        else Some "Sync Failed: this.getBaseUrl is not a function")
  /\ convertedData st' = convertedData st.
Proof.
  unfold handlePushToQBO.
  destruct (Nat.eqb (length (convertedData st)) 0); [repeat split |].
  unfold Main.handleSync. destruct (conversionMode st); repeat split.
Qed.

End ViewFacts.

(* ===================================================================== *)
(** * More on the sync                                                  *)
(* ===================================================================== *)

Module SubmissionFacts.
Import JS Spec Invariants SyncInvariants JSFacts HostFacts QBSync QBSyncFacts.

(** ** Dates *)

Lemma allDigits_no (sep : ascii) (s : string) :
  isDigit sep = false -> allDigits s = true ->
  forallb (fun c => negb (Ascii.eqb c sep)) (list_ascii_of_string s) = true.
Proof.
  intros Hsep. unfold allDigits. induction s as [| c r IH]; simpl; [reflexivity |].
  intros H. apply andb_prop in H as [Hc Hr]. rewrite (IH Hr), andb_true_r.
  destruct (Ascii.eqb_spec c sep); [subst c; congruence | reflexivity].
Qed.

Lemma split_three (sep : ascii) (a b c : string) :
  isDigit sep = false ->
  allDigits a = true -> allDigits b = true -> allDigits c = true ->
  split sep (String.app a (String sep (String.app b (String sep c)))) = [a; b; c].
Proof.
  intros Hsep Ha Hb Hc.
  rewrite split_app by (apply allDigits_no; assumption).
  rewrite split_app by (apply allDigits_no; assumption).
  rewrite split_none by (apply allDigits_no; assumption).
  reflexivity.
Qed.

Lemma allDigits_app (a b : string) :
  allDigits (String.app a b) = allDigits a && allDigits b.
Proof.
  unfold allDigits. induction a as [| c a IH]; [reflexivity |].
  rewrite append_cons. cbn [list_ascii_of_string forallb]. rewrite IH.
  apply andb_assoc.
Qed.

Lemma length_append (a b : string) :
  String.length (String.app a b) = String.length a + String.length b.
Proof.
  induction a as [| c a IH]; [reflexivity |]. rewrite append_cons. cbn [String.length].
  rewrite IH. reflexivity.
Qed.

Lemma padZeros_short (s : string) :
  shortField s = true ->
  allDigits (padZeros 2 s) = true /\ String.length (padZeros 2 s) = 2.
Proof.
  unfold shortField. intros H. apply andb_prop in H as [Hd Hl].
  destruct s as [| c1 [| c2 [| c3 s]]]; try discriminate Hl; unfold padZeros;
    cbn [String.length Nat.sub repeat string_of_list_ascii].
  - rewrite append_cons, append_nil. split; [| reflexivity].
    unfold allDigits in *. cbn [list_ascii_of_string forallb] in *. exact Hd.
  - rewrite append_nil. split; [exact Hd | reflexivity].
Qed.

Lemma digit_pieces_no_slash (s : string) :
  Forall (fun piece => allDigits piece = true) (split "-" s) ->
  forallb (fun c => negb (Ascii.eqb c "/")) (list_ascii_of_string s) = true.
Proof.
  induction s as [| c r IH]; [reflexivity |]. cbn [split list_ascii_of_string forallb].
  destruct (Ascii.eqb_spec c "-") as [-> | Hc].
  - intros H. inversion H as [| ? ? _ Hr]; subst. rewrite (IH Hr). reflexivity.
  - destruct (split "-" r) as [| h t] eqn:E; [destruct (split_nonempty _ _ E) |].
    intros H. inversion H as [| ? ? Hch Ht]; subst.
    unfold allDigits in Hch. cbn [list_ascii_of_string forallb] in Hch.
    apply andb_prop in Hch as [Hd Hh].
    rewrite IH by (constructor; assumption). rewrite andb_true_r.
    destruct (Ascii.eqb_spec c "/"); [subst c; discriminate Hd | reflexivity].
Qed.

(** A date that already has the shape [YYYY-MM-DD] is sent as it is. *)
Lemma formatDate_of_iso (today s : string) :
  isoDate s = true -> formatDate today (Some s) = s.
Proof.
  intros H. unfold formatDate.
  assert (Hs : truthy s = true) by (destruct s; [discriminate H | reflexivity]).
  rewrite Hs. cbn [negb]. rewrite split_none; [reflexivity |].
  apply digit_pieces_no_slash. unfold isoDate in H.
  destruct (split "-" s) as [| y [| m [| d [| ? ?]]]]; try discriminate H.
  repeat (apply andb_prop in H as [H ?]). repeat constructor; assumption.
Qed.

(** A date written month/day/year with one or two digits for the month and
    for the day and two or four digits for the year is sent as
    [YYYY-MM-DD]: the fields are reordered, month and day are padded with a
    zero and a two-digit year is read in the century 2000.  Formatting the
    result again changes nothing. *)
Theorem formatDate_iso (today m d y : string) :
  shortField m = true -> shortField d = true -> yearField y = true ->
  let sent := formatDate today (Some (template [m; "/"; d; "/"; y])) in
  sent = template [if Nat.eqb (String.length y) 2 then String.app "20" y else y;
                   "-"; padZeros 2 m; "-"; padZeros 2 d]
  /\ isoDate sent = true
  /\ formatDate today (Some sent) = sent.
Proof.
  intros Hm Hd Hy sent.
  pose proof Hm as Hm'. pose proof Hd as Hd'. pose proof Hy as Hy'.
  apply andb_prop in Hm' as [Hmd Hml]. apply andb_prop in Hd' as [Hdd Hdl].
  apply andb_prop in Hy' as [Hyd Hyl].
  assert (E : sent = template [if Nat.eqb (String.length y) 2 then String.app "20" y else y;
                               "-"; padZeros 2 m; "-"; padZeros 2 d]).
  { subst sent. unfold formatDate.
    assert (Ht : truthy (template [m; "/"; d; "/"; y]) = true).
    { destruct m as [| c m]; [discriminate Hml | reflexivity]. }
    rewrite Ht. cbn [negb]. unfold template at 1. cbn [fold_right].
    rewrite append_nil_r, !append_cons, !append_nil.
    rewrite (split_three "/" m d y eq_refl Hmd Hdd Hyd). reflexivity. }
  split; [exact E |].
  assert (Hiso : isoDate sent = true); [| split; [exact Hiso | apply formatDate_of_iso, Hiso]].
  rewrite E. clear E sent.
  destruct (padZeros_short m Hm) as [Hpm Hlm]. destruct (padZeros_short d Hd) as [Hpd Hld].
  set (year := if Nat.eqb (String.length y) 2 then String.app "20" y else y).
  assert (Hyear : allDigits year = true /\ String.length year = 4).
  { subst year. destruct (Nat.eqb (String.length y) 2) eqn:E2.
    - apply Nat.eqb_eq in E2. rewrite allDigits_app, length_append, Hyd, E2.
      split; reflexivity.
    - cbn [orb] in Hyl. apply Nat.eqb_eq in Hyl. split; assumption. }
  destruct Hyear as [Hyd' Hyl'].
  unfold isoDate, template. cbn [fold_right].
  rewrite append_nil_r, !append_cons, !append_nil.
  rewrite (split_three "-" year (padZeros 2 m) (padZeros 2 d) eq_refl Hyd' Hpm Hpd).
  rewrite Hyd', Hpm, Hpd, Hyl', Hlm, Hld. reflexivity.
Qed.

Lemma formatDate_iso_witness :
  formatDate "2024-01-09" (Some "1/5/24") = "2024-01-05"
  /\ isoDate (formatDate "2024-01-09" (Some "12/31/2023")) = true.
Proof.
  split.
  - apply (formatDate_iso "2024-01-09" "1" "5" "24"); reflexivity.
  - apply (formatDate_iso "2024-01-09" "12" "31" "2023"); reflexivity.
Defined.

(** ** Refreshing the maps *)

Lemma length_keys {V} (o : object V) : length (keys o) = length o.
Proof. rewrite (Permutation_length (keys_perm o)). apply length_map. Qed.

Lemma length_set {V} (o : object V) (k : string) (v : V) :
  length o <= length (set o k v) <= S (length o).
Proof.
  induction o as [| [k' v'] o IH]; cbn [set length]; [lia |].
  destruct (String.eqb k' k); cbn [length]; lia.
Qed.

Lemma length_store {A} (key value : A -> string) (l : list A) (map : object string) :
  length map <= length (fold_left (fun m a => set m (key a) (value a)) l map)
  <= length map + length l.
Proof.
  revert map. induction l as [| a l IH]; intros map; cbn [fold_left length]; [lia |].
  specialize (IH (set map (key a) (value a))).
  pose proof (length_set map (key a) (value a)). lia.
Qed.

(** The three ways a refresh can end.  When the account query fails the
    refresh rejects with its error, the maps are untouched and the vendor
    query is not made.  When the vendor query fails the refresh rejects
    although the fetched accounts are already stored; the vendor map is
    untouched.  When both queries succeed the counts returned are the sizes
    of the two maps: never less than before the refresh and never more than
    the old size plus the number of rows fetched. *)
Theorem refresh_outcomes (remote : Type)
        (makeQuery : remote -> string -> remote * outcome (option QueryResponse))
        (realmId : string) (sandbox : bool) (this : QBSyncService) (r : remote) :
  let refreshed := refreshMappings remote makeQuery realmId sandbox this r in
  let accUrl := queryUrl realmId sandbox "Account" in
  let venUrl := queryUrl realmId sandbox "Vendor" in
  (forall r1 e,
      makeQuery r accUrl = (r1, Rejected e) -> refreshed = (this, r1, Rejected e))
  /\ (forall r1 accData r2 e,
        makeQuery r accUrl = (r1, Resolved accData) ->
        makeQuery r1 venUrl = (r2, Rejected e) ->
        refreshed
        = ({| accountMap := storeAccounts (accountMap this) (fetchedAccounts accData);
              vendorMap := vendorMap this |}, r2, Rejected e))
  /\ (forall this' r' accounts vendors,
        refreshed = (this', r', Resolved (accounts, vendors)) ->
        exists r1 accData venData,
          makeQuery r accUrl = (r1, Resolved accData)
          /\ makeQuery r1 venUrl = (r', Resolved venData)
          /\ accounts = length (accountMap this')
          /\ vendors = length (vendorMap this')
          /\ length (accountMap this) <= accounts
             <= length (accountMap this) + length (fetchedAccounts accData)
          /\ length (vendorMap this) <= vendors
             <= length (vendorMap this) + length (fetchedVendors venData)).
Proof.
  cbv zeta. unfold refreshMappings. split; [| split].
  - intros r1 e ->. reflexivity.
  - intros r1 accData r2 e -> . cbn [accountMap vendorMap]. intros ->. reflexivity.
  - intros this' r' accounts vendors.
    destruct (makeQuery r (queryUrl realmId sandbox "Account")) as [r1 [accData | e]]
      eqn:Eacc; [| discriminate].
    destruct (makeQuery r1 (queryUrl realmId sandbox "Vendor")) as [r2 [venData | e]]
      eqn:Even; [| discriminate].
    cbn [accountMap vendorMap]. intros H. injection H as <- <- <- <-.
    exists r1, accData, venData. cbn [accountMap vendorMap].
    rewrite !length_keys.
    pose proof (length_store (fun acc => trim (Name acc)) Id
                  (fetchedAccounts accData) (accountMap this)) as Ha.
    pose proof (length_store (fun ven => trim (DisplayName ven)) VendorId
                  (fetchedVendors venData) (vendorMap this)) as Hv.
    split; [reflexivity |]. split; [exact Even |]. split; [reflexivity |].
    split; [reflexivity |]. split; [exact Ha | exact Hv].
Qed.

Lemma refresh_outcomes_witness :
  refreshMappings (list payload) Sample.vendorsDown "9130" true Sample.refreshedBefore []
  = ({| accountMap := [("0-999-0 CLOSED ACCOUNT", "3"); ("0-401-0 SALES", "7")];
        vendorMap := [] |}, [], Rejected "Request failed with status code 503").
Proof.
  apply (proj1 (proj2 (refresh_outcomes (list payload) Sample.vendorsDown "9130" true
                         Sample.refreshedBefore [])) []
           (Some {| QR_Account := Some [{| Name := "0-401-0 SALES"; Id := "7" |}];
                    QR_Vendor := Some [] |})).
  - vm_compute. reflexivity.
  - vm_compute. reflexivity.
Defined.

(** ** Payloads *)

(** ** A map that may throw *)



Section Lines.
Variable this : QBSyncService.




End Lines.




Section Isolation.
Variable remote : Type.
Variable makePost : remote -> string -> payload -> remote * outcome unit.
Variable label url : string.
Variable build : string -> list Converter.QBOJournalEntry -> completion payload.

End Isolation.


(** ** Grouping by key *)

Section Collect.
Context {A : Type} (key : A -> string).







End Collect.





End SubmissionFacts.

(* ===================================================================== *)
(** * The amounts that reach the ledger                                 *)
(* ===================================================================== *)

Module AmountFacts.
Import JS Spec Invariants JSFacts HostFacts Converter ConverterFacts QBSync.













End AmountFacts.

(* ===================================================================== *)
(** * The PDF reports                                                   *)
(* ===================================================================== *)

Module PdfFacts.
Import JS Spec Invariants LedgerInvariants SyncInvariants PdfInvariants.
Import JSFacts HostFacts QBSyncFacts SubmissionFacts.
Import CsvProcessor CsvProcessorFacts PdfGenerator.




Section Tables.
Variable newDate : string -> Date.
Variable toLocaleTimeString : Date -> string.






End Tables.


(** ** Batch subtotals *)






End PdfFacts.

(* ===================================================================== *)
(** * Runs of the model                                                    *)
(* ===================================================================== *)

Module Runs.
Import JS.

Example parseFloat_prefix : toFixed (parseFloat "  -12.345abc") 2 = "-12.35".
Proof. vm_compute. reflexivity. Qed.

Example parseFloat_fraction_only : toFixed (parseFloat ".5") 2 = "0.50".
Proof. vm_compute. reflexivity. Qed.

Example parseFloat_empty : toFixed (parseFloat "") 2 = "NaN".
Proof. vm_compute. reflexivity. Qed.

Example toFixed_small_negative : toFixed (parseFloat "-.004") 2 = "-0.00".
Proof. vm_compute. reflexivity. Qed.

Example toFixed_exponent : toFixed (parseFloat "12345e20") 2 = "1.2345e+24".
Proof. vm_compute. reflexivity. Qed.

Example splitLines_crlf :
  splitLines (String "a" (String CR (String LF (String "b" EmptyString)))) = ["a"; "b"].
Proof. vm_compute. reflexivity. Qed.

Example trim_both_ends : trim "  ab c  " = "ab c".
Proof. vm_compute. reflexivity. Qed.

Example keys_order :
  keys [("b", 1); ("20", 2); ("a", 3); ("2", 4); ("02", 5)] = ["2"; "20"; "b"; "a"; "02"].
Proof. vm_compute. reflexivity. Qed.

Example setDate_leap_day :
  toLocaleDateString (ValidDate (setDate (Civil 2024 1 29 16 0 0) 30)) = "3/1/2024".
Proof. vm_compute. reflexivity. Qed.

Example two_reporting_days :
  match CsvProcessor.parseShopifyCSV Sample.newDate Sample.getTime Sample.now
          Sample.toISOString [Sample.morning; Sample.evening] with
  | Resolved s =>
      (CsvProcessor.dateRange s,
       toFixed (CsvProcessor.totalNet s) 2,
       map (fun g => (CsvProcessor.date g, CsvProcessor.count g,
                      toFixed (CsvProcessor.subtotalNet g) 2))
           (CsvProcessor.dailyGroups s))
      = ("1/5/2024 - 1/6/2024", "146.50",
         [("1/6/2024", 1, "49.00"); ("1/5/2024", 1, "97.50")])
  | Rejected _ => False
  end.
Proof. vm_compute. reflexivity. Qed.

Example bill_rows :
  match Converter.convert Sample.bill Converter.AP with
  | Return rows =>
      map (fun r => (Converter.BillNo r, Converter.Supplier r, Converter.Account r,
                     Converter.LineAmount r)) rows
      = [(Some "B-7", Some "ACME", "0-682-0 SHIPPING EXPENSE", Some "12.50");
         (Some "B-7", Some "ACME", "0-115-0", Some "NaN")]
  | Throw _ => False
  end.
Proof. vm_compute. reflexivity. Qed.

(** One journal of three cannot be resolved: the two others are submitted. *)
Example partial_batch :
  let '(received, res) :=
    QBSync.submitJournalEntries Sample.remote Sample.makePost "123" "2024-01-09"
      "https://quickbooks.api.intuit.com" Sample.mapped [] Sample.threeJournals in
  (QBSync.success res, QBSync.failed res, QBSync.errors res, length received)
  = (2, 1,
     [template ["Journal CPIIF-010624: Account "; dquote; "0-777-0 UNKNOWN"; dquote;
                " not found in QuickBooks."]],
     2).
Proof. vm_compute. reflexivity. Qed.

End Runs.
